(** * argocd-operator: Role / ClusterRole reconciliation and the
      deployment policies of the ArgoCD controller package

    A shallow embedding of [pkg/controller/argocd/role.go] together with the
    parts of the deployment reconcilers that the package tests exercise.
    The Kubernetes API client, the reconciler-hook registry and the process
    environment are outside the package: they are an interface ([Runtime])
    over an abstract world, and every call the reconcilers issue through it
    is recorded in a call log, so that statements about which calls are (not)
    issued can be made precisely. *)

From stdpp Require Import base option list strings gmap fin_maps.

Open Scope string_scope.
Open Scope list_scope.

(** ** Errors *)

(** [k8s.io/apimachinery/pkg/api/errors]: an API status error carries a
    reason; [fmt.Errorf] without [%w] yields a plain string error. *)
Inductive StatusReason :=
| StatusReasonNotFound
| StatusReasonAlreadyExists
| StatusReasonConflict
| StatusReasonForbidden
| StatusReasonInternalError.

Inductive error :=
| StatusError (reason : StatusReason) (message : string)
| errorString (s : string).

(** [err.Error()] *)
Definition Error (e : error) : string :=
  match e with
  | StatusError _ m => m
  | errorString s => s
  end.

(** [errors.IsNotFound(err)] *)
Definition IsNotFound (e : error) : bool :=
  match e with
  | StatusError StatusReasonNotFound _ => true
  | _ => false
  end.

(** ** API objects *)

Module OwnerReference.
Record t := mk {
  Kind : string;
  Name : string;
  Controller : bool }.
End OwnerReference.

Module ObjectMeta.
Record t := mk {
  Name : string;
  Namespace : string;
  Labels : gmap string string;
  Annotations : gmap string string;
  OwnerReferences : list OwnerReference.t }.

Definition with_Namespace (ns : string) (m : t) : t :=
  mk (Name m) ns (Labels m) (Annotations m) (OwnerReferences m).
End ObjectMeta.

Module PolicyRule.
Record t := mk {
  Verbs : list string;
  APIGroups : list string;
  Resources : list string;
  ResourceNames : list string;
  NonResourceURLs : list string }.
End PolicyRule.

Module Role.
Record t := mk {
  ObjectMeta : ObjectMeta.t;
  Rules : list PolicyRule.t }.

Definition Name (r : t) : string := ObjectMeta.Name (ObjectMeta r).
Definition Namespace (r : t) : string := ObjectMeta.Namespace (ObjectMeta r).

(** [role.Namespace = ns] *)
Definition with_Namespace (ns : string) (r : t) : t :=
  mk (ObjectMeta.with_Namespace ns (ObjectMeta r)) (Rules r).

(** [role.Rules = rules] *)
Definition with_Rules (rules : list PolicyRule.t) (r : t) : t :=
  mk (ObjectMeta r) rules.
End Role.

Module ClusterRole.
Record t := mk {
  ObjectMeta : ObjectMeta.t;
  Rules : list PolicyRule.t }.

Definition Name (r : t) : string := ObjectMeta.Name (ObjectMeta r).

(** [clusterRole.Rules = rules] *)
Definition with_Rules (rules : list PolicyRule.t) (r : t) : t :=
  mk (ObjectMeta r) rules.
End ClusterRole.

(** [corev1.Namespace], as far as the reconcilers look at it. *)
Module Namespace.
Record t := mk {
  Name : string;
  Labels : gmap string string }.
End Namespace.

(** [types.NamespacedName] *)
Module NamespacedName.
Record t := mk {
  Namespace : string;
  Name : string }.
End NamespacedName.

(** [corev1.EnvVar], [corev1.ContainerPort], [corev1.VolumeMount],
    [corev1.Volume] and [corev1.Container], with the fields the package
    tests compare. *)
Module EnvVar.
Record t := mk {
  Name : string;
  Value : string }.
End EnvVar.

Module ContainerPort.
Record t := mk {
  Name : string;
  ContainerPort : Z }.
End ContainerPort.

Module VolumeMount.
Record t := mk {
  Name : string;
  MountPath : string }.
End VolumeMount.

Inductive VolumeSource :=
| EmptyDir
| ConfigMap (name : string)
| Secret (secretName : string) (optional : bool).

Module Volume.
Record t := mk {
  Name : string;
  VolumeSource : VolumeSource }.
End Volume.

Module Container.
Record t := mk {
  Name : string;
  Image : string;
  Command : list string;
  Env : list EnvVar.t;
  Ports : list ContainerPort.t;
  VolumeMounts : list VolumeMount.t;
  ImagePullPolicy : string }.

Definition with_Image (image : string) (c : t) : t :=
  mk (Name c) image (Command c) (Env c) (Ports c) (VolumeMounts c)
     (ImagePullPolicy c).
End Container.

(** The custom resource: object name and namespace, and the two spec
    toggles the tests below set ([Spec.Server.Insecure],
    [Spec.Repo.PluginContainers]). *)
Module ArgoCDServerSpec.
Record t := mk {
  Insecure : bool }.
End ArgoCDServerSpec.

Module ArgoCDRepoSpec.
Record t := mk {
  PluginContainers : list Container.t }.
End ArgoCDRepoSpec.

Module ArgoCDSpec.
Record t := mk {
  Repo : ArgoCDRepoSpec.t;
  Server : ArgoCDServerSpec.t }.
End ArgoCDSpec.

Module ArgoCD.
Record t := mk {
  Name : string;
  Namespace : string;
  Spec : ArgoCDSpec.t }.
End ArgoCD.

(** [runtime.Object], restricted to the kinds role.go sends to the client. *)
Inductive Object :=
| RoleObject (r : Role.t)
| ClusterRoleObject (c : ClusterRole.t).

(** ** controller-runtime: [controllerutil.SetControllerReference]

    The library function is outside the package.  role.go calls it on an
    object before Create and drops the error it returns, so an object the
    library refuses is created as it was.  The owner is always the ArgoCD
    custom resource. *)
Module controllerutil.

(** The reference [SetControllerReference] builds for the owner:
    [Controller] and [BlockOwnerDeletion] set. *)
Definition newControllerRef (owner : ArgoCD.t) : OwnerReference.t :=
  OwnerReference.mk "ArgoCD" (ArgoCD.Name owner) true.

(** [validateOwner]: a namespaced owner is refused for a cluster-scoped
    object ("cluster-scoped resource must not have a namespace-scoped
    owner") and for an object of another namespace ("cross-namespace owner
    references are disallowed"). *)
Definition validateOwner (ownerNs objNs : string) : bool :=
  if bool_decide (ownerNs = "") then true
  else if bool_decide (objNs = "") then false
  else bool_decide (ownerNs = objNs).

(** [referSameObject]: same group, kind and name. *)
Definition referSameObject (a b : OwnerReference.t) : bool :=
  bool_decide (OwnerReference.Kind a = OwnerReference.Kind b) &&
  bool_decide (OwnerReference.Name a = OwnerReference.Name b).

(** [validateControllerRef]: the object may not be controlled by another
    owner already ([metav1.GetControllerOf] is the first reference with
    [Controller] set). *)
Definition validateControllerRef (refs : list OwnerReference.t)
  (ref : OwnerReference.t) : bool :=
  match find OwnerReference.Controller refs with
  | Some existing => referSameObject existing ref
  | None => true
  end.

(** [upsertOwnerRef]: replace the reference to the same object, or append. *)
Fixpoint upsertOwnerRef (ref : OwnerReference.t)
  (refs : list OwnerReference.t) : list OwnerReference.t :=
  match refs with
  | [] => [ref]
  | r :: rest =>
    if referSameObject r ref then ref :: rest
    else r :: upsertOwnerRef ref rest
  end.

(** [SetControllerReference(owner, controlled, scheme)], as the metadata of
    [controlled] after the call: unchanged when the call returns an error. *)
Definition SetControllerReference (owner : ArgoCD.t) (controlled : ObjectMeta.t)
  : ObjectMeta.t :=
  let ref := newControllerRef owner in
  let refs := ObjectMeta.OwnerReferences controlled in
  if negb (validateOwner (ArgoCD.Namespace owner)
             (ObjectMeta.Namespace controlled)) then controlled
  else if negb (validateControllerRef refs ref) then controlled
  else
    ObjectMeta.mk (ObjectMeta.Name controlled) (ObjectMeta.Namespace controlled)
      (ObjectMeta.Labels controlled) (ObjectMeta.Annotations controlled)
      (upsertOwnerRef ref refs).

End controllerutil.

Arguments controllerutil.SetControllerReference : simpl never.

(** [strconv.Quote] and the [%q] verb on a name that needs no escaping: the name between
    double quotes (character 34). *)
Definition goQuote (s : string) : string :=
  String (Ascii.ascii_of_nat 34) s +:+ String (Ascii.ascii_of_nat 34) "".

(** ** Component names (the [const] block of role.go) *)

Definition applicationController : string := "argocd-application-controller".
Definition server : string := "argocd-server".
Definition redisHa : string := "argocd-redis-ha".
Definition dexServer : string := "argocd-dex-server".

(** [common.ArgoCDManagedByLabel] *)
Definition ArgoCDManagedByLabel : string := "argocd.argoproj.io/managed-by".

(** ** The world outside the package *)

(** One entry per call that leaves the package. *)
Inductive Call :=
| CallHook (o : Object)
| CallList (matching : gmap string string)
| CallGetRole (key : NamespacedName.t)
| CallGetClusterRole (key : NamespacedName.t)
| CallCreate (o : Object)
| CallUpdate (o : Object)
| CallDelete (o : Object).

(** A write is a Create, an Update or a Delete. *)
Definition isWrite (c : Call) : bool :=
  match c with
  | CallCreate _ | CallUpdate _ | CallDelete _ => true
  | _ => false
  end.

(** Everything role.go calls but does not define: the controller-runtime
    client ([r.client]), [controllerutil.SetControllerReference] (whose
    returned error role.go discards, so only the resulting metadata
    matters), [os.Getenv], and the package helpers that live in other files
    ([applyReconcilerHook], [isDexDisabled], [allowedNamespace], the label,
    annotation and policy-rule builders).  Calls that can touch the cluster
    or the hook registry transform the world [W]. *)
Class Runtime (W : Type) := {
  ListNamespaces : gmap string string -> W -> (error + list Namespace.t) * W;
  GetRole : NamespacedName.t -> W -> (error + Role.t) * W;
  CreateRole : Role.t -> W -> option error * W;
  UpdateRole : Role.t -> W -> option error * W;
  DeleteRole : Role.t -> W -> option error * W;
  GetClusterRole : NamespacedName.t -> W -> (error + ClusterRole.t) * W;
  CreateClusterRole : ClusterRole.t -> W -> option error * W;
  UpdateClusterRole : ClusterRole.t -> W -> option error * W;
  DeleteClusterRole : ClusterRole.t -> W -> option error * W;
  SetControllerReference : ArgoCD.t -> ObjectMeta.t -> ObjectMeta.t;
  Getenv : string -> W -> string;
  hookRole : ArgoCD.t -> Role.t -> string -> W -> (error + Role.t) * W;
  hookClusterRole :
    ArgoCD.t -> ClusterRole.t -> string -> W -> (error + ClusterRole.t) * W;
  isDexDisabled : W -> bool;
  allowedNamespace : string -> string -> bool;
  labelsForCluster : ArgoCD.t -> gmap string string;
  annotationsForCluster : ArgoCD.t -> gmap string string;
  policyRuleForApplicationController : list PolicyRule.t;
  policyRuleForDexServer : list PolicyRule.t;
  policyRuleForServer : list PolicyRule.t;
  policyRuleForRedisHa : ArgoCD.t -> list PolicyRule.t;
  policyRuleForServerClusterRole : list PolicyRule.t }.

(** ** A state monad over the world and the call log *)

Record State (W : Type) := mkState {
  world : W;
  calls : list Call }.
Arguments mkState {W} _ _.
Arguments world {W} _.
Arguments calls {W} _.

Definition M (W A : Type) : Type := State W -> A * State W.

Definition ret {W A} (a : A) : M W A := fun s => (a, s).

Definition bind {W A B} (c : M W A) (k : A -> M W B) : M W B :=
  fun s => let (a, s') := c s in k a s'.

Notation "x <~ c ;; k" := (bind c (fun x => k))
  (at level 100, c at next level, right associativity).

(** Issue a call: record it, then let the world answer. *)
Definition issue {W A} (c : Call) (f : W -> A * W) : M W A :=
  fun s => let (a, w) := f (world s) in (a, mkState w (calls s ++ [c])).

(** Look at the world without calling out. *)
Definition observe {W A} (f : W -> A) : M W A :=
  fun s => (f (world s), s).

(** ** role.go *)

Section RoleGo.
Context {W : Type} `{Runtime W}.

(** [generateResourceName] *)
Definition generateResourceName (argoComponentName : string) (cr : ArgoCD.t)
  : string :=
  ArgoCD.Name cr +:+ "-" +:+ argoComponentName.

(** [GenerateUniqueResourceName] generates unique names for cluster scoped
    resources. *)
Definition GenerateUniqueResourceName (argoComponentName : string)
  (cr : ArgoCD.t) : string :=
  ArgoCD.Name cr +:+ "-" +:+ ArgoCD.Namespace cr +:+ "-" +:+ argoComponentName.

(** [newRole] returns a new Role instance. *)
Definition newRole (name : string) (rules : list PolicyRule.t) (cr : ArgoCD.t)
  : Role.t :=
  Role.mk
    (ObjectMeta.mk (generateResourceName name cr) (ArgoCD.Namespace cr)
       (labelsForCluster cr) ∅ [])
    rules.

(** [newClusterRole] *)
Definition newClusterRole (name : string) (rules : list PolicyRule.t)
  (cr : ArgoCD.t) : ClusterRole.t :=
  ClusterRole.mk
    (ObjectMeta.mk (GenerateUniqueResourceName name cr) ""
       (labelsForCluster cr) (annotationsForCluster cr) [])
    rules.

(** The client and hook calls, each recorded in the log. *)
Definition clientList (matching : gmap string string)
  : M W (error + list Namespace.t) :=
  issue (CallList matching) (ListNamespaces matching).

Definition clientGetRole (key : NamespacedName.t) : M W (error + Role.t) :=
  issue (CallGetRole key) (GetRole key).

Definition clientCreateRole (r : Role.t) : M W (option error) :=
  issue (CallCreate (RoleObject r)) (CreateRole r).

Definition clientUpdateRole (r : Role.t) : M W (option error) :=
  issue (CallUpdate (RoleObject r)) (UpdateRole r).

Definition clientDeleteRole (r : Role.t) : M W (option error) :=
  issue (CallDelete (RoleObject r)) (DeleteRole r).

Definition clientGetClusterRole (key : NamespacedName.t)
  : M W (error + ClusterRole.t) :=
  issue (CallGetClusterRole key) (GetClusterRole key).

Definition clientCreateClusterRole (c : ClusterRole.t) : M W (option error) :=
  issue (CallCreate (ClusterRoleObject c)) (CreateClusterRole c).

Definition clientUpdateClusterRole (c : ClusterRole.t) : M W (option error) :=
  issue (CallUpdate (ClusterRoleObject c)) (UpdateClusterRole c).

Definition clientDeleteClusterRole (c : ClusterRole.t) : M W (option error) :=
  issue (CallDelete (ClusterRoleObject c)) (DeleteClusterRole c).

Definition applyReconcilerHookRole (cr : ArgoCD.t) (r : Role.t)
  (hint : string) : M W (error + Role.t) :=
  issue (CallHook (RoleObject r)) (hookRole cr r hint).

Definition applyReconcilerHookClusterRole (cr : ArgoCD.t) (c : ClusterRole.t)
  (hint : string) : M W (error + ClusterRole.t) :=
  issue (CallHook (ClusterRoleObject c)) (hookClusterRole cr c hint).

(** [controllerutil.SetControllerReference(cr, role, r.scheme)]; the object
    is changed in place and the returned error is dropped by role.go. *)
Definition setRoleOwner (cr : ArgoCD.t) (r : Role.t) : Role.t :=
  Role.mk (SetControllerReference cr (Role.ObjectMeta r)) (Role.Rules r).

Definition setClusterRoleOwner (cr : ArgoCD.t) (c : ClusterRole.t)
  : ClusterRole.t :=
  ClusterRole.mk (SetControllerReference cr (ClusterRole.ObjectMeta c))
    (ClusterRole.Rules c).

(** [name == dexServer && isDexDisabled()] *)
Definition dexGate (name : string) : M W bool :=
  observe (fun w => bool_decide (name = dexServer) && isDexDisabled w).

(** [fmt.Errorf("failed to reconcile the role for the service account
    associated with %s : %s", name, err)] *)
Definition roleLookupError (name : string) (err : error) : error :=
  errorString
    ("failed to reconcile the role for the service account associated with "
       +:+ name +:+ " : " +:+ Error err).

(** [fmt.Errorf("failed to reconcile the cluster role for the service account
    associated with %s : %s", name, err)] *)
Definition clusterRoleLookupError (name : string) (err : error) : error :=
  errorString
    ("failed to reconcile the cluster role for the service account associated with "
       +:+ name +:+ " : " +:+ Error err).

(** The body of the [for _, namespace := range namespaces.Items] loop of
    [reconcileRole].  [inl err] is [return nil, err]; [inr roles] carries the
    [roles] slice into the next iteration ([continue] or falling off the end
    of the body).  In the not-found branch the source appends the pointer
    [role] to [roles] before the Dex check; [SetControllerReference] then
    changes the object behind that pointer, so on the create path the slice
    holds the object as that call left it. *)
Definition reconcileRoleIteration (name : string)
  (policyRules : list PolicyRule.t) (cr : ArgoCD.t)
  (namespace : Namespace.t) (roles : list Role.t)
  : M W (error + list Role.t) :=
  let role := newRole name policyRules cr in
  h <~ applyReconcilerHookRole cr role "" ;;
  match h with
  | inl err => ret (inl err)
  | inr role =>
    let role := Role.with_Namespace (Namespace.Name namespace) role in
    g <~ clientGetRole
           (NamespacedName.mk (Role.Namespace role) (Role.Name role)) ;;
    match g with
    | inl err =>
      if negb (IsNotFound err) then ret (inl (roleLookupError name err))
      else
        disabled <~ dexGate name ;;
        if disabled then ret (inr (roles ++ [role]))
        else
          let role := setRoleOwner cr role in
          c <~ clientCreateRole role ;;
          match c with
          | Some err => ret (inl err)
          | None => ret (inr (roles ++ [role]))
          end
    | inr existingRole =>
      disabled <~ dexGate name ;;
      if disabled then
        d <~ clientDeleteRole existingRole ;;
        match d with
        | Some err => ret (inl err)
        | None => ret (inr roles)
        end
      else
        let existingRole := Role.with_Rules (Role.Rules role) existingRole in
        u <~ clientUpdateRole existingRole ;;
        match u with
        | Some err => ret (inl err)
        | None => ret (inr (roles ++ [existingRole]))
        end
    end
  end.

(** The [for ... range namespaces.Items] loop. *)
Fixpoint reconcileRoleLoop (name : string) (policyRules : list PolicyRule.t)
  (cr : ArgoCD.t) (items : list Namespace.t) (roles : list Role.t)
  : M W (error + list Role.t) :=
  match items with
  | [] => ret (inr roles)
  | namespace :: rest =>
    r <~ reconcileRoleIteration name policyRules cr namespace roles ;;
    match r with
    | inl err => ret (inl err)
    | inr roles => reconcileRoleLoop name policyRules cr rest roles
    end
  end.

(** [reconcileRole] reconciles the policy rules for different ArgoCD
    components, for each namespace managed by a single instance of ArgoCD.
    The result is the Go pair [([]*v1.Role, error)]; a nil slice is [[]]. *)
Definition reconcileRole (name : string) (policyRules : list PolicyRule.t)
  (cr : ArgoCD.t) : M W (list Role.t * option error) :=
  let listOption : gmap string string :=
    {[ ArgoCDManagedByLabel := ArgoCD.Namespace cr ]} in
  l <~ clientList listOption ;;
  match l with
  | inl err => ret ([], Some err)
  | inr items =>
    r <~ reconcileRoleLoop name policyRules cr items [] ;;
    match r with
    | inl err => ret ([], Some err)
    | inr roles => ret (roles, None)
    end
  end.

(** [reconcileClusterRole]; the result is the Go pair
    of a ClusterRole pointer and an error, both halves of which can be set at once
    ([return clusterRole, r.client.Create(...)]). *)
Definition reconcileClusterRole (name : string)
  (policyRules : list PolicyRule.t) (cr : ArgoCD.t)
  : M W (option ClusterRole.t * option error) :=
  allowed <~ observe (fun w =>
    allowedNamespace (ArgoCD.Namespace cr)
      (Getenv "ARGOCD_CLUSTER_CONFIG_NAMESPACES" w)) ;;
  let clusterRole := newClusterRole name policyRules cr in
  h <~ applyReconcilerHookClusterRole cr clusterRole "" ;;
  match h with
  | inl err => ret (None, Some err)
  | inr clusterRole =>
    g <~ clientGetClusterRole
           (NamespacedName.mk "" (ClusterRole.Name clusterRole)) ;;
    match g with
    | inl err =>
      if negb (IsNotFound err)
      then ret (None, Some (clusterRoleLookupError name err))
      else if negb allowed then ret (None, None)
      else
        let clusterRole := setClusterRoleOwner cr clusterRole in
        c <~ clientCreateClusterRole clusterRole ;;
        ret (Some clusterRole, c)
    | inr existingClusterRole =>
      if negb allowed then
        d <~ clientDeleteClusterRole existingClusterRole ;;
        ret (None, d)
      else
        let existingClusterRole :=
          ClusterRole.with_Rules (ClusterRole.Rules clusterRole)
            existingClusterRole in
        u <~ clientUpdateClusterRole existingClusterRole ;;
        ret (Some existingClusterRole, u)
    end
  end.

(** [reconcileRoles] will ensure that all ArgoCD Service Accounts are
    configured.  The named result [role] is never assigned, so
    [return role, err] returns a nil Role. *)
Definition reconcileRoles (cr : ArgoCD.t)
  : M W (option Role.t * option error) :=
  let role : option Role.t := None in
  r1 <~ reconcileRole applicationController
          policyRuleForApplicationController cr ;;
  match snd r1 with
  | Some err => ret (role, Some err)
  | None =>
  r2 <~ reconcileRole dexServer policyRuleForDexServer cr ;;
  match snd r2 with
  | Some err => ret (role, Some err)
  | None =>
  r3 <~ reconcileRole server policyRuleForServer cr ;;
  match snd r3 with
  | Some err => ret (role, Some err)
  | None =>
  r4 <~ reconcileRole redisHa (policyRuleForRedisHa cr) cr ;;
  match snd r4 with
  | Some err => ret (role, Some err)
  | None =>
  c1 <~ reconcileClusterRole applicationController
          policyRuleForApplicationController cr ;;
  match snd c1 with
  | Some err => ret (None, Some err)
  | None =>
  c2 <~ reconcileClusterRole server policyRuleForServerClusterRole cr ;;
  match snd c2 with
  | Some err => ret (None, Some err)
  | None => ret (None, None)
  end end end end end end.

End RoleGo.

(** ** An in-memory runtime

    The package tests run the reconcilers against controller-runtime's fake
    client: objects live in a map keyed by namespace and name, Get of a
    missing object is a NotFound status error, Create of an existing one is
    AlreadyExists, Update and Delete of a missing one are NotFound.  On top
    of that the world carries the process environment, the registered hooks
    and a fault table that makes chosen calls fail, which is how lookup and
    write failures are exhibited on concrete runs. *)

Module Fake.
Record t := mk {
  Namespaces : list Namespace.t;
  Roles : gmap (string * string) Role.t;
  ClusterRoles : gmap string ClusterRole.t;
  Env : gmap string string;
  Fault : Call -> option error;
  HookCalls : nat;
  RoleHook : nat -> ArgoCD.t -> Role.t -> error + Role.t;
  ClusterRoleHook : nat -> ArgoCD.t -> ClusterRole.t -> error + ClusterRole.t }.

Definition with_Roles (roles : gmap (string * string) Role.t) (w : t) : t :=
  mk (Namespaces w) roles (ClusterRoles w) (Env w) (Fault w) (HookCalls w)
     (RoleHook w) (ClusterRoleHook w).

Definition with_ClusterRoles (crs : gmap string ClusterRole.t) (w : t) : t :=
  mk (Namespaces w) (Roles w) crs (Env w) (Fault w) (HookCalls w)
     (RoleHook w) (ClusterRoleHook w).

Definition with_Fault (fault : Call -> option error) (w : t) : t :=
  mk (Namespaces w) (Roles w) (ClusterRoles w) (Env w) fault (HookCalls w)
     (RoleHook w) (ClusterRoleHook w).

Definition with_RoleHook (hook : nat -> ArgoCD.t -> Role.t -> error + Role.t)
  (w : t) : t :=
  mk (Namespaces w) (Roles w) (ClusterRoles w) (Env w) (Fault w) (HookCalls w)
     hook (ClusterRoleHook w).

Definition with_ClusterRoleHook
  (hook : nat -> ArgoCD.t -> ClusterRole.t -> error + ClusterRole.t) (w : t)
  : t :=
  mk (Namespaces w) (Roles w) (ClusterRoles w) (Env w) (Fault w) (HookCalls w)
     (RoleHook w) hook.

(** The hook registry is process-wide state: a registered hook is a closure
    and may answer differently from one call to the next, which the count of
    hook calls made so far stands for. *)
Definition hooked (w : t) : t :=
  mk (Namespaces w) (Roles w) (ClusterRoles w) (Env w) (Fault w)
     (S (HookCalls w)) (RoleHook w) (ClusterRoleHook w).

(** The qualified resources of the objects, as [schema.GroupResource]
    prints them. *)
Definition roles : string := "roles.rbac.authorization.k8s.io".
Definition clusterroles : string := "clusterroles.rbac.authorization.k8s.io".
Definition deployments : string := "deployments.apps".

(** [apierrors.NewNotFound] and [apierrors.NewAlreadyExists]: the message is
    the qualified resource and the quoted name. *)
Definition notFound (resource name : string) : error :=
  StatusError StatusReasonNotFound
    (resource +:+ " " +:+ goQuote name +:+ " not found").

Definition alreadyExists (resource name : string) : error :=
  StatusError StatusReasonAlreadyExists
    (resource +:+ " " +:+ goQuote name +:+ " already exists").

Definition roleKey (r : Role.t) : string * string :=
  (Role.Namespace r, Role.Name r).

Definition matches (matching labels : gmap string string) : bool :=
  forallb (fun kv => bool_decide (labels !! kv.1 = Some kv.2))
    (map_to_list matching).

Definition listNamespaces (matching : gmap string string) (w : t)
  : (error + list Namespace.t) * t :=
  match Fault w (CallList matching) with
  | Some e => (inl e, w)
  | None =>
    (inr (filter (fun n => matches matching (Namespace.Labels n) = true)
            (Namespaces w)), w)
  end.

Definition getRole (key : NamespacedName.t) (w : t) : (error + Role.t) * t :=
  match Fault w (CallGetRole key) with
  | Some e => (inl e, w)
  | None =>
    match Roles w !! (NamespacedName.Namespace key, NamespacedName.Name key) with
    | Some r => (inr r, w)
    | None => (inl (notFound roles (NamespacedName.Name key)), w)
    end
  end.

Definition createRole (r : Role.t) (w : t) : option error * t :=
  match Fault w (CallCreate (RoleObject r)) with
  | Some e => (Some e, w)
  | None =>
    match Roles w !! roleKey r with
    | Some _ => (Some (alreadyExists roles (Role.Name r)), w)
    | None => (None, with_Roles (<[roleKey r := r]> (Roles w)) w)
    end
  end.

Definition updateRole (r : Role.t) (w : t) : option error * t :=
  match Fault w (CallUpdate (RoleObject r)) with
  | Some e => (Some e, w)
  | None =>
    match Roles w !! roleKey r with
    | Some _ => (None, with_Roles (<[roleKey r := r]> (Roles w)) w)
    | None => (Some (notFound roles (Role.Name r)), w)
    end
  end.

Definition deleteRole (r : Role.t) (w : t) : option error * t :=
  match Fault w (CallDelete (RoleObject r)) with
  | Some e => (Some e, w)
  | None =>
    match Roles w !! roleKey r with
    | Some _ => (None, with_Roles (delete (roleKey r) (Roles w)) w)
    | None => (Some (notFound roles (Role.Name r)), w)
    end
  end.

Definition getClusterRole (key : NamespacedName.t) (w : t)
  : (error + ClusterRole.t) * t :=
  match Fault w (CallGetClusterRole key) with
  | Some e => (inl e, w)
  | None =>
    match ClusterRoles w !! NamespacedName.Name key with
    | Some c => (inr c, w)
    | None => (inl (notFound clusterroles (NamespacedName.Name key)), w)
    end
  end.

Definition createClusterRole (c : ClusterRole.t) (w : t) : option error * t :=
  match Fault w (CallCreate (ClusterRoleObject c)) with
  | Some e => (Some e, w)
  | None =>
    match ClusterRoles w !! ClusterRole.Name c with
    | Some _ => (Some (alreadyExists clusterroles (ClusterRole.Name c)), w)
    | None =>
      (None,
       with_ClusterRoles (<[ClusterRole.Name c := c]> (ClusterRoles w)) w)
    end
  end.

Definition updateClusterRole (c : ClusterRole.t) (w : t) : option error * t :=
  match Fault w (CallUpdate (ClusterRoleObject c)) with
  | Some e => (Some e, w)
  | None =>
    match ClusterRoles w !! ClusterRole.Name c with
    | Some _ =>
      (None,
       with_ClusterRoles (<[ClusterRole.Name c := c]> (ClusterRoles w)) w)
    | None => (Some (notFound clusterroles (ClusterRole.Name c)), w)
    end
  end.

Definition deleteClusterRole (c : ClusterRole.t) (w : t) : option error * t :=
  match Fault w (CallDelete (ClusterRoleObject c)) with
  | Some e => (Some e, w)
  | None =>
    match ClusterRoles w !! ClusterRole.Name c with
    | Some _ =>
      (None, with_ClusterRoles (delete (ClusterRole.Name c) (ClusterRoles w)) w)
    | None => (Some (notFound clusterroles (ClusterRole.Name c)), w)
    end
  end.

(** [os.Getenv]: the empty string for an unset variable. *)
Definition getenv (key : string) (w : t) : string :=
  default "" (Env w !! key).

(** [controllerutil.SetControllerReference], as the library has it. *)
Definition setControllerReference (cr : ArgoCD.t) (m : ObjectMeta.t)
  : ObjectMeta.t :=
  controllerutil.SetControllerReference cr m.

(** Split a comma-separated list. *)
Fixpoint splitList (acc s : string) : list string :=
  match s with
  | EmptyString => [acc]
  | String c rest =>
    if bool_decide (String c "" = ",") then acc :: splitList "" rest
    else splitList (acc +:+ String c "") rest
  end.

Definition allowed (current namespaces : string) : bool :=
  bool_decide (namespaces ≠ "") &&
  (bool_decide (head (splitList "" namespaces) = Some "*") ||
   bool_decide (current ∈ splitList "" namespaces)).

Definition rule (verbs groups resources : list string) : PolicyRule.t :=
  PolicyRule.mk verbs groups resources [] [].
End Fake.

#[global] Instance fakeRuntime : Runtime Fake.t := {
  ListNamespaces := Fake.listNamespaces;
  GetRole := Fake.getRole;
  CreateRole := Fake.createRole;
  UpdateRole := Fake.updateRole;
  DeleteRole := Fake.deleteRole;
  GetClusterRole := Fake.getClusterRole;
  CreateClusterRole := Fake.createClusterRole;
  UpdateClusterRole := Fake.updateClusterRole;
  DeleteClusterRole := Fake.deleteClusterRole;
  SetControllerReference := Fake.setControllerReference;
  Getenv := Fake.getenv;
  hookRole := fun cr r _ w =>
    (Fake.RoleHook w (Fake.HookCalls w) cr r, Fake.hooked w);
  hookClusterRole := fun cr c _ w =>
    (Fake.ClusterRoleHook w (Fake.HookCalls w) cr c, Fake.hooked w);
  isDexDisabled := fun w => bool_decide (Fake.getenv "DISABLE_DEX" w = "true");
  allowedNamespace := Fake.allowed;
  labelsForCluster := fun cr =>
    {[ "app.kubernetes.io/part-of" := "argocd";
       "app.kubernetes.io/name" := ArgoCD.Name cr ]};
  annotationsForCluster := fun cr =>
    {[ "argocds.argoproj.io/name" := ArgoCD.Name cr;
       "argocds.argoproj.io/namespace" := ArgoCD.Namespace cr ]};
  policyRuleForApplicationController := [Fake.rule ["*"] ["*"] ["*"]];
  policyRuleForDexServer :=
    [Fake.rule ["get"; "list"; "watch"] [""] ["secrets"; "configmaps"]];
  policyRuleForServer :=
    [Fake.rule ["get"; "list"; "watch"] [""] ["secrets"; "configmaps"];
     Fake.rule ["create"; "list"] [""] ["events"]];
  policyRuleForRedisHa := fun _ => [Fake.rule ["get"] [""] ["endpoints"]];
  policyRuleForServerClusterRole :=
    [Fake.rule ["get"; "delete"; "patch"] ["*"] ["*"]] }.

(** A test custom resource, as [makeTestArgoCD] builds it. *)
Definition testArgoCD : ArgoCD.t :=
  ArgoCD.mk "argocd" "argocd"
    (ArgoCDSpec.mk (ArgoCDRepoSpec.mk []) (ArgoCDServerSpec.mk false)).

Definition managedNamespace (name : string) : Namespace.t :=
  Namespace.mk name {[ ArgoCDManagedByLabel := "argocd" ]}.

(** A cluster with the given managed namespaces and no Role yet. *)
Definition emptyCluster (names : list string) (env : gmap string string)
  : Fake.t :=
  Fake.mk (managedNamespace <$> names) ∅ ∅ env (fun _ => None) 0
    (fun _ _ r => inr r) (fun _ _ c => inr c).

Definition start {W} (w : W) : State W := mkState w [].

(** ** The deployment reconcilers

    deployment.go is not part of the sources at hand; what is, is its test
    file.  The definitions of this module follow the specification (sections
    4.4 and 4.5) and take the concrete names, commands, ports and mounts from
    the values the tests expect.  They run against the in-memory store the
    tests use. *)

Module PodSpec.
Record t := mk {
  Volumes : list Volume.t;
  InitContainers : list Container.t;
  Containers : list Container.t;
  ServiceAccountName : string }.
End PodSpec.

(** [appsv1.Deployment]; [Spec] is [Spec.Template.Spec]. *)
Module Deployment.
Record t := mk {
  Name : string;
  Namespace : string;
  Spec : PodSpec.t }.

Definition with_Spec (p : PodSpec.t) (d : t) : t :=
  mk (Name d) (Namespace d) p.
End Deployment.

Module Deployments.

(** The process environment; [os.Getenv] gives the empty string for an
    unset variable. *)
Definition Getenv (env : gmap string string) (key : string) : string :=
  default "" (env !! key).

(** [strings.ToLower] on ASCII names. *)
Definition lowerAscii (c : Ascii.ascii) : Ascii.ascii :=
  let n := Ascii.nat_of_ascii c in
  if (65 <=? n)%nat && (n <=? 90)%nat then Ascii.ascii_of_nat (n + 32) else c.

Fixpoint ToLower (s : string) : string :=
  match s with
  | EmptyString => EmptyString
  | String c rest => String (lowerAscii c) (ToLower rest)
  end.

(** The process variables the injector reads, under these exact names. *)
Definition proxyKeys : list string := ["HTTP_PROXY"; "HTTPS_PROXY"; "no_proxy"].

(** Is there an entry named [key], in whatever case? *)
Definition present (key : string) (vars : list EnvVar.t) : bool :=
  existsb (fun v => bool_decide (ToLower (EnvVar.Name v) = ToLower key)) vars.

(** Modelled from the spec: [proxyEnvVars] of deployment.go is missing.
    "Given an existing ordered environment-variable list and the
    process-level HTTP_PROXY/HTTPS_PROXY/no_proxy values (case-sensitive
    variable names, but presence-checking against existing entries is
    case-insensitive), appends any proxy variable that has a non-empty
    process value and is not already present under any case variant." *)
Definition proxyEnvVars (env : gmap string string) (vars : list EnvVar.t)
  : list EnvVar.t :=
  fold_left
    (fun result p =>
       let v := Getenv env p in
       if bool_decide (v ≠ "") && negb (present p vars)
       then result ++ [EnvVar.mk p v]
       else result)
    proxyKeys vars.

(** Modelled from the spec: [isDexDisabled] is missing; Dex is "globally
    disabled (controlled by an environment flag)", [DISABLE_DEX=true]. *)
Definition isDexDisabled (env : gmap string string) : bool :=
  bool_decide (Getenv env "DISABLE_DEX" = "true").

(** The in-memory store of Deployments, keyed by namespace and name, with
    the fake client's answers. *)
Definition key (d : Deployment.t) : string * string :=
  (Deployment.Namespace d, Deployment.Name d).

Definition Get (k : string * string) (store : gmap (string * string) Deployment.t)
  : error + Deployment.t :=
  match store !! k with
  | Some d => inr d
  | None => inl (Fake.notFound Fake.deployments k.2)
  end.

Definition Create (d : Deployment.t)
  (store : gmap (string * string) Deployment.t)
  : option error * gmap (string * string) Deployment.t :=
  match store !! key d with
  | Some _ => (Some (Fake.alreadyExists Fake.deployments (Deployment.Name d)), store)
  | None => (None, <[key d := d]> store)
  end.

Definition Update (d : Deployment.t)
  (store : gmap (string * string) Deployment.t)
  : option error * gmap (string * string) Deployment.t :=
  match store !! key d with
  | Some _ => (None, <[key d := d]> store)
  | None => (Some (Fake.notFound Fake.deployments (Deployment.Name d)), store)
  end.

Definition Delete (d : Deployment.t)
  (store : gmap (string * string) Deployment.t)
  : option error * gmap (string * string) Deployment.t :=
  match store !! key d with
  | Some _ => (None, delete (key d) store)
  | None => (Some (Fake.notFound Fake.deployments (Deployment.Name d)), store)
  end.

Section Reconcilers.

(** The image helpers of the package ([getArgoContainerImage],
    [getDexContainerImage], [getRepoServerContainerImage]) and the command,
    ports and init command of the repo server are not fixed by the tests at
    hand. *)
Variable getArgoContainerImage : ArgoCD.t -> string.
Variable getDexContainerImage : ArgoCD.t -> string.
Variable getRepoServerContainerImage : ArgoCD.t -> string.
Variable getArgoRepoCommand : ArgoCD.t -> list string.
Variable repoServerPorts : list ContainerPort.t.
Variable repoCopyutilCommand : list string.

(** The process environment of the operator. *)
Variable env : gmap string string.

(** Deployments are named [<instance>-<suffix>] and live in the namespace of
    the custom resource. *)
Definition nameWithSuffix (suffix : string) (cr : ArgoCD.t) : string :=
  ArgoCD.Name cr +:+ "-" +:+ suffix.

Definition newDeploymentWithSuffix (suffix : string) (cr : ArgoCD.t)
  (spec : PodSpec.t) : Deployment.t :=
  Deployment.mk (nameWithSuffix suffix cr) (ArgoCD.Namespace cr) spec.

(** *** Dex *)

(** Modelled from the spec: the builder of the Dex pod spec is missing; this
    is the pod spec [TestReconcileArgoCD_reconcileDexDeployment] expects,
    with the proxy variables injected into every container. *)
Definition dexPodSpec (cr : ArgoCD.t) : PodSpec.t :=
  PodSpec.mk
    [Volume.mk "static-files" EmptyDir]
    [Container.mk "copyutil" (getArgoContainerImage cr)
       ["cp"; "-n"; "/usr/local/bin/argocd"; "/shared/argocd-dex"]
       (proxyEnvVars env [])
       []
       [VolumeMount.mk "static-files" "/shared"]
       "Always"]
    [Container.mk "dex" (getDexContainerImage cr)
       ["/shared/argocd-dex"; "rundex"]
       (proxyEnvVars env [])
       [ContainerPort.mk "http" 5556; ContainerPort.mk "grpc" 5557]
       [VolumeMount.mk "static-files" "/shared"]
       "Always"]
    (ArgoCD.Name cr +:+ "-argocd-dex-server").

(** Modelled from the spec: [reconcileDexDeployment] is missing.  "Dex:
    entire Deployment is deleted (not just scaled down) when the Dex feature
    is globally disabled (controlled by an environment flag), and recreated
    when re-enabled"; otherwise the four quadrants of section 4.2: not found
    and enabled creates, not found and disabled is a no-op, found and
    enabled converges the existing object onto the desired pod spec and
    updates. *)
Definition reconcileDexDeployment (cr : ArgoCD.t)
  (store : gmap (string * string) Deployment.t)
  : option error * gmap (string * string) Deployment.t :=
  let deploy := newDeploymentWithSuffix "dex-server" cr (dexPodSpec cr) in
  match Get (key deploy) store with
  | inr existing =>
    if isDexDisabled env then Delete existing store
    else Update (Deployment.with_Spec (Deployment.Spec deploy) existing) store
  | inl _ =>
    if isDexDisabled env then (None, store)
    else Create deploy store
  end.

(** *** Repo server *)

(** The volumes and mounts [repoServerDefaultVolumes] and
    [repoServerDefaultVolumeMounts] of the test file list. *)
Definition repoServerDefaultVolumes : list Volume.t :=
  [Volume.mk "ssh-known-hosts" (ConfigMap "argocd-ssh-known-hosts-cm");
   Volume.mk "tls-certs" (ConfigMap "argocd-tls-certs-cm");
   Volume.mk "gpg-keys" (ConfigMap "argocd-gpg-keys-cm");
   Volume.mk "gpg-keyring" EmptyDir;
   Volume.mk "argocd-repo-server-tls" (Secret "argocd-repo-server-tls" true);
   Volume.mk "var-files" EmptyDir].

Definition repoServerDefaultVolumeMounts : list VolumeMount.t :=
  [VolumeMount.mk "ssh-known-hosts" "/app/config/ssh";
   VolumeMount.mk "tls-certs" "/app/config/tls";
   VolumeMount.mk "gpg-keys" "/app/config/gpg/source";
   VolumeMount.mk "gpg-keyring" "/app/config/gpg/keys";
   VolumeMount.mk "argocd-repo-server-tls" "/app/config/reposerver/tls";
   VolumeMount.mk "var-files" "/var/run/argocd"].

(** The default container of the repo server. *)
Definition repoServerContainer (cr : ArgoCD.t) : Container.t :=
  Container.mk "argocd-repo-server" (getRepoServerContainerImage cr)
    (getArgoRepoCommand cr)
    (proxyEnvVars env [])
    repoServerPorts
    repoServerDefaultVolumeMounts
    "Always".

(** Modelled from the spec: the builder of the repo-server pod spec is
    missing.  "Repo-server: accepts a list of user-supplied plugin sidecar
    containers, appended after the default container(s)"; the volumes and
    mounts are those of the test file. *)
Definition repoPodSpec (cr : ArgoCD.t) : PodSpec.t :=
  PodSpec.mk
    repoServerDefaultVolumes
    [Container.mk "copyutil" (getArgoContainerImage cr)
       repoCopyutilCommand
       (proxyEnvVars env [])
       []
       [VolumeMount.mk "var-files" "/var/run/argocd"]
       "Always"]
    (repoServerContainer cr
       :: ArgoCDRepoSpec.PluginContainers (ArgoCDSpec.Repo (ArgoCD.Spec cr)))
    (ArgoCD.Name cr +:+ "-argocd-repo-server").

(** Modelled from the spec: the update path of the deployment reconcilers
    is missing.  The existing default container converges field by field
    (image, command, environment, mounts: "authoritative-replace, not
    merge"); its other fields stay as found. *)
Definition convergeContainer (desired existing : Container.t) : Container.t :=
  Container.mk (Container.Name existing) (Container.Image desired)
    (Container.Command desired) (Container.Env desired)
    (Container.Ports existing) (Container.VolumeMounts desired)
    (Container.ImagePullPolicy existing).

(** Modelled from the spec: [existing.Containers[0]] converged, followed by
    [desired.Containers[1:]]:
    "plugin containers are matched by position/identity and replaced
    wholesale (rename/image-change is reflected by replacing, not merging,
    the slice entry)". *)
Definition convergeContainers (desired existing : list Container.t)
  : list Container.t :=
  match desired, existing with
  | d0 :: plugins, e0 :: _ => convergeContainer d0 e0 :: plugins
  | _, _ => desired
  end.

Definition convergePodSpec (desired existing : PodSpec.t) : PodSpec.t :=
  PodSpec.mk (PodSpec.Volumes desired) (PodSpec.InitContainers desired)
    (convergeContainers (PodSpec.Containers desired)
       (PodSpec.Containers existing))
    (PodSpec.ServiceAccountName existing).

(** Modelled from the spec: [reconcileRepoDeployment] is missing.  Not found
    creates the desired Deployment; found converges the existing one
    (volumes and init containers replaced, default container converged,
    plugin containers replaced wholesale) and updates. *)
Definition reconcileRepoDeployment (cr : ArgoCD.t)
  (store : gmap (string * string) Deployment.t)
  : option error * gmap (string * string) Deployment.t :=
  let deploy := newDeploymentWithSuffix "repo-server" cr (repoPodSpec cr) in
  match Get (key deploy) store with
  | inr existing =>
    Update
      (Deployment.with_Spec
         (convergePodSpec (Deployment.Spec deploy) (Deployment.Spec existing))
         existing)
      store
  | inl _ => Create deploy store
  end.

(** *** Server *)

Definition serverDefaultVolumes : list Volume.t :=
  [Volume.mk "ssh-known-hosts" (ConfigMap "argocd-ssh-known-hosts-cm");
   Volume.mk "tls-certs" (ConfigMap "argocd-tls-certs-cm");
   Volume.mk "argocd-repo-server-tls" (Secret "argocd-repo-server-tls" true)].

Definition serverDefaultVolumeMounts : list VolumeMount.t :=
  [VolumeMount.mk "ssh-known-hosts" "/app/config/ssh";
   VolumeMount.mk "tls-certs" "/app/config/tls";
   VolumeMount.mk "argocd-repo-server-tls" "/app/config/server/tls"].

(** The in-cluster address of a component's service. *)
Definition fqdnServiceRef (suffix : string) (port : string) (cr : ArgoCD.t)
  : string :=
  nameWithSuffix suffix cr +:+ "." +:+ ArgoCD.Namespace cr
    +:+ ".svc.cluster.local:" +:+ port.

(** Modelled from the spec: the command builder of the server is missing.
    "Server: command-line arguments list conditionally includes an
    [--insecure] flag based on a spec toggle ... (order-sensitive:
    [--insecure] precedes [--staticassets] when present)"; the arguments are
    those the server tests expect. *)
Definition getArgoServerCommand (cr : ArgoCD.t) : list string :=
  let cmd := ["argocd-server"] in
  let cmd :=
    if ArgoCDServerSpec.Insecure (ArgoCDSpec.Server (ArgoCD.Spec cr))
    then cmd ++ ["--insecure"] else cmd in
  let cmd := cmd ++ ["--staticassets"; "/shared/app"] in
  let cmd :=
    cmd ++ ["--dex-server"; "http://" +:+ fqdnServiceRef "dex-server" "5556" cr] in
  let cmd :=
    cmd ++ ["--repo-server"; fqdnServiceRef "repo-server" "8081" cr] in
  cmd ++ ["--redis"; fqdnServiceRef "redis" "6379" cr].

Definition serverPodSpec (cr : ArgoCD.t) : PodSpec.t :=
  PodSpec.mk
    serverDefaultVolumes
    []
    [Container.mk "argocd-server" (getArgoContainerImage cr)
       (getArgoServerCommand cr)
       (proxyEnvVars env [])
       [ContainerPort.mk "" 8080; ContainerPort.mk "" 8083]
       serverDefaultVolumeMounts
       "Always"]
    (ArgoCD.Name cr +:+ "-argocd-server").

(** Modelled from the spec: [reconcileServerDeployment] is missing.
    "toggling the flag requires rebuilding and updating the full
    command-args list": found converges the existing container onto the
    desired image, command, environment and mounts and updates; not found
    creates. *)
Definition reconcileServerDeployment (cr : ArgoCD.t)
  (store : gmap (string * string) Deployment.t)
  : option error * gmap (string * string) Deployment.t :=
  let deploy := newDeploymentWithSuffix "server" cr (serverPodSpec cr) in
  match Get (key deploy) store with
  | inr existing =>
    Update
      (Deployment.with_Spec
         (convergePodSpec (Deployment.Spec deploy) (Deployment.Spec existing))
         existing)
      store
  | inl _ => Create deploy store
  end.

End Reconcilers.

(** [Spec.Server.Insecure = b] *)
Definition withInsecure (b : bool) (cr : ArgoCD.t) : ArgoCD.t :=
  ArgoCD.mk (ArgoCD.Name cr) (ArgoCD.Namespace cr)
    (ArgoCDSpec.mk (ArgoCDSpec.Repo (ArgoCD.Spec cr)) (ArgoCDServerSpec.mk b)).

(** [Spec.Repo.PluginContainers = plugins] *)
Definition withPluginContainers (plugins : list Container.t) (cr : ArgoCD.t)
  : ArgoCD.t :=
  ArgoCD.mk (ArgoCD.Name cr) (ArgoCD.Namespace cr)
    (ArgoCDSpec.mk (ArgoCDRepoSpec.mk plugins) (ArgoCDSpec.Server (ArgoCD.Spec cr))).

(** The containers of the stored Deployment, if it is there. *)
Definition containersOf (k : string * string)
  (store : gmap (string * string) Deployment.t) : option (list Container.t) :=
  (fun d => PodSpec.Containers (Deployment.Spec d)) <$> store !! k.

(** The command of the first container of the stored Deployment. *)
Definition commandOf (k : string * string)
  (store : gmap (string * string) Deployment.t) : option (list string) :=
  match containersOf k store with
  | Some (c :: _) => Some (Container.Command c)
  | _ => None
  end.

(** The values the tests set. *)
Definition testHTTPProxy : string := "example.com:8888".
Definition testHTTPSProxy : string := "example.com:8443".
Definition testNoProxy : string := ".example.com".

Definition testProxyEnv : gmap string string :=
  {[ "HTTP_PROXY" := testHTTPProxy;
     "HTTPS_PROXY" := testHTTPSProxy;
     "no_proxy" := testNoProxy ]}.

Definition cdk8s : Container.t :=
  Container.mk "cdk8s" "docker.ui/cdk8s/cdk8s:latest"
    ["/var/run/argocd/argocd-cmp-server"] [] []
    [VolumeMount.mk "var-files" "/var/run/argocd"] "".

Definition renamedPlugin : Container.t :=
  Container.with_Image "newimage:latest"
    (Container.mk "newname" (Container.Image cdk8s) (Container.Command cdk8s)
       (Container.Env cdk8s) (Container.Ports cdk8s)
       (Container.VolumeMounts cdk8s) (Container.ImagePullPolicy cdk8s)).

End Deployments.

(** ** Concrete clusters for the examples *)

(** A Role left in the cluster by an earlier version: other rules, a label
    of its own. *)
Definition staleRole (name namespace : string) : Role.t :=
  Role.mk
    (ObjectMeta.mk name namespace {[ "team" := "platform" ]}
       {[ "note" := "keep" ]} [])
    [Fake.rule ["get"] [""] ["pods"]].

Definition staleClusterRole (name : string) : ClusterRole.t :=
  ClusterRole.mk
    (ObjectMeta.mk name "" {[ "team" := "platform" ]} {[ "note" := "keep" ]} [])
    [Fake.rule ["get"] [""] ["nodes"]].

Definition withRole (r : Role.t) (w : Fake.t) : Fake.t :=
  Fake.with_Roles (<[Fake.roleKey r := r]> (Fake.Roles w)) w.

Definition withClusterRole (c : ClusterRole.t) (w : Fake.t) : Fake.t :=
  Fake.with_ClusterRoles (<[ClusterRole.Name c := c]> (Fake.ClusterRoles w)) w.

Definition dexOff : gmap string string := {[ "DISABLE_DEX" := "true" ]}.

Definition clusterConfigAllowed : gmap string string :=
  {[ "ARGOCD_CLUSTER_CONFIG_NAMESPACES" := "argocd" ]}.

(** The Role [reconcileRole] wants in a namespace, and the one it creates. *)
Definition desiredRole (name : string) (rules : list PolicyRule.t)
  (namespace : string) : Role.t :=
  Role.with_Namespace namespace (newRole name rules testArgoCD).

Definition ownedRole (name : string) (rules : list PolicyRule.t)
  (namespace : string) : Role.t :=
  setRoleOwner testArgoCD (desiredRole name rules namespace).

Definition internalError : error :=
  StatusError StatusReasonInternalError "etcdserver: request timed out".

(** A fault: writes of Roles into one namespace fail. *)
Definition failWritesIn (namespace : string) (c : Call) : option error :=
  match c with
  | CallCreate (RoleObject r) | CallUpdate (RoleObject r)
  | CallDelete (RoleObject r) =>
    if bool_decide (Role.Namespace r = namespace) then Some internalError
    else None
  | _ => None
  end.

(** A hook that lets the first call through and fails from the second on,
    and one that fails at once. *)
Definition failSecondHook (n : nat) (_ : ArgoCD.t) (r : Role.t)
  : error + Role.t :=
  match n with
  | O => inr r
  | S _ => inl (errorString "this is a test error")
  end.

Definition testErrorHook {A} (_ : nat) (_ : ArgoCD.t) (_ : A) : error + A :=
  inl (errorString "this is a test error").

(** A fault: lookups of Roles in one namespace fail. *)
Definition failGetRoleIn (namespace : string) (c : Call) : option error :=
  match c with
  | CallGetRole key =>
    if bool_decide (NamespacedName.Namespace key = namespace)
    then Some internalError else None
  | _ => None
  end.

(** What the store holds for a Role. *)
Definition storedRole (namespace name : string) (w : Fake.t) : option Role.t :=
  Fake.Roles w !! (namespace, name).

(** Images for the examples. *)
Definition testArgoImage (_ : ArgoCD.t) : string := "argoproj/argocd:test".
Definition testDexImage (_ : ArgoCD.t) : string := "dexidp/dex:test".

(** A Dex Deployment as an earlier pass left it. *)
Definition testDexDeployment : Deployment.t :=
  Deployment.mk "argocd-dex-server" "argocd"
    (Deployments.dexPodSpec testArgoImage testDexImage ∅ testArgoCD).

(** ** The rest of role.go: cleanup of ClusterRoles *)

(** [fmt.Errorf] with the verb [%w]: an error that carries its message and
    the error it wraps.  [deleteClusterRoles] returns nil or one of these. *)
Record wrapError := mkWrapError {
  wrapMessage : string;
  Unwrap : error }.

Section Cleanup.
Context {W : Type} `{Runtime W}.

(** [strconv.Quote], which the verb [%q] applies to the name. *)
Variable Quote : string -> string.

(** [fmt.Errorf("failed to delete ClusterRole %q during cleanup: %w",
    clusterRole.Name, err)] *)
Definition cleanupError (name : string) (err : error) : wrapError :=
  mkWrapError
    ("failed to delete ClusterRole " +:+ Quote name +:+ " during cleanup: "
       +:+ Error err)
    err.

(** [deleteClusterRoles]: the loop over [clusterRoleList.Items]. *)
Fixpoint deleteClusterRoles (items : list ClusterRole.t)
  : M W (option wrapError) :=
  match items with
  | [] => ret None
  | clusterRole :: rest =>
    d <~ clientDeleteClusterRole clusterRole ;;
    match d with
    | Some err => ret (Some (cleanupError (ClusterRole.Name clusterRole) err))
    | None => deleteClusterRoles rest
    end
  end.

(** The six steps of [reconcileRoles], each reduced to the error it
    returns, in the order of the source. *)
Definition roleSteps (cr : ArgoCD.t) : list (M W (option error)) :=
  [ (r <~ reconcileRole applicationController
            policyRuleForApplicationController cr ;; ret r.2);
    (r <~ reconcileRole dexServer policyRuleForDexServer cr ;; ret r.2);
    (r <~ reconcileRole server policyRuleForServer cr ;; ret r.2);
    (r <~ reconcileRole redisHa (policyRuleForRedisHa cr) cr ;; ret r.2);
    (r <~ reconcileClusterRole applicationController
            policyRuleForApplicationController cr ;; ret r.2);
    (r <~ reconcileClusterRole server policyRuleForServerClusterRole cr ;;
     ret r.2) ].

(** Run steps in order and stop at the first one that returns an error. *)
Fixpoint untilError (steps : list (M W (option error))) : M W (option error) :=
  match steps with
  | [] => ret None
  | step :: rest =>
    e <~ step ;;
    match e with
    | Some err => ret (Some err)
    | None => untilError rest
    end
  end.

End Cleanup.

(** Calls that concern Roles: the hook on a Role, the lookup of a Role, a
    write of a Role. *)
Definition isRoleCall (c : Call) : bool :=
  match c with
  | CallHook (RoleObject _) | CallGetRole _
  | CallCreate (RoleObject _) | CallUpdate (RoleObject _)
  | CallDelete (RoleObject _) => true
  | _ => false
  end.

Definition isGetRole (c : Call) : bool :=
  match c with
  | CallGetRole _ => true
  | _ => false
  end.

(** An instance with the given name and namespace. *)
Definition instance (name namespace : string) : ArgoCD.t :=
  ArgoCD.mk name namespace (ArgoCD.Spec testArgoCD).

(** ** Helpers of the deployment tests *)

(** [cmp.Diff] on two lists of environment entries is empty when they are
    equal. *)
#[global] Instance EnvVar_eq_dec : EqDecision EnvVar.t.
Proof. solve_decision. Defined.

Module Tests.

(** The keys [restoreEnv] saves. *)
Definition keys : list string :=
  ["HTTP_PROXY"; "HTTPS_PROXY"; "NO_PROXY";
   "http_proxy"; "https_proxy"; "no_proxy"; "DISABLE_DEX"].

(** [os.Setenv] *)
Definition Setenv (key value : string) (env : gmap string string)
  : gmap string string :=
  <[key := value]> env.

(** [restoreEnv], first half: the map [env] the function fills with
    [env[v] = os.Getenv(v)] for every key. *)
Definition restoreEnv (env : gmap string string) : gmap string string :=
  fold_left (fun saved v => <[v := Deployments.Getenv env v]> saved) keys ∅.

(** [restoreEnv], second half: the function handed to [t.Cleanup], run on
    the environment the test leaves behind.  It ranges over the saved map;
    the traversal order of a Go map is not fixed, and this fold takes one. *)
Definition cleanup (saved env : gmap string string) : gmap string string :=
  map_fold Setenv env saved.

(** The entries [assertDeploymentHasProxyVars] wants on every container. *)
Definition want : list EnvVar.t :=
  [EnvVar.mk "HTTP_PROXY" Deployments.testHTTPProxy;
   EnvVar.mk "HTTPS_PROXY" Deployments.testHTTPSProxy;
   EnvVar.mk "no_proxy" Deployments.testNoProxy].

(** [assertDeploymentHasProxyVars]: does the helper pass?  The Get must
    succeed ([assert.NilError]) and no container or init container may
    differ from [want]. *)
Definition assertDeploymentHasProxyVars
  (store : gmap (string * string) Deployment.t) (testNamespace name : string)
  : bool :=
  match Deployments.Get (testNamespace, name) store with
  | inl _ => false
  | inr deployment =>
    forallb (fun c => bool_decide (Container.Env c = want))
      (PodSpec.Containers (Deployment.Spec deployment)) &&
    forallb (fun c => bool_decide (Container.Env c = want))
      (PodSpec.InitContainers (Deployment.Spec deployment))
  end.

(** [refuteDeploymentHasProxyVars]: does the helper pass?  No entry of any
    container or init container may be named, in lower case, like one of
    the three proxy variables. *)
Definition refuteDeploymentHasProxyVars
  (store : gmap (string * string) Deployment.t) (testNamespace name : string)
  : bool :=
  match Deployments.Get (testNamespace, name) store with
  | inl _ => false
  | inr deployment =>
    let names := ["http_proxy"; "https_proxy"; "no_proxy"] in
    forallb (fun name =>
      forallb (fun c =>
        forallb (fun envVar =>
          negb (bool_decide (Deployments.ToLower (EnvVar.Name envVar) = name)))
          (Container.Env c))
        (PodSpec.Containers (Deployment.Spec deployment)) &&
      forallb (fun c =>
        forallb (fun envVar =>
          negb (bool_decide (Deployments.ToLower (EnvVar.Name envVar) = name)))
          (Container.Env c))
        (PodSpec.InitContainers (Deployment.Spec deployment)))
      names
  end.

End Tests.

(** ** The in-memory client without faults *)

(** Objects are stored under their own namespace and name. *)
Definition wellKeyed (roles : gmap (string * string) Role.t) : Prop :=
  forall k r, roles !! k = Some r -> Fake.roleKey r = k.

(** No call is made to fail and the hooks let every object through as it
    is. *)
Definition quiet (w : Fake.t) : Prop :=
  (forall c, Fake.Fault w c = None) /\
  (forall n cr r, Fake.RoleHook w n cr r = inr r).

(** The namespaces the List call of [reconcileRole] returns. *)
Definition managedBy (cr : ArgoCD.t) (w : Fake.t) : list Namespace.t :=
  filter
    (fun n =>
       Fake.matches {[ ArgoCDManagedByLabel := ArgoCD.Namespace cr ]}
         (Namespace.Labels n) = true)
    (Fake.Namespaces w).

(** Calls that concern ClusterRoles. *)
Definition isClusterRoleCall (c : Call) : bool :=
  match c with
  | CallHook (ClusterRoleObject _) | CallGetClusterRole _
  | CallCreate (ClusterRoleObject _) | CallUpdate (ClusterRoleObject _)
  | CallDelete (ClusterRoleObject _) => true
  | _ => false
  end.

(** ** What a pass does to the in-memory store *)

(** The key of the Role of a component in a namespace. *)
Definition roleKeyIn (name : string) (cr : ArgoCD.t) (n : Namespace.t)
  : string * string :=
  (Namespace.Name n, generateResourceName name cr).

(** The Role an iteration writes when nothing gates the component off: the
    stored Role with the rules overwritten, or the desired Role after the
    owner call. *)
Definition written (name : string) (rules : list PolicyRule.t) (cr : ArgoCD.t)
  (roles : gmap (string * string) Role.t) (n : Namespace.t) : Role.t :=
  match roles !! roleKeyIn name cr n with
  | Some existing => Role.with_Rules rules existing
  | None =>
    setRoleOwner cr
      (Role.with_Namespace (Namespace.Name n) (newRole name rules cr))
  end.

Definition converged (name : string) (rules : list PolicyRule.t)
  (cr : ArgoCD.t) (roles : gmap (string * string) Role.t) (n : Namespace.t)
  : gmap (string * string) Role.t :=
  <[roleKeyIn name cr n := written name rules cr roles n]> roles.

(** The write of such an iteration. *)
Definition writeOf (name : string) (rules : list PolicyRule.t) (cr : ArgoCD.t)
  (roles : gmap (string * string) Role.t) (n : Namespace.t) : Call :=
  match roles !! roleKeyIn name cr n with
  | Some _ => CallUpdate (RoleObject (written name rules cr roles n))
  | None => CallCreate (RoleObject (written name rules cr roles n))
  end.

(** Is Dex gated off for this component in this world? *)
Definition gatedOff (name : string) (w : Fake.t) : bool :=
  bool_decide (name = dexServer) && isDexDisabled w.

(** The Roles a pass hands back and the writes it issues, namespace by
    namespace, each against the store the namespaces before it left. *)
Fixpoint passRoles (name : string) (rules : list PolicyRule.t) (cr : ArgoCD.t)
  (items : list Namespace.t) (roles : gmap (string * string) Role.t)
  : list Role.t :=
  match items with
  | [] => []
  | n :: rest =>
    written name rules cr roles n
      :: passRoles name rules cr rest (converged name rules cr roles n)
  end.

Fixpoint passWrites (name : string) (rules : list PolicyRule.t) (cr : ArgoCD.t)
  (items : list Namespace.t) (roles : gmap (string * string) Role.t)
  : list Call :=
  match items with
  | [] => []
  | n :: rest =>
    writeOf name rules cr roles n
      :: passWrites name rules cr rest (converged name rules cr roles n)
  end.

(** ** More concrete values for the examples *)

(** A fault: the Delete of the ClusterRole of that name fails. *)
Definition failDeleteOf (name : string) (c : Call) : option error :=
  match c with
  | CallDelete (ClusterRoleObject cr) =>
    if bool_decide (ClusterRole.Name cr = name) then Some internalError
    else None
  | _ => None
  end.

(** A fault: the lookup of Roles of that name fails. *)
Definition failGetRoleNamed (name : string) (c : Call) : option error :=
  match c with
  | CallGetRole key =>
    if bool_decide (NamespacedName.Name key = name) then Some internalError
    else None
  | _ => None
  end.

(** A cluster that holds three ClusterRoles and refuses to delete the
    second. *)
Definition threeClusterRoles : Fake.t :=
  Fake.with_Fault (failDeleteOf "b")
    (withClusterRole (staleClusterRole "a")
       (withClusterRole (staleClusterRole "b")
          (withClusterRole (staleClusterRole "c") (emptyCluster [] ∅)))).

(** A namespace that no instance manages. *)
Definition unmanagedNamespace (name : string) : Namespace.t :=
  Namespace.mk name ∅.

(** Two managed namespaces and one that is not; [dev] holds a stale Role of
    the server, and the unmanaged namespace holds one too. *)
Definition mixedCluster (env : gmap string string) (component : string)
  : Fake.t :=
  Fake.mk
    [managedNamespace "argocd"; unmanagedNamespace "other";
     managedNamespace "dev"]
    {[ ("dev", "argocd-" +:+ component) :=
         staleRole ("argocd-" +:+ component) "dev";
       ("other", "argocd-" +:+ component) :=
         staleRole ("argocd-" +:+ component) "other" ]}
    ∅ env (fun _ => None) 0 (fun _ _ r => inr r) (fun _ _ c => inr c).

(** The environment before a test, and as a test leaves it. *)
Definition envBefore : gmap string string := {[ "HTTP_PROXY" := "proxy:1" ]}.

Definition envAfterTest : gmap string string :=
  {[ "HTTP_PROXY" := "example.com:8888"; "DISABLE_DEX" := "true";
     "ARGOCD_CLUSTER_CONFIG_NAMESPACES" := "argocd" ]}.

(** ** The whole of reconcileRoles against the in-memory client *)

(** What neither a write of a Role nor a hook call changes in the world. *)
Definition settings (w : Fake.t) :=
  (Fake.Namespaces w, Fake.Env w, Fake.Fault w, Fake.RoleHook w,
   Fake.ClusterRoleHook w).

(** ClusterRoles are stored under their own name. *)
Definition wellNamed (clusterRoles : gmap string ClusterRole.t) : Prop :=
  forall k c, clusterRoles !! k = Some c -> ClusterRole.Name c = k.

(** The hooks let every ClusterRole through as it is. *)
Definition quietCluster (w : Fake.t) : Prop :=
  forall n cr c, Fake.ClusterRoleHook w n cr c = inr c.

(** The store holds the Role of a component in a namespace, with these
    rules. *)
Definition holdsRole (w : Fake.t) (cr : ArgoCD.t) (n : Namespace.t)
  (component : string) (rules : list PolicyRule.t) : Prop :=
  exists r,
    storedRole (Namespace.Name n) (generateResourceName component cr) w
      = Some r /\
    Role.Rules r = rules.

(** The store holds the ClusterRole of a component, with these rules. *)
Definition holdsClusterRole (w : Fake.t) (cr : ArgoCD.t) (component : string)
  (rules : list PolicyRule.t) : Prop :=
  exists c,
    Fake.ClusterRoles w !! GenerateUniqueResourceName component cr = Some c /\
    ClusterRole.Rules c = rules.

(** Is the namespace of the instance allowed to hold cluster-scoped
    configuration? *)
Definition clusterConfigAllowedIn (cr : ArgoCD.t) (w : Fake.t) : bool :=
  allowedNamespace (ArgoCD.Namespace cr)
    (Getenv "ARGOCD_CLUSTER_CONFIG_NAMESPACES" w).

(** Dex disabled and the namespace [argocd] allowed cluster configuration. *)
Definition dexOffClusterAllowed : gmap string string :=
  {[ "DISABLE_DEX" := "true";
     "ARGOCD_CLUSTER_CONFIG_NAMESPACES" := "argocd" ]}.

(** An installation an earlier operator left behind: the Roles of
    [mixedCluster] for the server and a ClusterRole of the server. *)
Definition staleInstallation (env : gmap string string) : Fake.t :=
  withClusterRole (staleClusterRole "argocd-argocd-argocd-server")
    (mixedCluster env server).

(** ** What a pass of reconcileRole leaves in the log and in its result *)

Section RoleTraces.
Context {W : Type} `{Runtime W}.

(** The runtime's [SetControllerReference] is the library's. *)
Definition libraryOwner : Prop :=
  forall cr m,
    SetControllerReference cr m = controllerutil.SetControllerReference cr m.

(** The metadata with the controller reference of [cr] as its only owner
    reference. *)
Definition controlledBy (cr : ArgoCD.t) (m : ObjectMeta.t) : ObjectMeta.t :=
  ObjectMeta.mk (ObjectMeta.Name m) (ObjectMeta.Namespace m)
    (ObjectMeta.Labels m) (ObjectMeta.Annotations m)
    [controllerutil.newControllerRef cr].

(** The calls of one iteration that runs to its end, for namespace [n], and
    the Roles it appends to the result: after the hook and the lookup in
    [n], either no write and the desired Role (a disabled Dex, nothing
    found), or a Create or an Update and the Role that was sent, or a Delete
    and no Role. *)
Definition handledAt (name : string) (rules : list PolicyRule.t)
  (cr : ArgoCD.t) (n : Namespace.t) (block : list Call)
  (appended : list Role.t) : Prop :=
  exists key,
    NamespacedName.Namespace key = Namespace.Name n /\
    let lookup :=
      [CallHook (RoleObject (newRole name rules cr)); CallGetRole key] in
    (exists r, block = lookup /\ appended = [r] /\
       Role.Namespace r = Namespace.Name n /\
       Role.Name r = NamespacedName.Name key) \/
    (exists r, block = lookup ++ [CallCreate (RoleObject r)] /\
       appended = [r]) \/
    (exists r, block = lookup ++ [CallUpdate (RoleObject r)] /\
       appended = [r]) \/
    (exists r, block = lookup ++ [CallDelete (RoleObject r)] /\
       appended = []).

(** The calls of an iteration that aborts the pass: the hook alone, or the
    hook and the lookup in [n], or these and one write of a Role. *)
Definition abortedAt (name : string) (rules : list PolicyRule.t)
  (cr : ArgoCD.t) (n : Namespace.t) (block : list Call) : Prop :=
  let hook := CallHook (RoleObject (newRole name rules cr)) in
  block = [hook] \/
  exists key,
    NamespacedName.Namespace key = Namespace.Name n /\
    (block = [hook; CallGetRole key] \/
     exists r c, c ∈ [CallCreate (RoleObject r); CallUpdate (RoleObject r);
                      CallDelete (RoleObject r)] /\
       block = [hook; CallGetRole key; c]).

End RoleTraces.

(** * Properties *)

(** ** The reconcile loop, call by call *)

(** What [controllerutil.SetControllerReference] leaves of the metadata. *)
Lemma SetControllerReference_refused owner m :
  controllerutil.validateOwner (ArgoCD.Namespace owner)
    (ObjectMeta.Namespace m) = false ->
  controllerutil.SetControllerReference owner m = m.
Proof.
  intros Hv. unfold controllerutil.SetControllerReference. by rewrite Hv.
Qed.

Lemma SetControllerReference_fresh owner m :
  controllerutil.validateOwner (ArgoCD.Namespace owner)
    (ObjectMeta.Namespace m) = true ->
  ObjectMeta.OwnerReferences m = [] ->
  controllerutil.SetControllerReference owner m = controlledBy owner m.
Proof.
  intros Hv Hrefs. unfold controllerutil.SetControllerReference, controlledBy.
  by rewrite Hv, Hrefs.
Qed.

Lemma SetControllerReference_key owner m :
  ObjectMeta.Name (controllerutil.SetControllerReference owner m)
    = ObjectMeta.Name m /\
  ObjectMeta.Namespace (controllerutil.SetControllerReference owner m)
    = ObjectMeta.Namespace m.
Proof.
  unfold controllerutil.SetControllerReference.
  by destruct (negb _); [|destruct (negb _)].
Qed.

(** On the in-memory runtime the owner call keeps the key of a Role and the
    name of a ClusterRole. *)
Lemma roleKey_setRoleOwner cr (r : Role.t) :
  Fake.roleKey (setRoleOwner cr r) = Fake.roleKey r.
Proof.
  unfold Fake.roleKey, Role.Namespace, Role.Name, setRoleOwner.
  cbn [Role.ObjectMeta SetControllerReference fakeRuntime].
  unfold Fake.setControllerReference.
  destruct (SetControllerReference_key cr (Role.ObjectMeta r)) as [Hn Hns].
  by rewrite ?Hn, ?Hns.
Qed.

Lemma Name_setClusterRoleOwner cr (c : ClusterRole.t) :
  ClusterRole.Name (setClusterRoleOwner cr c) = ClusterRole.Name c.
Proof.
  unfold ClusterRole.Name, setClusterRoleOwner.
  cbn [ClusterRole.ObjectMeta SetControllerReference fakeRuntime].
  unfold Fake.setControllerReference.
  destruct (SetControllerReference_key cr (ClusterRole.ObjectMeta c))
    as [Hn _].
  by rewrite ?Hn.
Qed.

Lemma validateOwner_same ns : controllerutil.validateOwner ns ns = true.
Proof.
  unfold controllerutil.validateOwner.
  destruct (bool_decide (ns = "")) eqn:He; [reflexivity|].
  by rewrite bool_decide_eq_true_2.
Qed.

Lemma validateOwner_other ownerNs objNs :
  ownerNs <> "" -> objNs <> ownerNs ->
  controllerutil.validateOwner ownerNs objNs = false.
Proof.
  intros Hne Hother. unfold controllerutil.validateOwner.
  rewrite bool_decide_eq_false_2 by done.
  destruct (bool_decide (objNs = "")); [reflexivity|].
  by rewrite bool_decide_eq_false_2.
Qed.

Section RoleGoProperties.
Context {W : Type} `{Runtime W}.

Lemma bind_run {A B} (c : M W A) (k : A -> M W B) (s : State W) :
  bind c k s = k (c s).1 (c s).2.
Proof. unfold bind. by destruct (c s). Qed.

Lemma issue_run {A} (c : Call) (f : W -> A * W) (s : State W) :
  issue c f s = ((f (world s)).1, mkState (f (world s)).2 (calls s ++ [c])).
Proof. unfold issue. by destruct (f (world s)). Qed.

(** Running the loop over [pre ++ post] is running it over [pre] and, unless
    that aborted, over [post] from where [pre] stopped. *)
Lemma reconcileRoleLoop_app name rules cr pre post roles (s : State W) :
  reconcileRoleLoop name rules cr (pre ++ post) roles s =
  match reconcileRoleLoop name rules cr pre roles s with
  | (inl err, s') => (inl err, s')
  | (inr roles', s') => reconcileRoleLoop name rules cr post roles' s'
  end.
Proof.
  revert roles s. induction pre as [|n pre IH]; intros roles s; simpl.
  - reflexivity.
  - rewrite !bind_run.
    destruct (reconcileRoleIteration name rules cr n roles s) as [[e|rs] s1];
      simpl; [reflexivity | apply IH].
Qed.

Lemma reconcileRoleLoop_snoc name rules cr pre n roles roles' (s s' : State W) :
  reconcileRoleLoop name rules cr pre roles s = (inr roles', s') ->
  reconcileRoleLoop name rules cr (pre ++ [n]) roles s =
  reconcileRoleIteration name rules cr n roles' s'.
Proof.
  intros Hpre. rewrite reconcileRoleLoop_app, Hpre. simpl.
  rewrite bind_run.
  by destruct (reconcileRoleIteration name rules cr n roles' s') as [[e|rs] s1].
Qed.

(** The iteration once the hook has let the Role through and the lookup has
    answered: what remains is the branch on the answer. *)
Lemma reconcileRoleIteration_after_get name rules cr n roles (s : State W)
    role w1 g w2 :
  hookRole cr (newRole name rules cr) "" (world s) = (inr role, w1) ->
  let role' := Role.with_Namespace (Namespace.Name n) role in
  let key := NamespacedName.mk (Role.Namespace role') (Role.Name role') in
  GetRole key w1 = (g, w2) ->
  let s2 := mkState w2
    (calls s ++ [CallHook (RoleObject (newRole name rules cr))]
             ++ [CallGetRole key]) in
  let disabled := bool_decide (name = dexServer) && isDexDisabled w2 in
  reconcileRoleIteration name rules cr n roles s =
  match g with
  | inl err =>
    if negb (IsNotFound err) then (inl (roleLookupError name err), s2)
    else if disabled then (inr (roles ++ [role']), s2)
    else
      let owned := setRoleOwner cr role' in
      let c := CreateRole owned w2 in
      (match c.1 with Some e => inl e | None => inr (roles ++ [owned]) end,
       mkState c.2 (calls s2 ++ [CallCreate (RoleObject owned)]))
  | inr existing =>
    if disabled then
      let d := DeleteRole existing w2 in
      (match d.1 with Some e => inl e | None => inr roles end,
       mkState d.2 (calls s2 ++ [CallDelete (RoleObject existing)]))
    else
      let updated := Role.with_Rules (Role.Rules role') existing in
      let u := UpdateRole updated w2 in
      (match u.1 with Some e => inl e | None => inr (roles ++ [updated]) end,
       mkState u.2 (calls s2 ++ [CallUpdate (RoleObject updated)]))
  end.
Proof.
  intros Hhook role' key Hget s2 disabled.
  unfold reconcileRoleIteration, applyReconcilerHookRole.
  rewrite bind_run, issue_run, Hhook. simpl.
  unfold clientGetRole. rewrite bind_run, issue_run. simpl.
  fold role'. fold key. rewrite Hget. simpl.
  rewrite <- (assoc_L (++)). fold s2.
  destruct g as [err|existing].
  - destruct (IsNotFound err); simpl; [|reflexivity].
    rewrite bind_run. unfold dexGate, observe. simpl. fold disabled.
    destruct disabled; [reflexivity|].
    unfold clientCreateRole. rewrite bind_run, issue_run. simpl.
    by destruct (CreateRole _ w2) as [[e|] w3].
  - rewrite bind_run. unfold dexGate, observe. simpl. fold disabled.
    destruct disabled.
    + unfold clientDeleteRole. rewrite bind_run, issue_run. simpl.
      by destruct (DeleteRole _ w2) as [[e|] w3].
    + unfold clientUpdateRole. rewrite bind_run, issue_run. simpl.
      by destruct (UpdateRole _ w2) as [[e|] w3].
Qed.

(** C1, as the code has it: every managed namespace that [reconcileRole]
    gets to (the loop over the namespaces before it has not aborted, the
    hook has let the Role through and the lookup has answered) is handled by
    the four-quadrant rule.  Role not found and the component not a disabled
    Dex: [SetControllerReference] is called on the Role, its error is
    dropped, and the Role is created as that call left it; with the
    library's [SetControllerReference], a Role in the namespace of the
    custom resource carries the controller reference, and a Role in another
    namespace is created as it was, without one.  Not found, component
    [dexServer] and Dex disabled: the hook and the lookup are the only calls,
    no create, update or delete is issued and the world is left as the
    lookup left it.  Found, [dexServer] and Dex disabled: the Role that was
    found is deleted.  Found otherwise: the Role that was found, with its
    rules overwritten by those of the desired Role, is updated. *)
Theorem reconcileRole_four_quadrants name rules cr pre namespace
    (s0 s : State W) roles role w1 g w2 :
  reconcileRoleLoop name rules cr pre [] s0 = (inr roles, s) ->
  hookRole cr (newRole name rules cr) "" (world s) = (inr role, w1) ->
  let desired := Role.with_Namespace (Namespace.Name namespace) role in
  let key := NamespacedName.mk (Namespace.Name namespace) (Role.Name role) in
  GetRole key w1 = (g, w2) ->
  let disabledDex := bool_decide (name = dexServer) && isDexDisabled w2 in
  let after :=
    (reconcileRoleLoop name rules cr (pre ++ [namespace]) [] s0).2 in
  let lookup :=
    calls s ++ [CallHook (RoleObject (newRole name rules cr)); CallGetRole key] in
  (forall err, g = inl err -> IsNotFound err = true -> disabledDex = false ->
     let owned :=
       Role.mk (SetControllerReference cr (Role.ObjectMeta desired))
         (Role.Rules desired) in
     calls after = lookup ++ [CallCreate (RoleObject owned)] /\
     world after = (CreateRole owned w2).2 /\
     (libraryOwner ->
      (Namespace.Name namespace = ArgoCD.Namespace cr ->
       ObjectMeta.OwnerReferences (Role.ObjectMeta role) = [] ->
       owned = Role.mk (controlledBy cr (Role.ObjectMeta desired))
                 (Role.Rules desired)) /\
      (ArgoCD.Namespace cr <> "" ->
       Namespace.Name namespace <> ArgoCD.Namespace cr ->
       owned = desired))) /\
  (forall err, g = inl err -> IsNotFound err = true -> disabledDex = true ->
     calls after = lookup /\ filter isWrite lookup = filter isWrite (calls s) /\
     world after = w2) /\
  (forall existing, g = inr existing -> disabledDex = true ->
     calls after = lookup ++ [CallDelete (RoleObject existing)] /\
     world after = (DeleteRole existing w2).2) /\
  (forall existing, g = inr existing -> disabledDex = false ->
     let updated := Role.with_Rules (Role.Rules desired) existing in
     calls after = lookup ++ [CallUpdate (RoleObject updated)] /\
     world after = (UpdateRole updated w2).2).
Proof.
  intros Hpre Hhook desired key Hget disabledDex after lookup.
  assert (Hit := reconcileRoleIteration_after_get name rules cr namespace
                   roles s role w1 g w2 Hhook Hget).
  cbv zeta in Hit. fold disabledDex in Hit.
  subst after. rewrite (reconcileRoleLoop_snoc _ _ _ _ _ _ _ _ _ Hpre), Hit.
  split; [|split; [|split]].
  - intros err -> Hnf Hen owned. rewrite Hnf, Hen. simpl.
    split; [reflexivity|]. split; [reflexivity|].
    intros Hlib. subst owned. rewrite Hlib. split.
    + intros Hns Hrefs. f_equal. apply SetControllerReference_fresh.
      * cbn. rewrite Hns. apply validateOwner_same.
      * exact Hrefs.
    + intros Hne Hother.
      rewrite SetControllerReference_refused
        by (cbn; by apply validateOwner_other).
      by destruct role as [[]].
  - intros err -> Hnf Hdis. rewrite Hnf, Hdis. simpl.
    split; [reflexivity|]. split; [|reflexivity].
    subst lookup. rewrite filter_app. apply app_nil_r.
  - intros existing -> Hdis. rewrite Hdis. simpl. by split.
  - intros existing -> Hen updated. rewrite Hen. simpl. by split.
Qed.

(** [reconcileClusterRole] once the hook has let the ClusterRole through and
    the lookup has answered. *)
Lemma reconcileClusterRole_after_get name rules cr (s : State W)
    clusterRole w1 g w2 :
  hookClusterRole cr (newClusterRole name rules cr) "" (world s)
    = (inr clusterRole, w1) ->
  let key := NamespacedName.mk "" (ClusterRole.Name clusterRole) in
  GetClusterRole key w1 = (g, w2) ->
  let allowed :=
    allowedNamespace (ArgoCD.Namespace cr)
      (Getenv "ARGOCD_CLUSTER_CONFIG_NAMESPACES" (world s)) in
  let s2 := mkState w2
    (calls s ++ [CallHook (ClusterRoleObject (newClusterRole name rules cr))]
             ++ [CallGetClusterRole key]) in
  reconcileClusterRole name rules cr s =
  match g with
  | inl err =>
    if negb (IsNotFound err)
    then ((None, Some (clusterRoleLookupError name err)), s2)
    else if negb allowed then ((None, None), s2)
    else
      let owned := setClusterRoleOwner cr clusterRole in
      let c := CreateClusterRole owned w2 in
      ((Some owned, c.1),
       mkState c.2 (calls s2 ++ [CallCreate (ClusterRoleObject owned)]))
  | inr existing =>
    if negb allowed then
      let d := DeleteClusterRole existing w2 in
      ((None, d.1),
       mkState d.2 (calls s2 ++ [CallDelete (ClusterRoleObject existing)]))
    else
      let updated :=
        ClusterRole.with_Rules (ClusterRole.Rules clusterRole) existing in
      let u := UpdateClusterRole updated w2 in
      ((Some updated, u.1),
       mkState u.2 (calls s2 ++ [CallUpdate (ClusterRoleObject updated)]))
  end.
Proof.
  intros Hhook key Hget allowed s2.
  unfold reconcileClusterRole, applyReconcilerHookClusterRole.
  rewrite bind_run. unfold observe at 1. simpl. fold allowed.
  rewrite bind_run, issue_run, Hhook. simpl.
  unfold clientGetClusterRole. rewrite bind_run, issue_run. simpl.
  fold key. rewrite Hget. simpl.
  rewrite <- (assoc_L (++)). fold s2.
  destruct g as [err|existing].
  - destruct (IsNotFound err); simpl; [|reflexivity].
    destruct allowed; simpl; [|reflexivity].
    unfold clientCreateClusterRole. rewrite bind_run, issue_run. reflexivity.
  - destruct allowed; simpl.
    + unfold clientUpdateClusterRole. rewrite bind_run, issue_run. reflexivity.
    + unfold clientDeleteClusterRole. rewrite bind_run, issue_run. reflexivity.
Qed.

(** C2, as the code has it: once the hook has let the ClusterRole through
    and the lookup has answered, [reconcileClusterRole] follows the
    four-quadrant rule gated on
    [allowedNamespace(cr.Namespace, ARGOCD_CLUSTER_CONFIG_NAMESPACES)].  Not
    found and not allowed: nil object, nil error, and the hook and the
    lookup are the only calls.  Not found and allowed:
    [SetControllerReference] is called on the ClusterRole, its error is
    dropped, and the ClusterRole is created as that call left it; with the
    library's [SetControllerReference] and a custom resource that lives in a
    namespace, that is the ClusterRole as it was, without owner reference.
    Found and not allowed: the ClusterRole that was found is deleted.  Found
    and allowed: it is updated with its rules overwritten. *)
Theorem reconcileClusterRole_four_quadrants name rules cr (s : State W)
    clusterRole w1 g w2 :
  hookClusterRole cr (newClusterRole name rules cr) "" (world s)
    = (inr clusterRole, w1) ->
  let key := NamespacedName.mk "" (ClusterRole.Name clusterRole) in
  GetClusterRole key w1 = (g, w2) ->
  let allowed :=
    allowedNamespace (ArgoCD.Namespace cr)
      (Getenv "ARGOCD_CLUSTER_CONFIG_NAMESPACES" (world s)) in
  let result := reconcileClusterRole name rules cr s in
  let lookup :=
    calls s ++ [CallHook (ClusterRoleObject (newClusterRole name rules cr));
                CallGetClusterRole key] in
  (forall err, g = inl err -> IsNotFound err = true -> allowed = false ->
     result = ((None, None), mkState w2 lookup) /\
     filter isWrite lookup = filter isWrite (calls s)) /\
  (forall err, g = inl err -> IsNotFound err = true -> allowed = true ->
     let owned :=
       ClusterRole.mk
         (SetControllerReference cr (ClusterRole.ObjectMeta clusterRole))
         (ClusterRole.Rules clusterRole) in
     let c := CreateClusterRole owned w2 in
     result = ((Some owned, c.1),
               mkState c.2 (lookup ++ [CallCreate (ClusterRoleObject owned)])) /\
     (libraryOwner ->
      (ArgoCD.Namespace cr <> "" ->
       ObjectMeta.Namespace (ClusterRole.ObjectMeta clusterRole) = "" ->
       owned = clusterRole) /\
      (ArgoCD.Namespace cr = "" ->
       ObjectMeta.OwnerReferences (ClusterRole.ObjectMeta clusterRole) = [] ->
       owned = ClusterRole.mk
                 (controlledBy cr (ClusterRole.ObjectMeta clusterRole))
                 (ClusterRole.Rules clusterRole)))) /\
  (forall existing, g = inr existing -> allowed = false ->
     let d := DeleteClusterRole existing w2 in
     result = ((None, d.1),
               mkState d.2 (lookup ++ [CallDelete (ClusterRoleObject existing)]))) /\
  (forall existing, g = inr existing -> allowed = true ->
     let updated :=
       ClusterRole.with_Rules (ClusterRole.Rules clusterRole) existing in
     let u := UpdateClusterRole updated w2 in
     result = ((Some updated, u.1),
               mkState u.2 (lookup ++ [CallUpdate (ClusterRoleObject updated)]))).
Proof.
  intros Hhook key Hget allowed result lookup.
  assert (Hrun := reconcileClusterRole_after_get name rules cr s
                    clusterRole w1 g w2 Hhook Hget).
  cbv zeta in Hrun. fold allowed in Hrun.
  subst result. rewrite Hrun.
  split; [|split; [|split]].
  - intros err -> Hnf Hno. rewrite Hnf, Hno. simpl.
    split; [reflexivity|].
    subst lookup. rewrite filter_app. apply app_nil_r.
  - intros err -> Hnf Hal owned c. rewrite Hnf, Hal. simpl.
    split; [reflexivity|].
    intros Hlib. subst owned. rewrite Hlib. split.
    + intros Hne Hns.
      rewrite SetControllerReference_refused.
      * by destruct clusterRole.
      * rewrite Hns. unfold controllerutil.validateOwner.
        by rewrite bool_decide_eq_false_2.
    + intros Hns Hrefs. f_equal. apply SetControllerReference_fresh.
      * rewrite Hns. reflexivity.
      * exact Hrefs.
  - intros existing -> Hno d. rewrite Hno. reflexivity.
  - intros existing -> Hal updated u. rewrite Hal. reflexivity.
Qed.

(** [reconcileRole] is the List call followed by the loop. *)
Lemma reconcileRole_after_list name rules cr (sI : State W) items wl :
  let listOption : gmap string string :=
    {[ ArgoCDManagedByLabel := ArgoCD.Namespace cr ]} in
  ListNamespaces listOption (world sI) = (inr items, wl) ->
  let s0 := mkState wl (calls sI ++ [CallList listOption]) in
  reconcileRole name rules cr sI =
  match reconcileRoleLoop name rules cr items [] s0 with
  | (inl err, s') => (([], Some err), s')
  | (inr roles, s') => ((roles, None), s')
  end.
Proof.
  intros listOption Hlist s0. unfold reconcileRole, clientList.
  fold listOption. rewrite bind_run, issue_run, Hlist. simpl. fold s0.
  rewrite bind_run.
  by destruct (reconcileRoleLoop name rules cr items [] s0) as [[e|rs] s'].
Qed.

(** An iteration that aborts ends the loop there, whatever namespaces are
    left. *)
Lemma reconcileRoleLoop_abort name rules cr pre n post roles roles' err
    (s s' s'' : State W) :
  reconcileRoleLoop name rules cr pre roles s = (inr roles', s') ->
  reconcileRoleIteration name rules cr n roles' s' = (inl err, s'') ->
  reconcileRoleLoop name rules cr (pre ++ n :: post) roles s = (inl err, s'').
Proof.
  intros Hpre Hit. rewrite reconcileRoleLoop_app, Hpre. simpl.
  by rewrite bind_run, Hit.
Qed.

(** C7: in a pass of [reconcileRole] that has reached a namespace (the List
    call returned it, the loop over the namespaces before it has not aborted
    and the hook has let the Role through), a lookup error other than
    not-found ends the pass with the error wrapped in the message that names
    the component, and an error of Create, Delete or Update ends it with that
    error as it is.  In each case the failing call is the last call of the
    pass: the log is the log of the namespaces handled before, the hook, the
    lookup and the failing write, and the world is the one the failing call
    left, so nothing is undone for the namespaces already handled. *)
Theorem reconcileRole_abort name rules cr (sI : State W) pre namespace post
    wl (s : State W) roles role w1 g w2 :
  let listOption : gmap string string :=
    {[ ArgoCDManagedByLabel := ArgoCD.Namespace cr ]} in
  ListNamespaces listOption (world sI) = (inr (pre ++ namespace :: post), wl) ->
  let s0 := mkState wl (calls sI ++ [CallList listOption]) in
  reconcileRoleLoop name rules cr pre [] s0 = (inr roles, s) ->
  hookRole cr (newRole name rules cr) "" (world s) = (inr role, w1) ->
  let desired := Role.with_Namespace (Namespace.Name namespace) role in
  let key := NamespacedName.mk (Namespace.Name namespace) (Role.Name role) in
  GetRole key w1 = (g, w2) ->
  let disabledDex := bool_decide (name = dexServer) && isDexDisabled w2 in
  let pass := reconcileRole name rules cr sI in
  let lookup :=
    calls s ++ [CallHook (RoleObject (newRole name rules cr)); CallGetRole key] in
  (forall err, g = inl err -> IsNotFound err = false ->
     pass = (([], Some (roleLookupError name err)), mkState w2 lookup)) /\
  (forall err e, g = inl err -> IsNotFound err = true -> disabledDex = false ->
     let owned := setRoleOwner cr desired in
     (CreateRole owned w2).1 = Some e ->
     pass = (([], Some e),
             mkState (CreateRole owned w2).2
               (lookup ++ [CallCreate (RoleObject owned)]))) /\
  (forall existing e, g = inr existing -> disabledDex = true ->
     (DeleteRole existing w2).1 = Some e ->
     pass = (([], Some e),
             mkState (DeleteRole existing w2).2
               (lookup ++ [CallDelete (RoleObject existing)]))) /\
  (forall existing e, g = inr existing -> disabledDex = false ->
     let updated := Role.with_Rules (Role.Rules desired) existing in
     (UpdateRole updated w2).1 = Some e ->
     pass = (([], Some e),
             mkState (UpdateRole updated w2).2
               (lookup ++ [CallUpdate (RoleObject updated)]))).
Proof.
  intros listOption Hlist s0 Hpre Hhook desired key Hget disabledDex pass lookup.
  assert (Hit := reconcileRoleIteration_after_get name rules cr namespace
                   roles s role w1 g w2 Hhook Hget).
  cbv zeta in Hit. fold disabledDex in Hit.
  subst pass.
  rewrite (reconcileRole_after_list name rules cr sI _ wl Hlist).
  subst s0 listOption.
  assert (Habort : forall err s',
    reconcileRoleIteration name rules cr namespace roles s = (inl err, s') ->
    match reconcileRoleLoop name rules cr (pre ++ namespace :: post) []
            (mkState wl (calls sI ++
               [CallList {[ArgoCDManagedByLabel := ArgoCD.Namespace cr]}]))
    with
    | (inl err, s') => (([], Some err), s')
    | (inr roles, s') => ((roles, None), s')
    end = (([] : list Role.t, Some err), s')).
  { intros err s' E.
    by rewrite (reconcileRoleLoop_abort _ _ _ _ _ post _ _ _ _ _ _ Hpre E). }
  split; [|split; [|split]].
  - intros err -> Hnf. apply Habort. rewrite Hit, Hnf. reflexivity.
  - intros err e -> Hnf Hen owned Hc. apply Habort.
    rewrite Hit, Hnf, Hen. simpl. fold desired. fold owned.
    rewrite Hc. reflexivity.
  - intros existing e -> Hdis Hd. apply Habort.
    rewrite Hit, Hdis. simpl. rewrite Hd. reflexivity.
  - intros existing e -> Hen updated Hu. apply Habort.
    rewrite Hit, Hen. simpl.
    change (Role.with_Rules (Role.Rules role) existing) with updated.
    rewrite Hu. reflexivity.
Qed.

(** When the hook refuses the object, the hook call is all that happens. *)
Lemma reconcileRoleIteration_hook_error name rules cr n roles (s : State W)
    err w1 :
  hookRole cr (newRole name rules cr) "" (world s) = (inl err, w1) ->
  reconcileRoleIteration name rules cr n roles s =
  (inl err,
   mkState w1 (calls s ++ [CallHook (RoleObject (newRole name rules cr))])).
Proof.
  intros Hhook. unfold reconcileRoleIteration, applyReconcilerHookRole.
  by rewrite bind_run, issue_run, Hhook.
Qed.

Lemma reconcileClusterRole_hook_error name rules cr (s : State W) err w1 :
  hookClusterRole cr (newClusterRole name rules cr) "" (world s)
    = (inl err, w1) ->
  reconcileClusterRole name rules cr s =
  ((None, Some err),
   mkState w1
     (calls s ++ [CallHook (ClusterRoleObject (newClusterRole name rules cr))])).
Proof.
  intros Hhook. unfold reconcileClusterRole, applyReconcilerHookClusterRole.
  rewrite bind_run. unfold observe at 1. simpl.
  by rewrite bind_run, issue_run, Hhook.
Qed.

(** C8: the hook comes before every write, and a hook failure ends the pass
    without a further call.  For [reconcileClusterRole] and for each
    iteration of [reconcileRole], the first call issued is the hook call on
    the freshly built object, so every Create, Update or Delete for that
    object comes after it.  When the hook returns an error,
    [reconcileClusterRole] returns a nil object and that error having issued
    the hook call only; and a pass of [reconcileRole] in which the hook
    fails at some namespace returns that error, its log being the log of the
    namespaces handled before followed by the hook call alone. *)
Theorem hook_failure_aborts_before_write :
  (forall name rules cr (s : State W), exists rest,
     calls (reconcileClusterRole name rules cr s).2 =
     calls s ++
       CallHook (ClusterRoleObject (newClusterRole name rules cr)) :: rest) /\
  (forall name rules cr (s : State W) err w1,
     hookClusterRole cr (newClusterRole name rules cr) "" (world s)
       = (inl err, w1) ->
     reconcileClusterRole name rules cr s =
     ((None, Some err),
      mkState w1
        (calls s ++
           [CallHook (ClusterRoleObject (newClusterRole name rules cr))]))) /\
  (forall name rules cr namespace roles (s : State W), exists rest,
     calls (reconcileRoleIteration name rules cr namespace roles s).2 =
     calls s ++ CallHook (RoleObject (newRole name rules cr)) :: rest) /\
  (forall name rules cr (sI : State W) pre namespace post wl (s : State W)
          roles err w1,
     let listOption : gmap string string :=
       {[ ArgoCDManagedByLabel := ArgoCD.Namespace cr ]} in
     ListNamespaces listOption (world sI)
       = (inr (pre ++ namespace :: post), wl) ->
     reconcileRoleLoop name rules cr pre []
       (mkState wl (calls sI ++ [CallList listOption])) = (inr roles, s) ->
     hookRole cr (newRole name rules cr) "" (world s) = (inl err, w1) ->
     reconcileRole name rules cr sI =
     (([], Some err),
      mkState w1 (calls s ++ [CallHook (RoleObject (newRole name rules cr))]))).
Proof.
  split; [|split; [|split]].
  - intros name rules cr s.
    destruct (hookClusterRole cr (newClusterRole name rules cr) "" (world s))
      as [[err|clusterRole] w1] eqn:Hhook.
    + rewrite (reconcileClusterRole_hook_error _ _ _ _ _ _ Hhook). by exists [].
    + destruct (GetClusterRole
                  (NamespacedName.mk "" (ClusterRole.Name clusterRole)) w1)
        as [g w2] eqn:Hget.
      rewrite (reconcileClusterRole_after_get _ _ _ _ _ _ _ _ Hhook Hget).
      destruct g as [e|existing]; simpl;
        repeat match goal with
               | |- context [if ?b then _ else _] => destruct b
               end; simpl; rewrite <- ?(assoc_L (++)); simpl; by eexists.
  - intros name rules cr s err w1 Hhook.
    exact (reconcileClusterRole_hook_error _ _ _ _ _ _ Hhook).
  - intros name rules cr namespace roles s.
    destruct (hookRole cr (newRole name rules cr) "" (world s))
      as [[err|role] w1] eqn:Hhook.
    + rewrite (reconcileRoleIteration_hook_error _ _ _ _ _ _ _ _ Hhook).
      by exists [].
    + destruct (GetRole
                  (NamespacedName.mk
                     (Role.Namespace
                        (Role.with_Namespace (Namespace.Name namespace) role))
                     (Role.Name
                        (Role.with_Namespace (Namespace.Name namespace) role)))
                  w1) as [g w2] eqn:Hget.
      rewrite (reconcileRoleIteration_after_get _ _ _ _ _ _ _ _ _ _ Hhook Hget).
      destruct g as [e|existing]; simpl;
        repeat match goal with
               | |- context [if ?b then _ else _] => destruct b
               end; simpl; rewrite <- ?(assoc_L (++)); simpl; by eexists.
  - intros name rules cr sI pre namespace post wl s roles err w1 listOption
      Hlist Hpre Hhook.
    rewrite (reconcileRole_after_list name rules cr sI _ wl Hlist).
    subst listOption.
    by rewrite (reconcileRoleLoop_abort _ _ _ _ _ post _ _ _ _ _ _ Hpre
                  (reconcileRoleIteration_hook_error _ _ _ namespace roles _ _ _
                     Hhook)).
Qed.

(** C9: on the update branch (the object was found and the component is not
    gated off) the object handed to Update is the fetched one with nothing
    but its rules changed: its metadata (name, namespace, labels,
    annotations, owner references) is that of the fetched object, and its
    rules are those of the desired object built in this pass, whatever the
    rules of the fetched object were.  When the hook leaves the rules of the
    desired object as built, these are the policy rules passed in. *)
Theorem update_replaces_rules_only :
  (forall name rules cr namespace roles (s : State W) role w1 existing w2,
     hookRole cr (newRole name rules cr) "" (world s) = (inr role, w1) ->
     let key := NamespacedName.mk (Namespace.Name namespace) (Role.Name role) in
     GetRole key w1 = (inr existing, w2) ->
     bool_decide (name = dexServer) && isDexDisabled w2 = false ->
     exists updated,
       calls (reconcileRoleIteration name rules cr namespace roles s).2 =
       calls s ++ [CallHook (RoleObject (newRole name rules cr));
                   CallGetRole key; CallUpdate (RoleObject updated)] /\
       Role.ObjectMeta updated = Role.ObjectMeta existing /\
       Role.Rules updated = Role.Rules role /\
       (Role.Rules role = rules -> Role.Rules updated = rules)) /\
  (forall name rules cr (s : State W) clusterRole w1 existing w2,
     hookClusterRole cr (newClusterRole name rules cr) "" (world s)
       = (inr clusterRole, w1) ->
     let key := NamespacedName.mk "" (ClusterRole.Name clusterRole) in
     GetClusterRole key w1 = (inr existing, w2) ->
     allowedNamespace (ArgoCD.Namespace cr)
       (Getenv "ARGOCD_CLUSTER_CONFIG_NAMESPACES" (world s)) = true ->
     exists updated,
       calls (reconcileClusterRole name rules cr s).2 =
       calls s ++ [CallHook (ClusterRoleObject (newClusterRole name rules cr));
                   CallGetClusterRole key;
                   CallUpdate (ClusterRoleObject updated)] /\
       ClusterRole.ObjectMeta updated = ClusterRole.ObjectMeta existing /\
       ClusterRole.Rules updated = ClusterRole.Rules clusterRole /\
       (ClusterRole.Rules clusterRole = rules ->
        ClusterRole.Rules updated = rules)).
Proof.
  split.
  - intros name rules cr namespace roles s role w1 existing w2 Hhook key Hget
      Hen.
    rewrite (reconcileRoleIteration_after_get _ _ _ _ _ _ _ _ _ _ Hhook Hget).
    rewrite Hen. simpl.
    exists (Role.with_Rules (Role.Rules role) existing).
    rewrite <- (assoc_L (++)). by repeat split.
  - intros name rules cr s clusterRole w1 existing w2 Hhook key Hget Hal.
    rewrite (reconcileClusterRole_after_get _ _ _ _ _ _ _ _ Hhook Hget).
    rewrite Hal. simpl.
    exists (ClusterRole.with_Rules (ClusterRole.Rules clusterRole) existing).
    rewrite <- (assoc_L (++)). by repeat split.
Qed.

(** The calls of one iteration and the Roles it appends. *)
Lemma reconcileRoleIteration_trace name rules cr n roles (s : State W) :
  let out := reconcileRoleIteration name rules cr n roles s in
  match out.1 with
  | inr roles' =>
    exists block appended,
      handledAt name rules cr n block appended /\
      calls out.2 = calls s ++ block /\ roles' = roles ++ appended
  | inl _ =>
    exists block,
      abortedAt name rules cr n block /\ calls out.2 = calls s ++ block
  end.
Proof.
  cbv zeta.
  destruct (hookRole cr (newRole name rules cr) "" (world s))
    as [[err|role] w1] eqn:Hhook.
  - rewrite (reconcileRoleIteration_hook_error _ _ _ _ _ _ _ _ Hhook).
    simpl. eexists. split; [by left | reflexivity].
  - set (role' := Role.with_Namespace (Namespace.Name n) role).
    set (key := NamespacedName.mk (Role.Namespace role') (Role.Name role')).
    destruct (GetRole key w1) as [g w2] eqn:Hget.
    rewrite (reconcileRoleIteration_after_get _ _ _ _ _ _ _ _ _ _ Hhook Hget).
    fold role' key.
    assert (Hkey : NamespacedName.Namespace key = Namespace.Name n)
      by reflexivity.
    destruct g as [err|existing].
    + destruct (IsNotFound err); cbn [negb].
      2:{ simpl. eexists. split; [|reflexivity].
          right. exists key. split; [exact Hkey | by left]. }
      destruct (bool_decide (name = dexServer) && isDexDisabled w2).
      * simpl. eexists _, [role']. split; [|by split].
        exists key. split; [exact Hkey|]. left. by exists role'.
      * cbv zeta. cbn [fst snd calls].
        destruct (CreateRole (setRoleOwner cr role') w2).1.
        -- eexists. split; [|by rewrite <- !(assoc_L (++))].
           right. exists key. split; [exact Hkey|]. right.
           exists (setRoleOwner cr role'),
             (CallCreate (RoleObject (setRoleOwner cr role'))).
           split; [left|reflexivity].
        -- eexists _, [setRoleOwner cr role'].
           split; [|by rewrite <- !(assoc_L (++))].
           exists key. split; [exact Hkey|]. right. left. by eexists.
    + destruct (bool_decide (name = dexServer) && isDexDisabled w2);
        cbv zeta; cbn [fst snd calls].
      * destruct (DeleteRole existing w2).1.
        -- eexists. split; [|by rewrite <- !(assoc_L (++))].
           right. exists key. split; [exact Hkey|]. right.
           exists existing, (CallDelete (RoleObject existing)).
           split; [do 2 right; left|reflexivity].
        -- eexists _, [].
           split; [|split; [by rewrite <- !(assoc_L (++))
                           |by rewrite app_nil_r]].
           exists key. split; [exact Hkey|]. do 3 right. by eexists.
      * destruct (UpdateRole (Role.with_Rules (Role.Rules role') existing) w2).1.
        -- eexists. split; [|by rewrite <- !(assoc_L (++))].
           right. exists key. split; [exact Hkey|]. right.
           exists (Role.with_Rules (Role.Rules role') existing),
             (CallUpdate
                (RoleObject (Role.with_Rules (Role.Rules role') existing))).
           split; [right; left|reflexivity].
        -- eexists _, [Role.with_Rules (Role.Rules role') existing].
           split; [|by rewrite <- !(assoc_L (++))].
           exists key. split; [exact Hkey|]. do 2 right. left. by eexists.
Qed.

(** The calls of the loop, namespace by namespace, and the Roles it
    returns. *)
Lemma reconcileRoleLoop_trace name rules cr items roles (s : State W) :
  let out := reconcileRoleLoop name rules cr items roles s in
  match out.1 with
  | inr roles' =>
    exists bcs : list (list Call * list Role.t),
      Forall2 (fun n bc => handledAt name rules cr n bc.1 bc.2) items bcs /\
      calls out.2 = calls s ++ concat bcs.*1 /\
      roles' = roles ++ concat bcs.*2
  | inl _ =>
    exists pre n post (bcs : list (list Call * list Role.t)) block,
      items = pre ++ n :: post /\
      Forall2 (fun n bc => handledAt name rules cr n bc.1 bc.2) pre bcs /\
      abortedAt name rules cr n block /\
      calls out.2 = calls s ++ concat bcs.*1 ++ block
  end.
Proof.
  cbv zeta. revert roles s. induction items as [|n items IH]; intros roles s.
  - simpl. exists []. split; [constructor|]. simpl. by rewrite !app_nil_r.
  - simpl. rewrite bind_run.
    pose proof (reconcileRoleIteration_trace name rules cr n roles s) as Hit.
    cbv zeta in Hit.
    destruct (reconcileRoleIteration name rules cr n roles s)
      as [[e|rs] s1]; cbn [fst snd] in *.
    + destruct Hit as (block & Hab & Hc).
      exists [], n, items, [], block. simpl.
      split; [reflexivity|]. split; [constructor|]. by split.
    + destruct Hit as (block & appended & Hh & Hc & ->).
      specialize (IH (roles ++ appended) s1).
      destruct (reconcileRoleLoop name rules cr items (roles ++ appended) s1)
        as [[e|rs'] s2]; cbn [fst snd] in *.
      * destruct IH as (pre & n' & post & bcs & blk & -> & HF & Hab & Hc').
        exists (n :: pre), n', post, ((block, appended) :: bcs), blk.
        split; [reflexivity|]. split; [by constructor|]. split; [exact Hab|].
        rewrite Hc', Hc. simpl. by rewrite <- !(assoc_L (++)).
      * destruct IH as (bcs & HF & Hc' & ->).
        exists ((block, appended) :: bcs).
        split; [by constructor|]. split.
        -- rewrite Hc', Hc. simpl. by rewrite <- !(assoc_L (++)).
        -- simpl. by rewrite <- !(assoc_L (++)).
Qed.


End RoleGoProperties.

(** ** The deployment policies *)

Section DeploymentProperties.
Variable getArgoContainerImage : ArgoCD.t -> string.
Variable getDexContainerImage : ArgoCD.t -> string.
Variable getRepoServerContainerImage : ArgoCD.t -> string.
Variable getArgoRepoCommand : ArgoCD.t -> list string.
Variable repoServerPorts : list ContainerPort.t.
Variable repoCopyutilCommand : list string.

Lemma present_spec key (vars : list EnvVar.t) :
  Deployments.present key vars = true <->
  exists v, v ∈ vars /\
    Deployments.ToLower (EnvVar.Name v) = Deployments.ToLower key.
Proof.
  unfold Deployments.present. rewrite existsb_exists. split.
  - intros (v & Hin & Hv). exists v. split; [by apply list_elem_of_In|].
    by apply bool_decide_eq_true in Hv.
  - intros (v & Hin & Hv). exists v. split; [by apply list_elem_of_In|].
    by apply bool_decide_eq_true.
Qed.

(** C3: the result of [proxyEnvVars] is the input list, unchanged, followed
    by the entries for HTTP_PROXY, HTTPS_PROXY and no_proxy in that order,
    each one there exactly when the process variable has a non-empty value
    and no entry of the input carries its name under some case variant. *)
Theorem proxyEnvVars_appends_missing (env : gmap string string)
    (vars : list EnvVar.t) :
  let missing key :=
    Deployments.Getenv env key <> "" /\
    ~ exists v, v ∈ vars /\
        Deployments.ToLower (EnvVar.Name v) = Deployments.ToLower key in
  exists http https no,
    Deployments.proxyEnvVars env vars = vars ++ http ++ https ++ no /\
    take (length vars) (Deployments.proxyEnvVars env vars) = vars /\
    (missing "HTTP_PROXY" /\
       http = [EnvVar.mk "HTTP_PROXY" (Deployments.Getenv env "HTTP_PROXY")]
     \/ ~ missing "HTTP_PROXY" /\ http = []) /\
    (missing "HTTPS_PROXY" /\
       https = [EnvVar.mk "HTTPS_PROXY" (Deployments.Getenv env "HTTPS_PROXY")]
     \/ ~ missing "HTTPS_PROXY" /\ https = []) /\
    (missing "no_proxy" /\
       no = [EnvVar.mk "no_proxy" (Deployments.Getenv env "no_proxy")]
     \/ ~ missing "no_proxy" /\ no = []).
Proof.
  intros missing.
  set (entry := fun key =>
    if bool_decide (Deployments.Getenv env key <> "")
       && negb (Deployments.present key vars)
    then [EnvVar.mk key (Deployments.Getenv env key)] else []).
  assert (Hentry : forall key,
    missing key /\ entry key = [EnvVar.mk key (Deployments.Getenv env key)]
    \/ ~ missing key /\ entry key = []).
  { intros key. unfold entry, missing.
    destruct (bool_decide (Deployments.Getenv env key <> "")) eqn:Hv; simpl.
    - apply bool_decide_eq_true in Hv.
      destruct (Deployments.present key vars) eqn:Hp; simpl.
      + right. split; [|reflexivity]. intros [_ Hn]. apply Hn.
        by apply present_spec.
      + left. split; [|reflexivity]. split; [done|].
        intros Hex. apply present_spec in Hex. congruence.
    - apply bool_decide_eq_false in Hv. right. split; [|reflexivity].
      by intros [Hne _]. }
  assert (Heq : Deployments.proxyEnvVars env vars =
                vars ++ entry "HTTP_PROXY" ++ entry "HTTPS_PROXY"
                     ++ entry "no_proxy").
  { unfold Deployments.proxyEnvVars, Deployments.proxyKeys. simpl.
    fold (entry "HTTP_PROXY"). fold (entry "HTTPS_PROXY").
    fold (entry "no_proxy"). unfold entry.
    repeat match goal with
           | |- context [if ?b then _ else _] => destruct b
           end; simpl; rewrite <- ?(assoc_L (++)), ?app_nil_r; reflexivity. }
  exists (entry "HTTP_PROXY"), (entry "HTTPS_PROXY"), (entry "no_proxy").
  split; [exact Heq|]. split.
  - rewrite Heq. by rewrite take_app_length.
  - repeat split; apply Hentry.
Qed.

(** The store answers of Create, Update and Delete. *)
Lemma Deployments_Create_fresh (d : Deployment.t) (store : gmap (string * string) Deployment.t) :
  store !! Deployments.key d = None ->
  Deployments.Create d store = (None, <[Deployments.key d := d]> store).
Proof. intros Hk. unfold Deployments.Create. by rewrite Hk. Qed.

Lemma Deployments_Update_found (d d' : Deployment.t) (store : gmap (string * string) Deployment.t) :
  store !! Deployments.key d = Some d' ->
  Deployments.Update d store = (None, <[Deployments.key d := d]> store).
Proof. intros Hk. unfold Deployments.Update. by rewrite Hk. Qed.

Lemma Deployments_Delete_found (d d' : Deployment.t) (store : gmap (string * string) Deployment.t) :
  store !! Deployments.key d = Some d' ->
  Deployments.Delete d store = (None, delete (Deployments.key d) store).
Proof. intros Hk. unfold Deployments.Delete. by rewrite Hk. Qed.

Lemma Deployments_Get_None (k : string * string) (store : gmap (string * string) Deployment.t) :
  store !! k = None ->
  exists err, Deployments.Get k store = inl err /\ IsNotFound err = true.
Proof. intros Hk. unfold Deployments.Get. rewrite Hk. by eexists. Qed.

(** C4: with [DISABLE_DEX] set to ["true"], reconciling the Dex Deployment
    returns no error and leaves no [<instance>-dex-server] Deployment behind,
    both when one exists (it is deleted) and when none does (nothing is
    created, the store is untouched): a Get for it answers not-found.
    Reconciling again once Dex is enabled creates the Deployment with the
    canonical pod spec. *)
Theorem reconcileDexDeployment_disabled_then_enabled
    (off on : gmap string string) (cr : ArgoCD.t)
    (store : gmap (string * string) Deployment.t) :
  off !! "DISABLE_DEX" = Some "true" ->
  Deployments.Getenv on "DISABLE_DEX" <> "true" ->
  let k := (ArgoCD.Namespace cr, ArgoCD.Name cr +:+ "-dex-server") in
  (forall d, store !! k = Some d -> Deployments.key d = k) ->
  let reconcile env :=
    Deployments.reconcileDexDeployment getArgoContainerImage
      getDexContainerImage env cr in
  let disabled := reconcile off store in
  let enabled := reconcile on disabled.2 in
  disabled.1 = None /\
  (exists err, Deployments.Get k disabled.2 = inl err /\ IsNotFound err = true) /\
  (forall d, store !! k = Some d -> disabled.2 = delete k store) /\
  (store !! k = None -> disabled.2 = store) /\
  enabled.1 = None /\
  Deployments.Get k enabled.2 =
    inr (Deployment.mk (ArgoCD.Name cr +:+ "-dex-server") (ArgoCD.Namespace cr)
           (Deployments.dexPodSpec getArgoContainerImage getDexContainerImage
              on cr)).
Proof.
  intros Hoff Hon k Hwf reconcile disabled enabled.
  assert (Hdis : Deployments.isDexDisabled off = true).
  { unfold Deployments.isDexDisabled, Deployments.Getenv. rewrite Hoff.
    by apply bool_decide_eq_true. }
  assert (Hen : Deployments.isDexDisabled on = false).
  { unfold Deployments.isDexDisabled. by apply bool_decide_eq_false. }
  assert (Hrun : forall env s,
    reconcile env s =
    match s !! k with
    | Some existing =>
      if Deployments.isDexDisabled env then Deployments.Delete existing s
      else Deployments.Update
             (Deployment.with_Spec
                (Deployments.dexPodSpec getArgoContainerImage
                   getDexContainerImage env cr) existing) s
    | None =>
      if Deployments.isDexDisabled env then (None, s)
      else Deployments.Create
             (Deployment.mk (ArgoCD.Name cr +:+ "-dex-server")
                (ArgoCD.Namespace cr)
                (Deployments.dexPodSpec getArgoContainerImage
                   getDexContainerImage env cr)) s
    end).
  { intros env s. subst reconcile.
    unfold Deployments.reconcileDexDeployment, Deployments.Get.
    change (Deployments.key (Deployments.newDeploymentWithSuffix _ cr _))
      with k.
    by destruct (s !! k). }
  assert (Hgone : disabled.1 = None /\ disabled.2 !! k = None /\
                  (forall d, store !! k = Some d -> disabled.2 = delete k store) /\
                  (store !! k = None -> disabled.2 = store)).
  { subst disabled. rewrite Hrun, Hdis.
    destruct (store !! k) as [d|] eqn:Hk.
    - assert (Hkd : store !! Deployments.key d = Some d)
        by (by rewrite (Hwf d eq_refl)).
      rewrite (Deployments_Delete_found d d store Hkd), (Hwf d eq_refl).
      simpl. split; [done|]. split; [apply lookup_delete_eq|]. by split.
    - simpl. split; [done|]. split; [done|]. by split. }
  destruct Hgone as (Herr & Hnone & Hdel & Hsame).
  split; [exact Herr|].
  split; [by apply Deployments_Get_None|].
  split; [exact Hdel|]. split; [exact Hsame|].
  subst enabled. rewrite Hrun, Hnone, Hen.
  rewrite Deployments_Create_fresh by exact Hnone.
  split; [done|]. unfold Deployments.Get.
  change (Deployments.key (Deployment.mk _ _ _)) with k.
  cbn [snd]. by rewrite lookup_insert_eq.
Qed.

(** C5: on a cluster without a repo-server Deployment, reconciling creates
    it with the default container first and the plugin containers after it,
    as supplied.  Reconciling again after the plugin list has changed leaves
    the default container first and puts the new plugin list after it: a
    plugin whose name and image were changed in place is found at its
    position with its new name and its new image (the stored entry is the
    new entry, nothing of the old one is kept), and when the number of
    plugins did not change neither did the number of containers. *)
Theorem reconcileRepoDeployment_replaces_plugins (env : gmap string string)
    (cr : ArgoCD.t) (plugins plugins' : list Container.t)
    (store : gmap (string * string) Deployment.t) :
  let k := (ArgoCD.Namespace cr, ArgoCD.Name cr +:+ "-repo-server") in
  store !! k = None ->
  let reconcile :=
    Deployments.reconcileRepoDeployment getArgoContainerImage
      getRepoServerContainerImage getArgoRepoCommand repoServerPorts
      repoCopyutilCommand env in
  let default :=
    Deployments.repoServerContainer getRepoServerContainerImage
      getArgoRepoCommand repoServerPorts env in
  let first := reconcile (Deployments.withPluginContainers plugins cr) store in
  let second :=
    reconcile (Deployments.withPluginContainers plugins' cr) first.2 in
  first.1 = None /\
  Deployments.containersOf k first.2 =
    Some (default (Deployments.withPluginContainers plugins cr) :: plugins) /\
  second.1 = None /\
  Deployments.containersOf k second.2 =
    Some (default (Deployments.withPluginContainers plugins' cr) :: plugins') /\
  (forall i old name image,
     plugins !! i = Some old ->
     plugins' =
       <[i := Container.with_Image image
                (Container.mk name (Container.Image old) (Container.Command old)
                   (Container.Env old) (Container.Ports old)
                   (Container.VolumeMounts old) (Container.ImagePullPolicy old))]>
         plugins ->
     exists cs new,
       Deployments.containersOf k second.2 = Some cs /\
       cs !! S i = Some new /\
       Container.Name new = name /\ Container.Image new = image /\
       plugins' !! i = Some new /\
       length cs = S (length plugins)).
Proof.
  intros k Hfresh reconcile default first second.
  assert (Hfirst : first =
    (None, <[k := Deployment.mk (ArgoCD.Name cr +:+ "-repo-server")
                    (ArgoCD.Namespace cr)
                    (Deployments.repoPodSpec getArgoContainerImage
                       getRepoServerContainerImage getArgoRepoCommand
                       repoServerPorts repoCopyutilCommand env
                       (Deployments.withPluginContainers plugins cr))]> store)).
  { subst first reconcile.
    unfold Deployments.reconcileRepoDeployment, Deployments.Get.
    change (Deployments.key (Deployments.newDeploymentWithSuffix _ _ _))
      with k.
    rewrite Hfresh. by apply Deployments_Create_fresh. }
  assert (Hsecond : second.1 = None /\
    Deployments.containersOf k second.2 =
      Some (default (Deployments.withPluginContainers plugins' cr) :: plugins')).
  { subst second reconcile. rewrite Hfirst.
    unfold Deployments.reconcileRepoDeployment, Deployments.Get.
    change (Deployments.key (Deployments.newDeploymentWithSuffix _ _ _))
      with k.
    cbn [snd]. rewrite lookup_insert_eq.
    erewrite Deployments_Update_found
      by (change (Deployments.key (Deployment.with_Spec _ _)) with k;
          apply lookup_insert_eq).
    change (Deployments.key (Deployment.with_Spec _ _)) with k.
    split; [done|]. unfold Deployments.containersOf. cbn [snd].
    by rewrite lookup_insert_eq. }
  destruct Hsecond as [Herr Hcs].
  split; [by rewrite Hfirst|]. split.
  { rewrite Hfirst. unfold Deployments.containersOf. cbn [snd].
    by rewrite lookup_insert_eq. }
  split; [exact Herr|]. split; [exact Hcs|].
  intros i old name image Hold Hnew.
  assert (Hi : (i < length plugins)%nat) by (by eapply lookup_lt_Some).
  set (new := Container.with_Image image
                (Container.mk name (Container.Image old) (Container.Command old)
                   (Container.Env old) (Container.Ports old)
                   (Container.VolumeMounts old) (Container.ImagePullPolicy old)))
    in *.
  exists (default (Deployments.withPluginContainers plugins' cr) :: plugins'),
    new.
  split; [exact Hcs|]. subst plugins'.
  assert (Hnew : <[i:=new]> plugins !! i = Some new)
    by (by apply list_lookup_insert_eq).
  split; [exact Hnew|]. split; [done|]. split; [done|].
  split; [exact Hnew|]. cbn [length]. f_equal. apply length_insert.
Qed.

(** The command the server container runs after a reconcile is the command
    built from the custom resource, whatever Deployment was stored. *)
Lemma reconcileServerDeployment_command (env : gmap string string)
    (cr : ArgoCD.t) (store : gmap (string * string) Deployment.t) :
  let k := (ArgoCD.Namespace cr, ArgoCD.Name cr +:+ "-server") in
  (forall d, store !! k = Some d -> Deployments.key d = k) ->
  let after :=
    Deployments.reconcileServerDeployment getArgoContainerImage env cr store in
  after.1 = None /\
  Deployments.commandOf k after.2 = Some (Deployments.getArgoServerCommand cr) /\
  (forall d, after.2 !! k = Some d -> Deployments.key d = k).
Proof.
  intros k Hwf after. subst after.
  unfold Deployments.reconcileServerDeployment, Deployments.Get.
  change (Deployments.key (Deployments.newDeploymentWithSuffix _ _ _)) with k.
  destruct (store !! k) as [d|] eqn:Hk.
  - assert (Hkd : Deployments.key (Deployment.with_Spec
               (Deployments.convergePodSpec
                  (Deployment.Spec
                     (Deployments.newDeploymentWithSuffix "server" cr
                        (Deployments.serverPodSpec getArgoContainerImage env cr)))
                  (Deployment.Spec d)) d) = k) by exact (Hwf d eq_refl).
    erewrite Deployments_Update_found by (rewrite Hkd; exact Hk).
    rewrite Hkd. cbn [fst snd]. split; [done|].
    unfold Deployments.commandOf, Deployments.containersOf.
    rewrite lookup_insert_eq. split.
    + simpl. by destruct (PodSpec.Containers (Deployment.Spec d)).
    + intros d' [= <-]. exact Hkd.
  - rewrite Deployments_Create_fresh by exact Hk.
    change (Deployments.key (Deployments.newDeploymentWithSuffix _ _ _)) with k.
    cbn [fst snd]. split; [done|].
    unfold Deployments.commandOf, Deployments.containersOf.
    rewrite lookup_insert_eq. split; [done|]. by intros d' [= <-].
Qed.

(** C6: starting without a server Deployment, reconcile with
    [Spec.Server.Insecure] false, then true, then false again.  No reconcile
    fails; the command after the second reconcile is the command of a
    Deployment created insecure from the start, the command after the third
    is the command after the first; and in the insecure command
    [--insecure] comes directly before [--staticassets]. *)
Theorem reconcileServerDeployment_insecure_toggle (env : gmap string string)
    (cr : ArgoCD.t) (store : gmap (string * string) Deployment.t) :
  let k := (ArgoCD.Namespace cr, ArgoCD.Name cr +:+ "-server") in
  store !! k = None ->
  let reconcile b :=
    Deployments.reconcileServerDeployment getArgoContainerImage env
      (Deployments.withInsecure b cr) in
  let secure := reconcile false store in
  let insecure := reconcile true secure.2 in
  let back := reconcile false insecure.2 in
  let insecureFromStart := reconcile true store in
  secure.1 = None /\ insecure.1 = None /\ back.1 = None /\
  insecureFromStart.1 = None /\
  Deployments.commandOf k secure.2 =
    Some (Deployments.getArgoServerCommand (Deployments.withInsecure false cr)) /\
  Deployments.commandOf k insecure.2 =
    Deployments.commandOf k insecureFromStart.2 /\
  Deployments.commandOf k back.2 = Deployments.commandOf k secure.2 /\
  exists rest,
    Deployments.commandOf k insecure.2 =
      Some ("argocd-server" :: "--insecure" :: "--staticassets" :: rest) /\
    Deployments.commandOf k secure.2 =
      Some ("argocd-server" :: "--staticassets" :: rest).
Proof.
  intros k Hfresh reconcile secure insecure back insecureFromStart.
  assert (Hwf0 : forall d, store !! k = Some d -> Deployments.key d = k)
    by (intros d Hd; congruence).
  destruct (reconcileServerDeployment_command env
              (Deployments.withInsecure false cr) store Hwf0)
    as (E1 & C1 & W1).
  fold (reconcile false) in E1, C1, W1. fold secure in E1, C1, W1.
  destruct (reconcileServerDeployment_command env
              (Deployments.withInsecure true cr) secure.2 W1)
    as (E2 & C2 & W2).
  fold (reconcile true) in E2, C2, W2. fold insecure in E2, C2, W2.
  destruct (reconcileServerDeployment_command env
              (Deployments.withInsecure false cr) insecure.2 W2)
    as (E3 & C3 & _).
  fold (reconcile false) in E3, C3. fold back in E3, C3.
  destruct (reconcileServerDeployment_command env
              (Deployments.withInsecure true cr) store Hwf0)
    as (E4 & C4 & _).
  fold (reconcile true) in E4, C4. fold insecureFromStart in E4, C4.
  change (ArgoCD.Namespace (Deployments.withInsecure _ cr),
          ArgoCD.Name (Deployments.withInsecure _ cr) +:+ "-server")
    with k in *.
  repeat (split; [first [assumption | congruence]|]).
  eexists. split; [rewrite C2; reflexivity|].
  rewrite C1. reflexivity.
Qed.

End DeploymentProperties.

(** The four quadrants on concrete clusters, with the library's
    [SetControllerReference]: the writes of passes over the namespaces
    [argocd], where the custom resource lives, and [dev]. *)
Lemma reconcileRole_four_quadrants_witness :
  filter isWrite
    (calls (reconcileRoleLoop server policyRuleForServer testArgoCD
              ([] ++ [managedNamespace "argocd"]) []
              (start (emptyCluster ["argocd"; "dev"] ∅))).2) =
    [CallCreate
       (RoleObject
          (Role.mk
             (controlledBy testArgoCD
                (Role.ObjectMeta
                   (desiredRole server policyRuleForServer "argocd")))
             policyRuleForServer))] /\
  filter isWrite
    (calls (reconcileRoleLoop server policyRuleForServer testArgoCD
              ([managedNamespace "argocd"] ++ [managedNamespace "dev"]) []
              (start (emptyCluster ["argocd"; "dev"] ∅))).2) =
    [CallCreate (RoleObject (ownedRole server policyRuleForServer "argocd"));
     CallCreate (RoleObject (desiredRole server policyRuleForServer "dev"))] /\
  filter isWrite
    (calls (reconcileRoleLoop dexServer policyRuleForDexServer testArgoCD
              ([managedNamespace "argocd"] ++ [managedNamespace "dev"]) []
              (start (emptyCluster ["argocd"; "dev"] dexOff))).2) = [] /\
  filter isWrite
    (calls (reconcileRoleLoop dexServer policyRuleForDexServer testArgoCD
              ([] ++ [managedNamespace "dev"]) []
              (start (withRole (staleRole "argocd-argocd-dex-server" "dev")
                        (emptyCluster ["dev"] dexOff)))).2) =
    [CallDelete (RoleObject (staleRole "argocd-argocd-dex-server" "dev"))] /\
  filter isWrite
    (calls (reconcileRoleLoop server policyRuleForServer testArgoCD
              ([] ++ [managedNamespace "dev"]) []
              (start (withRole (staleRole "argocd-argocd-server" "dev")
                        (emptyCluster ["dev"] ∅)))).2) =
    [CallUpdate (RoleObject (Role.with_Rules policyRuleForServer
                               (staleRole "argocd-argocd-server" "dev")))].
Proof.
  split; [|split; [|split; [|split]]].
  - set (s0 := start (emptyCluster ["argocd"; "dev"] ∅)).
    destruct (reconcileRole_four_quadrants server policyRuleForServer
                testArgoCD [] (managedNamespace "argocd") s0 s0 []
                (newRole server policyRuleForServer testArgoCD)
                (Fake.hooked (world s0))
                (inl (Fake.notFound Fake.roles "argocd-argocd-server"))
                (Fake.hooked (world s0)))
      as (Q & _); [vm_compute; reflexivity ..|].
    destruct (Q _ eq_refl eq_refl eq_refl) as (Hcalls & _ & Hlib).
    destruct (Hlib (fun _ _ => eq_refl)) as [Hown _].
    rewrite Hcalls, (Hown eq_refl eq_refl). vm_compute. reflexivity.
  - set (s0 := start (emptyCluster ["argocd"; "dev"] ∅)).
    pose (pre := reconcileRoleLoop server policyRuleForServer testArgoCD
                   [managedNamespace "argocd"] [] s0).
    destruct (reconcileRole_four_quadrants server policyRuleForServer
                testArgoCD [managedNamespace "argocd"] (managedNamespace "dev")
                s0 pre.2 [ownedRole server policyRuleForServer "argocd"]
                (newRole server policyRuleForServer testArgoCD)
                (Fake.hooked (world pre.2))
                (inl (Fake.notFound Fake.roles "argocd-argocd-server"))
                (Fake.hooked (world pre.2)))
      as (Q & _); [vm_compute; reflexivity ..|].
    destruct (Q _ eq_refl eq_refl eq_refl) as (Hcalls & _ & Hlib).
    destruct (Hlib (fun _ _ => eq_refl)) as [_ Hother].
    rewrite Hcalls, Hother by discriminate. vm_compute. reflexivity.
  - set (s0 := start (emptyCluster ["argocd"; "dev"] dexOff)).
    pose (pre := reconcileRoleLoop dexServer policyRuleForDexServer testArgoCD
                   [managedNamespace "argocd"] [] s0).
    destruct (reconcileRole_four_quadrants dexServer policyRuleForDexServer
                testArgoCD [managedNamespace "argocd"] (managedNamespace "dev")
                s0 pre.2 [desiredRole dexServer policyRuleForDexServer "argocd"]
                (newRole dexServer policyRuleForDexServer testArgoCD)
                (Fake.hooked (world pre.2))
                (inl (Fake.notFound Fake.roles "argocd-argocd-dex-server"))
                (Fake.hooked (world pre.2)))
      as (_ & Q & _); [vm_compute; reflexivity ..|].
    rewrite (proj1 (Q _ eq_refl eq_refl eq_refl)). vm_compute. reflexivity.
  - set (s0 := start (withRole (staleRole "argocd-argocd-dex-server" "dev")
                         (emptyCluster ["dev"] dexOff))).
    destruct (reconcileRole_four_quadrants dexServer policyRuleForDexServer
                testArgoCD [] (managedNamespace "dev") s0 s0 []
                (newRole dexServer policyRuleForDexServer testArgoCD)
                (Fake.hooked (world s0))
                (inr (staleRole "argocd-argocd-dex-server" "dev"))
                (Fake.hooked (world s0)))
      as (_ & _ & Q & _); [vm_compute; reflexivity ..|].
    rewrite (proj1 (Q _ eq_refl eq_refl)). vm_compute. reflexivity.
  - set (s0 := start (withRole (staleRole "argocd-argocd-server" "dev")
                         (emptyCluster ["dev"] ∅))).
    destruct (reconcileRole_four_quadrants server policyRuleForServer
                testArgoCD [] (managedNamespace "dev") s0 s0 []
                (newRole server policyRuleForServer testArgoCD)
                (Fake.hooked (world s0))
                (inr (staleRole "argocd-argocd-server" "dev"))
                (Fake.hooked (world s0)))
      as (_ & _ & _ & Q); [vm_compute; reflexivity ..|].
    rewrite (proj1 (Q _ eq_refl eq_refl)). vm_compute. reflexivity.
Defined.

(** C1, as stated, fails: the custom resource lives in [argocd] and manages
    [dev]; the Role of the server is not found there and Dex plays no part,
    and the Role is created without an owner reference, because the library
    refuses an owner from another namespace and role.go drops that error. *)
Lemma reconcileRole_creates_role_without_owner :
  let pass := reconcileRole server policyRuleForServer testArgoCD
                (start (emptyCluster ["dev"] ∅)) in
  ~ (exists r, filter isWrite (calls pass.2) = [CallCreate (RoleObject r)] /\
       ObjectMeta.OwnerReferences (Role.ObjectMeta r) <> []) /\
  pass.1.2 = None /\
  filter isWrite (calls pass.2) =
    [CallCreate (RoleObject (desiredRole server policyRuleForServer "dev"))] /\
  ObjectMeta.OwnerReferences
    (Role.ObjectMeta (desiredRole server policyRuleForServer "dev")) = [] /\
  storedRole "dev" "argocd-argocd-server" (world pass.2) =
    Some (desiredRole server policyRuleForServer "dev").
Proof.
  cbv zeta. split; [|split; [|split; [|split]]].
  - intros (r & Hwrites & Hrefs). vm_compute in Hwrites.
    injection Hwrites as <-. by apply Hrefs.
  - vm_compute. reflexivity.
  - vm_compute. reflexivity.
  - reflexivity.
  - vm_compute. reflexivity.
Qed.

(** The four quadrants of [reconcileClusterRole] on concrete clusters, with
    the library's [SetControllerReference]. *)
Lemma reconcileClusterRole_four_quadrants_witness :
  (let run := reconcileClusterRole server policyRuleForServerClusterRole
                testArgoCD (start (emptyCluster ["argocd"] ∅)) in
   run.1 = (None, None) /\ filter isWrite (calls run.2) = []) /\
  (let run := reconcileClusterRole server policyRuleForServerClusterRole
                testArgoCD (start (emptyCluster ["argocd"] clusterConfigAllowed)) in
   let created := newClusterRole server policyRuleForServerClusterRole
                    testArgoCD in
   run.1 = (Some created, None) /\
   filter isWrite (calls run.2) = [CallCreate (ClusterRoleObject created)] /\
   ObjectMeta.OwnerReferences (ClusterRole.ObjectMeta created) = []) /\
  (let existing := staleClusterRole "argocd-argocd-argocd-server" in
   let run := reconcileClusterRole server policyRuleForServerClusterRole
                testArgoCD
                (start (withClusterRole existing (emptyCluster ["argocd"] ∅))) in
   run.1 = (None, None) /\
   filter isWrite (calls run.2) = [CallDelete (ClusterRoleObject existing)]) /\
  (let existing := staleClusterRole "argocd-argocd-argocd-server" in
   let updated := ClusterRole.with_Rules policyRuleForServerClusterRole
                    existing in
   let run := reconcileClusterRole server policyRuleForServerClusterRole
                testArgoCD
                (start (withClusterRole existing
                          (emptyCluster ["argocd"] clusterConfigAllowed))) in
   run.1 = (Some updated, None) /\
   filter isWrite (calls run.2) = [CallUpdate (ClusterRoleObject updated)]).
Proof.
  split; [|split; [|split]]; cbv zeta.
  - set (s0 := start (emptyCluster ["argocd"] ∅)).
    destruct (reconcileClusterRole_four_quadrants server
                policyRuleForServerClusterRole testArgoCD s0
                (newClusterRole server policyRuleForServerClusterRole testArgoCD)
                (Fake.hooked (world s0))
                (inl (Fake.notFound Fake.clusterroles "argocd-argocd-argocd-server"))
                (Fake.hooked (world s0)))
      as (Q & _); [vm_compute; reflexivity ..|].
    rewrite (proj1 (Q _ eq_refl eq_refl eq_refl)). split; reflexivity.
  - set (s0 := start (emptyCluster ["argocd"] clusterConfigAllowed)).
    destruct (reconcileClusterRole_four_quadrants server
                policyRuleForServerClusterRole testArgoCD s0
                (newClusterRole server policyRuleForServerClusterRole testArgoCD)
                (Fake.hooked (world s0))
                (inl (Fake.notFound Fake.clusterroles "argocd-argocd-argocd-server"))
                (Fake.hooked (world s0)))
      as (_ & Q & _); [vm_compute; reflexivity ..|].
    destruct (Q _ eq_refl eq_refl eq_refl) as (Hrun & Hlib).
    destruct (Hlib (fun _ _ => eq_refl)) as [Hrefused _].
    rewrite Hrun, (Hrefused ltac:(discriminate) eq_refl).
    split; [|split]; vm_compute; reflexivity.
  - set (existing := staleClusterRole "argocd-argocd-argocd-server").
    set (s0 := start (withClusterRole existing (emptyCluster ["argocd"] ∅))).
    destruct (reconcileClusterRole_four_quadrants server
                policyRuleForServerClusterRole testArgoCD s0
                (newClusterRole server policyRuleForServerClusterRole testArgoCD)
                (Fake.hooked (world s0)) (inr existing)
                (Fake.hooked (world s0)))
      as (_ & _ & Q & _); [vm_compute; reflexivity ..|].
    rewrite (Q _ eq_refl eq_refl). split; vm_compute; reflexivity.
  - set (existing := staleClusterRole "argocd-argocd-argocd-server").
    set (s0 := start (withClusterRole existing
                        (emptyCluster ["argocd"] clusterConfigAllowed))).
    destruct (reconcileClusterRole_four_quadrants server
                policyRuleForServerClusterRole testArgoCD s0
                (newClusterRole server policyRuleForServerClusterRole testArgoCD)
                (Fake.hooked (world s0)) (inr existing)
                (Fake.hooked (world s0)))
      as (_ & _ & _ & Q); [vm_compute; reflexivity ..|].
    rewrite (Q _ eq_refl eq_refl). split; vm_compute; reflexivity.
Defined.

(** C2, as stated, fails: the namespace [argocd] of the custom resource is
    allowed cluster configuration and the ClusterRole of the server is not
    found; it is created without an owner reference, because the library
    refuses a namespaced owner for a cluster-scoped object and role.go
    drops that error. *)
Lemma reconcileClusterRole_creates_without_owner :
  let run := reconcileClusterRole server policyRuleForServerClusterRole
               testArgoCD (start (emptyCluster ["argocd"] clusterConfigAllowed)) in
  let created := newClusterRole server policyRuleForServerClusterRole
                   testArgoCD in
  ~ (exists c, run.1.1 = Some c /\
       ObjectMeta.OwnerReferences (ClusterRole.ObjectMeta c) <> []) /\
  run.1 = (Some created, None) /\
  filter isWrite (calls run.2) = [CallCreate (ClusterRoleObject created)] /\
  ObjectMeta.OwnerReferences (ClusterRole.ObjectMeta created) = [] /\
  Fake.ClusterRoles (world run.2) !! "argocd-argocd-argocd-server" =
    Some created.
Proof.
  cbv zeta. split; [|split; [|split; [|split]]].
  - intros (c & Hrun & Hrefs). vm_compute in Hrun.
    injection Hrun as <-. by apply Hrefs.
  - vm_compute. reflexivity.
  - vm_compute. reflexivity.
  - reflexivity.
  - vm_compute. reflexivity.
Qed.

(** Aborted passes over the namespaces [argocd] and [dev] in which the call
    that fails is one for [dev]: the error that comes back, and the Role of
    [argocd] as the pass leaves it. *)
Lemma reconcileRole_abort_witness :
  (let w := Fake.with_Fault (failGetRoleIn "dev")
              (emptyCluster ["argocd"; "dev"] ∅) in
   let pass := reconcileRole server policyRuleForServer testArgoCD (start w) in
   pass.1 = ([], Some (errorString
     "failed to reconcile the role for the service account associated with argocd-server : etcdserver: request timed out")) /\
   storedRole "argocd" "argocd-argocd-server" (world pass.2) =
     Some (ownedRole server policyRuleForServer "argocd")) /\
  (let w := Fake.with_Fault (failWritesIn "dev")
              (emptyCluster ["argocd"; "dev"] ∅) in
   let pass := reconcileRole server policyRuleForServer testArgoCD (start w) in
   pass.1 = ([], Some internalError) /\
   storedRole "argocd" "argocd-argocd-server" (world pass.2) =
     Some (ownedRole server policyRuleForServer "argocd")) /\
  (let w := Fake.with_Fault (failWritesIn "dev")
              (withRole (staleRole "argocd-argocd-dex-server" "argocd")
                 (withRole (staleRole "argocd-argocd-dex-server" "dev")
                    (emptyCluster ["argocd"; "dev"] dexOff))) in
   let pass :=
     reconcileRole dexServer policyRuleForDexServer testArgoCD (start w) in
   pass.1 = ([], Some internalError) /\
   storedRole "argocd" "argocd-argocd-dex-server" (world pass.2) = None) /\
  (let w := Fake.with_Fault (failWritesIn "dev")
              (withRole (staleRole "argocd-argocd-server" "argocd")
                 (withRole (staleRole "argocd-argocd-server" "dev")
                    (emptyCluster ["argocd"; "dev"] ∅))) in
   let pass := reconcileRole server policyRuleForServer testArgoCD (start w) in
   pass.1 = ([], Some internalError) /\
   storedRole "argocd" "argocd-argocd-server" (world pass.2) =
     Some (Role.with_Rules policyRuleForServer
             (staleRole "argocd-argocd-server" "argocd"))).
Proof.
  split; [|split; [|split]]; cbv zeta.
  - set (w := Fake.with_Fault _ _). set (sI := start w).
    pose (pre := reconcileRoleLoop server policyRuleForServer testArgoCD
                   [managedNamespace "argocd"] []
                   (mkState w [CallList {[ArgoCDManagedByLabel := "argocd"]}])).
    destruct (reconcileRole_abort server policyRuleForServer testArgoCD sI
                [managedNamespace "argocd"] (managedNamespace "dev") [] w
                pre.2 [ownedRole server policyRuleForServer "argocd"]
                (newRole server policyRuleForServer testArgoCD)
                (Fake.hooked (world pre.2)) (inl internalError)
                (Fake.hooked (world pre.2)))
      as (Q & _); [vm_compute; reflexivity ..|].
    rewrite (Q _ eq_refl eq_refl). split; vm_compute; reflexivity.
  - set (w := Fake.with_Fault _ _). set (sI := start w).
    pose (pre := reconcileRoleLoop server policyRuleForServer testArgoCD
                   [managedNamespace "argocd"] []
                   (mkState w [CallList {[ArgoCDManagedByLabel := "argocd"]}])).
    destruct (reconcileRole_abort server policyRuleForServer testArgoCD sI
                [managedNamespace "argocd"] (managedNamespace "dev") [] w
                pre.2 [ownedRole server policyRuleForServer "argocd"]
                (newRole server policyRuleForServer testArgoCD)
                (Fake.hooked (world pre.2))
                (inl (Fake.notFound Fake.roles "argocd-argocd-server"))
                (Fake.hooked (world pre.2)))
      as (_ & Q & _); [vm_compute; reflexivity ..|].
    rewrite (Q _ internalError eq_refl eq_refl eq_refl eq_refl).
    split; vm_compute; reflexivity.
  - set (w := Fake.with_Fault _ _). set (sI := start w).
    pose (pre := reconcileRoleLoop dexServer policyRuleForDexServer testArgoCD
                   [managedNamespace "argocd"] []
                   (mkState w [CallList {[ArgoCDManagedByLabel := "argocd"]}])).
    destruct (reconcileRole_abort dexServer policyRuleForDexServer testArgoCD
                sI [managedNamespace "argocd"] (managedNamespace "dev") [] w
                pre.2 []
                (newRole dexServer policyRuleForDexServer testArgoCD)
                (Fake.hooked (world pre.2))
                (inr (staleRole "argocd-argocd-dex-server" "dev"))
                (Fake.hooked (world pre.2)))
      as (_ & _ & Q & _); [vm_compute; reflexivity ..|].
    rewrite (Q _ internalError eq_refl eq_refl eq_refl).
    split; vm_compute; reflexivity.
  - set (w := Fake.with_Fault _ _). set (sI := start w).
    pose (pre := reconcileRoleLoop server policyRuleForServer testArgoCD
                   [managedNamespace "argocd"] []
                   (mkState w [CallList {[ArgoCDManagedByLabel := "argocd"]}])).
    destruct (reconcileRole_abort server policyRuleForServer testArgoCD sI
                [managedNamespace "argocd"] (managedNamespace "dev") [] w
                pre.2
                [Role.with_Rules policyRuleForServer
                   (staleRole "argocd-argocd-server" "argocd")]
                (newRole server policyRuleForServer testArgoCD)
                (Fake.hooked (world pre.2))
                (inr (staleRole "argocd-argocd-server" "dev"))
                (Fake.hooked (world pre.2)))
      as (_ & _ & _ & Q); [vm_compute; reflexivity ..|].
    rewrite (Q _ internalError eq_refl eq_refl eq_refl).
    split; vm_compute; reflexivity.
Defined.

(** A ClusterRole hook that fails at once, and a Role hook that fails when
    the pass reaches its second namespace: the error comes back as it is
    and the writes of the pass are those made before the failure. *)
Lemma hook_failure_aborts_before_write_witness :
  (let w := Fake.with_ClusterRoleHook testErrorHook
              (emptyCluster ["argocd"] clusterConfigAllowed) in
   let run := reconcileClusterRole server policyRuleForServerClusterRole
                testArgoCD (start w) in
   run.1 = (None, Some (errorString "this is a test error")) /\
   filter isWrite (calls run.2) = []) /\
  (let w := Fake.with_RoleHook failSecondHook
              (emptyCluster ["argocd"; "dev"] ∅) in
   let pass := reconcileRole server policyRuleForServer testArgoCD (start w) in
   pass.1 = ([], Some (errorString "this is a test error")) /\
   filter isWrite (calls pass.2) =
     [CallCreate (RoleObject (ownedRole server policyRuleForServer "argocd"))] /\
   storedRole "dev" "argocd-argocd-server" (world pass.2) = None).
Proof.
  destruct (hook_failure_aborts_before_write (W:=Fake.t)) as (_ & Q2 & _ & Q4).
  split; cbv zeta.
  - set (w := Fake.with_ClusterRoleHook _ _).
    rewrite (Q2 server policyRuleForServerClusterRole testArgoCD (start w)
               (errorString "this is a test error") (Fake.hooked w) eq_refl).
    split; reflexivity.
  - set (w := Fake.with_RoleHook _ _). set (sI := start w).
    pose (pre := reconcileRoleLoop server policyRuleForServer testArgoCD
                   [managedNamespace "argocd"] []
                   (mkState w [CallList {[ArgoCDManagedByLabel := "argocd"]}])).
    rewrite (Q4 server policyRuleForServer testArgoCD sI
               [managedNamespace "argocd"] (managedNamespace "dev") [] w
               pre.2 [ownedRole server policyRuleForServer "argocd"]
               (errorString "this is a test error")
               (Fake.hooked (world pre.2)));
      [|vm_compute; reflexivity ..].
    repeat split; vm_compute; reflexivity.
Defined.

(** A stale Role and a stale ClusterRole are updated: the object sent to
    Update has the metadata of the stale object and the rules of this pass. *)
Lemma update_replaces_rules_only_witness :
  (let existing := staleRole "argocd-argocd-server" "dev" in
   let run := reconcileRoleIteration server policyRuleForServer testArgoCD
                (managedNamespace "dev") []
                (start (withRole existing (emptyCluster ["dev"] ∅))) in
   exists updated,
     last (calls run.2) = Some (CallUpdate (RoleObject updated)) /\
     Role.ObjectMeta updated = Role.ObjectMeta existing /\
     Role.Rules updated = policyRuleForServer /\
     Role.Rules existing <> policyRuleForServer) /\
  (let existing := staleClusterRole "argocd-argocd-argocd-server" in
   let run := reconcileClusterRole server policyRuleForServerClusterRole
                testArgoCD
                (start (withClusterRole existing
                          (emptyCluster ["argocd"] clusterConfigAllowed))) in
   exists updated,
     last (calls run.2) = Some (CallUpdate (ClusterRoleObject updated)) /\
     ClusterRole.ObjectMeta updated = ClusterRole.ObjectMeta existing /\
     ClusterRole.Rules updated = policyRuleForServerClusterRole /\
     ClusterRole.Rules existing <> policyRuleForServerClusterRole).
Proof.
  destruct (update_replaces_rules_only (W:=Fake.t)) as (Q1 & Q2).
  split; cbv zeta.
  - set (existing := staleRole "argocd-argocd-server" "dev").
    set (s0 := start (withRole existing (emptyCluster ["dev"] ∅))).
    destruct (Q1 server policyRuleForServer testArgoCD (managedNamespace "dev")
                [] s0 (newRole server policyRuleForServer testArgoCD)
                (Fake.hooked (world s0)) existing (Fake.hooked (world s0)))
      as (updated & Hcalls & Hmeta & _ & Hrules);
      [vm_compute; reflexivity ..|].
    exists updated. rewrite Hcalls.
    split; [reflexivity|]. split; [exact Hmeta|].
    split; [exact (Hrules eq_refl)|]. discriminate.
  - set (existing := staleClusterRole "argocd-argocd-argocd-server").
    set (s0 := start (withClusterRole existing
                        (emptyCluster ["argocd"] clusterConfigAllowed))).
    destruct (Q2 server policyRuleForServerClusterRole testArgoCD s0
                (newClusterRole server policyRuleForServerClusterRole testArgoCD)
                (Fake.hooked (world s0)) existing (Fake.hooked (world s0)))
      as (updated & Hcalls & Hmeta & _ & Hrules);
      [vm_compute; reflexivity ..|].
    exists updated. rewrite Hcalls.
    split; [reflexivity|]. split; [exact Hmeta|].
    split; [exact (Hrules eq_refl)|]. discriminate.
Defined.


(** [Test_proxyEnvVars]: both rows of the table. *)
Example proxyEnvVars_test_empty :
  Deployments.proxyEnvVars Deployments.testProxyEnv [] =
  [EnvVar.mk "HTTP_PROXY" "example.com:8888";
   EnvVar.mk "HTTPS_PROXY" "example.com:8443";
   EnvVar.mk "no_proxy" ".example.com"].
Proof. vm_compute. reflexivity. Qed.

Example proxyEnvVars_test_existing :
  Deployments.proxyEnvVars Deployments.testProxyEnv
    [EnvVar.mk "TEST_VAR" "testing"] =
  [EnvVar.mk "TEST_VAR" "testing";
   EnvVar.mk "HTTP_PROXY" "example.com:8888";
   EnvVar.mk "HTTPS_PROXY" "example.com:8443";
   EnvVar.mk "no_proxy" ".example.com"].
Proof. vm_compute. reflexivity. Qed.

(** An entry that is there under another case is neither repeated nor
    touched; no process value, no entry. *)
Example proxyEnvVars_case_variant :
  Deployments.proxyEnvVars Deployments.testProxyEnv
    [EnvVar.mk "http_proxy" "mine:1"; EnvVar.mk "NO_PROXY" "localhost"] =
  [EnvVar.mk "http_proxy" "mine:1"; EnvVar.mk "NO_PROXY" "localhost";
   EnvVar.mk "HTTPS_PROXY" "example.com:8443"].
Proof. vm_compute. reflexivity. Qed.

Example proxyEnvVars_no_environment :
  Deployments.proxyEnvVars ∅ [EnvVar.mk "TEST_VAR" "testing"] =
  [EnvVar.mk "TEST_VAR" "testing"].
Proof. vm_compute. reflexivity. Qed.

(** [TestReconcileArgoCD_reconcileDexDeployment_with_dex_disabled] and its
    counterpart with a Dex Deployment in place; then Dex is enabled again. *)
Lemma reconcileDexDeployment_disabled_then_enabled_witness :
  let k := ("argocd", "argocd-dex-server") in
  let reconcile env :=
    Deployments.reconcileDexDeployment testArgoImage testDexImage env
      testArgoCD in
  (let disabled := reconcile dexOff {[ k := testDexDeployment ]} in
   disabled.1 = None /\ disabled.2 = ∅ /\
   Deployments.Get k (reconcile ∅ disabled.2).2 = inr testDexDeployment) /\
  (let disabled := reconcile dexOff ∅ in
   disabled.1 = None /\ disabled.2 = ∅ /\
   Deployments.Get k (reconcile ∅ disabled.2).2 = inr testDexDeployment).
Proof.
  cbv zeta. split.
  - destruct (reconcileDexDeployment_disabled_then_enabled testArgoImage
                testDexImage dexOff ∅ testArgoCD
                {[ ("argocd", "argocd-dex-server") := testDexDeployment ]})
      as (H1 & _ & H3 & _ & _ & H6).
    + reflexivity.
    + vm_compute. discriminate.
    + intros d Hd. rewrite lookup_singleton_eq in Hd. by injection Hd as <-.
    + split; [exact H1|]. split; [|exact H6].
      rewrite (H3 testDexDeployment) by apply lookup_singleton_eq.
      apply delete_singleton_eq.
  - destruct (reconcileDexDeployment_disabled_then_enabled testArgoImage
                testDexImage dexOff ∅ testArgoCD ∅)
      as (H1 & _ & _ & H4 & _ & H6).
    + reflexivity.
    + vm_compute. discriminate.
    + intros d Hd. by rewrite lookup_empty in Hd.
    + split; [exact H1|]. split; [|exact H6]. apply H4, lookup_empty.
Defined.

(** [TestReconcileArgoCD_reconcileRepDeployment_with_PluginContainers_with_update]:
    the plugin [cdk8s] is renamed and given another image between two
    reconciles. *)
Lemma reconcileRepoDeployment_replaces_plugins_witness :
  let reconcile plugins :=
    Deployments.reconcileRepoDeployment testArgoImage testArgoImage
      (fun _ => ["argocd-repo-server"]) [] [] ∅
      (Deployments.withPluginContainers plugins testArgoCD) in
  let second :=
    reconcile [Deployments.renamedPlugin]
      (reconcile [Deployments.cdk8s] ∅).2 in
  exists cs plugin,
    Deployments.containersOf ("argocd", "argocd-repo-server") second.2 = Some cs /\
    cs !! 1%nat = Some plugin /\
    Container.Name plugin = "newname" /\
    Container.Image plugin = "newimage:latest" /\
    Container.Command plugin = ["/var/run/argocd/argocd-cmp-server"] /\
    length cs = 2%nat.
Proof.
  cbv zeta.
  destruct (reconcileRepoDeployment_replaces_plugins testArgoImage
              testArgoImage (fun _ => ["argocd-repo-server"]) [] [] ∅
              testArgoCD [Deployments.cdk8s] [Deployments.renamedPlugin] ∅)
    as (_ & _ & _ & _ & Q); [apply lookup_empty|].
  destruct (Q 0%nat Deployments.cdk8s "newname" "newimage:latest"
              eq_refl eq_refl)
    as (cs & plugin & Hcs & Hplugin & Hname & Himage & Hnew & Hlen).
  exists cs, plugin. repeat split; try assumption.
  by injection Hnew as <-.
Defined.

(** [TestReconcileArgoCD_reconcileServerDeployment],
    [..WithInsecure] and [..ChangedToInsecure]: the command lists the tests
    expect, through the toggle and back. *)
Lemma reconcileServerDeployment_insecure_toggle_witness :
  let k := ("argocd", "argocd-server") in
  let reconcile b :=
    Deployments.reconcileServerDeployment testArgoImage ∅
      (Deployments.withInsecure b testArgoCD) in
  let secure := reconcile false ∅ in
  let insecure := reconcile true secure.2 in
  let back := reconcile false insecure.2 in
  Deployments.commandOf k insecure.2 =
    Some ["argocd-server"; "--insecure"; "--staticassets"; "/shared/app";
          "--dex-server";
          "http://argocd-dex-server.argocd.svc.cluster.local:5556";
          "--repo-server"; "argocd-repo-server.argocd.svc.cluster.local:8081";
          "--redis"; "argocd-redis.argocd.svc.cluster.local:6379"] /\
  Deployments.commandOf k back.2 =
    Some ["argocd-server"; "--staticassets"; "/shared/app";
          "--dex-server";
          "http://argocd-dex-server.argocd.svc.cluster.local:5556";
          "--repo-server"; "argocd-repo-server.argocd.svc.cluster.local:8081";
          "--redis"; "argocd-redis.argocd.svc.cluster.local:6379"].
Proof.
  cbv zeta.
  destruct (reconcileServerDeployment_insecure_toggle testArgoImage ∅
              testArgoCD ∅)
    as (_ & _ & _ & _ & Hsecure & _ & Hback & rest & Hinsecure & _);
    [apply lookup_empty|].
  split.
  - etransitivity; [exact Hinsecure|]. f_equal.
    assert (Hrest := Hinsecure). vm_compute in Hrest.
    injection Hrest as <-. reflexivity.
  - etransitivity; [exact Hback|]. etransitivity; [exact Hsecure|].
    reflexivity.
Defined.

(** * Further properties of role.go *)

(** ** Cleanup of ClusterRoles *)

Section CleanupProperties.
Context {W : Type} `{Runtime W}.
Variable Quote : string -> string.

Lemma deleteClusterRoles_cons c rest (s : State W) :
  deleteClusterRoles Quote (c :: rest) s =
  let d := DeleteClusterRole c (world s) in
  let s' := mkState d.2 (calls s ++ [CallDelete (ClusterRoleObject c)]) in
  match d.1 with
  | Some err => (Some (cleanupError Quote (ClusterRole.Name c) err), s')
  | None => deleteClusterRoles Quote rest s'
  end.
Proof.
  simpl. unfold clientDeleteClusterRole. rewrite bind_run, issue_run. simpl.
  by destruct (DeleteClusterRole c (world s)).1.
Qed.

Lemma deleteClusterRoles_app pre post (s : State W) :
  deleteClusterRoles Quote (pre ++ post) s =
  match deleteClusterRoles Quote pre s with
  | (Some e, s') => (Some e, s')
  | (None, s') => deleteClusterRoles Quote post s'
  end.
Proof.
  revert s. induction pre as [|c pre IH]; intros s; [reflexivity|].
  rewrite <- app_comm_cons, !deleteClusterRoles_cons. cbv zeta.
  destruct (DeleteClusterRole c (world s)).1; [reflexivity | apply IH].
Qed.

(** X1: [deleteClusterRoles] stops at the first Delete that fails.  When the
    ClusterRoles before [c] were deleted and the Delete of [c] fails, the
    function returns the error that wraps the failure and names [c]; the
    failing Delete is the last call, so no ClusterRole after [c] is
    deleted. *)
Theorem deleteClusterRoles_stops_at_first_failure pre c post
    (s s1 : State W) err w' :
  deleteClusterRoles Quote pre s = (None, s1) ->
  DeleteClusterRole c (world s1) = (Some err, w') ->
  let out := deleteClusterRoles Quote (pre ++ c :: post) s in
  out.2 = mkState w' (calls s1 ++ [CallDelete (ClusterRoleObject c)]) /\
  exists e, out.1 = Some e /\ Unwrap e = err /\
    wrapMessage e =
      "failed to delete ClusterRole " +:+ Quote (ClusterRole.Name c)
        +:+ " during cleanup: " +:+ Error err.
Proof.
  intros Hpre Hdel out. subst out.
  rewrite deleteClusterRoles_app, Hpre, deleteClusterRoles_cons, Hdel. simpl.
  split; [reflexivity|]. by eexists.
Qed.

(** X2: the calls of [deleteClusterRoles] are Deletes of the listed
    ClusterRoles, in list order and without a gap.  When it returns nil
    every listed ClusterRole has been sent to Delete; when it returns an
    error, the Deletes are those of the list up to and including the one
    the error names, and the error wraps what that Delete returned. *)
Theorem deleteClusterRoles_deletes_a_prefix items (s : State W) :
  let out := deleteClusterRoles Quote items s in
  let sent (cs : list ClusterRole.t) :=
    (fun c => CallDelete (ClusterRoleObject c)) <$> cs in
  match out.1 with
  | None => calls out.2 = calls s ++ sent items
  | Some e =>
    exists pre c post,
      items = pre ++ c :: post /\
      calls out.2 = calls s ++ sent (pre ++ [c]) /\
      e = cleanupError Quote (ClusterRole.Name c) (Unwrap e) /\
      (DeleteClusterRole c
         (world (deleteClusterRoles Quote pre s).2)).1 = Some (Unwrap e)
  end.
Proof.
  cbv zeta. revert s. induction items as [|c rest IH]; intros s.
  - simpl. by rewrite app_nil_r.
  - rewrite deleteClusterRoles_cons. cbv zeta.
    destruct (DeleteClusterRole c (world s)).1 as [err|] eqn:Hd.
    + simpl. exists [], c, rest. simpl. by rewrite Hd.
    + specialize (IH (mkState (DeleteClusterRole c (world s)).2
                        (calls s ++ [CallDelete (ClusterRoleObject c)]))).
      destruct (deleteClusterRoles Quote rest _).1 as [e|] eqn:Hout.
      * destruct IH as (pre & c' & post & -> & Hcalls & He & Hfail).
        exists (c :: pre), c', post. split; [reflexivity|].
        split; [|split; [exact He|]].
        -- rewrite Hcalls. simpl. by rewrite <- (assoc_L (++)).
        -- rewrite deleteClusterRoles_cons. cbv zeta. by rewrite Hd.
      * rewrite IH. simpl. by rewrite <- (assoc_L (++)).
Qed.

End CleanupProperties.

(** ** What a pass of reconcileRole calls *)

Section RoleGoCalls.
Context {W : Type} `{Runtime W}.

(** One iteration: its calls concern Roles only, with at most one lookup and
    at most one write; the lookup is there whenever the iteration does not
    abort. *)
Lemma reconcileRoleIteration_calls name rules cr n roles (s : State W) :
  let out := reconcileRoleIteration name rules cr n roles s in
  exists ext,
    calls out.2 = calls s ++ ext /\
    Forall (fun c => isRoleCall c = true) ext /\
    (length (filter isWrite ext) <= 1)%nat /\
    (length (filter isGetRole ext) <= 1)%nat /\
    (forall roles', out.1 = inr roles' -> length (filter isGetRole ext) = 1%nat).
Proof.
  cbv zeta.
  destruct (hookRole cr (newRole name rules cr) "" (world s))
    as [[err|role] w1] eqn:Hhook.
  - rewrite (reconcileRoleIteration_hook_error _ _ _ _ _ _ _ _ Hhook).
    eexists. split; [reflexivity|]. simpl.
    split; [by repeat constructor|]. split; [lia|]. split; [lia|]. discriminate.
  - destruct (GetRole
                (NamespacedName.mk
                   (Role.Namespace
                      (Role.with_Namespace (Namespace.Name n) role))
                   (Role.Name (Role.with_Namespace (Namespace.Name n) role)))
                w1) as [g w2] eqn:Hget.
    rewrite (reconcileRoleIteration_after_get _ _ _ _ _ _ _ _ _ _ Hhook Hget).
    destruct g as [e|existing]; simpl;
      repeat match goal with
             | |- context [if ?b then _ else _] => destruct b
             end; simpl; rewrite <- ?(assoc_L (++));
      (eexists; split; [reflexivity|]; simpl;
       split; [by repeat constructor|]; split; [lia|]; split; [lia|]);
      try discriminate; intros; reflexivity.
Qed.

Lemma reconcileRoleLoop_calls name rules cr items roles (s : State W) :
  let out := reconcileRoleLoop name rules cr items roles s in
  exists ext,
    calls out.2 = calls s ++ ext /\
    Forall (fun c => isRoleCall c = true) ext /\
    (length (filter isWrite ext) <= length items)%nat /\
    (length (filter isGetRole ext) <= length items)%nat /\
    (forall roles', out.1 = inr roles' ->
       length (filter isGetRole ext) = length items).
Proof.
  cbv zeta. revert roles s. induction items as [|n items IH]; intros roles s.
  - exists []. simpl. rewrite app_nil_r. repeat split; try done; lia.
  - simpl. rewrite bind_run.
    destruct (reconcileRoleIteration_calls name rules cr n roles s)
      as (ext1 & Hc1 & Hr1 & Hw1 & Hg1 & Hok1).
    destruct (reconcileRoleIteration name rules cr n roles s) as [[e|rs] s1];
      simpl in *.
    + exists ext1. repeat split; try done; lia.
    + destruct (IH rs s1) as (ext2 & Hc2 & Hr2 & Hw2 & Hg2 & Hok2).
      exists (ext1 ++ ext2). rewrite Hc2, Hc1, (assoc_L (++)).
      split; [reflexivity|]. split; [by apply Forall_app|].
      rewrite !filter_app, !length_app.
      split; [lia|]. split; [lia|].
      intros roles' Hout. rewrite (Hok1 rs eq_refl), (Hok2 roles' Hout). lia.
Qed.

(** X3: what a pass of [reconcileRole] calls.  It lists the namespaces once,
    with the label selector managed-by = the namespace of the custom
    resource, and every call after that concerns a Role: it never reads or
    writes a ClusterRole and never lists again.  When the List fails, the
    List is its only call and its error comes back as it is.  Otherwise the
    calls after the List fall into one block per listed namespace, in list
    order.  In a pass that succeeds every listed namespace has its block:
    the hook call, one lookup whose key is in that namespace, and at most
    one write.  In a pass that fails, the namespaces before the failing one
    have such blocks and the last block is the one of the failing namespace:
    the hook call alone, or the hook call and the lookup in that namespace,
    or these two and one write; the namespaces after it get no call.  So
    there is at most one lookup and one write per listed namespace, and
    exactly one lookup per namespace when the pass succeeds. *)
Theorem reconcileRole_call_discipline name rules cr (s : State W) :
  let listOption : gmap string string :=
    {[ ArgoCDManagedByLabel := ArgoCD.Namespace cr ]} in
  let out := reconcileRole name rules cr s in
  exists ext,
    calls out.2 = calls s ++ CallList listOption :: ext /\
    Forall (fun c => isRoleCall c = true) ext /\
    match (ListNamespaces listOption (world s)).1 with
    | inl err => ext = [] /\ out.1 = ([], Some err)
    | inr items =>
      (length (filter isWrite ext) <= length items)%nat /\
      (length (filter isGetRole ext) <= length items)%nat /\
      (out.1.2 = None -> length (filter isGetRole ext) = length items) /\
      match out.1.2 with
      | None =>
        exists bcs : list (list Call * list Role.t),
          Forall2 (fun n bc => handledAt name rules cr n bc.1 bc.2)
            items bcs /\
          ext = concat bcs.*1
      | Some _ =>
        exists pre n post (bcs : list (list Call * list Role.t)) block,
          items = pre ++ n :: post /\
          Forall2 (fun n bc => handledAt name rules cr n bc.1 bc.2)
            pre bcs /\
          abortedAt name rules cr n block /\
          ext = concat bcs.*1 ++ block
      end
    end.
Proof.
  cbv zeta.
  destruct (ListNamespaces {[ArgoCDManagedByLabel := ArgoCD.Namespace cr]}
              (world s)) as [[err|items] wl] eqn:Hlist.
  - unfold reconcileRole, clientList. rewrite bind_run, issue_run, Hlist.
    simpl. exists []. by repeat split.
  - rewrite (reconcileRole_after_list name rules cr s items wl Hlist).
    set (s0 := mkState wl (calls s ++
                 [CallList {[ArgoCDManagedByLabel := ArgoCD.Namespace cr]}])).
    destruct (reconcileRoleLoop_calls name rules cr items [] s0)
      as (ext & Hc & Hr & Hw & Hg & Hok).
    pose proof (reconcileRoleLoop_trace name rules cr items [] s0) as Htr.
    cbv zeta in Htr.
    destruct (reconcileRoleLoop name rules cr items [] s0) as [[e|rs] s'];
      cbn [fst snd] in *; exists ext; rewrite Hc; subst s0; cbn [calls];
      rewrite <- (assoc_L (++)); (split; [reflexivity|]);
      (split; [exact Hr|]); (split; [exact Hw|]); (split; [exact Hg|]).
    + split; [discriminate|].
      destruct Htr as (pre & n & post & bcs & block & Hitems & HF & Hab & Hc').
      exists pre, n, post, bcs, block. split; [exact Hitems|].
      split; [exact HF|]. split; [exact Hab|].
      rewrite Hc in Hc'. by apply app_inv_head in Hc'.
    + split; [intros _; by apply (Hok rs)|].
      destruct Htr as (bcs & HF & Hc' & _).
      exists bcs. split; [exact HF|].
      rewrite Hc in Hc'. by apply app_inv_head in Hc'.
Qed.

(** X4: what the slice returned by [reconcileRole] gains at a namespace the
    pass gets to and does not abort on.  Not found and created: the Role
    that was sent to Create, which is the desired Role as
    [SetControllerReference] left it; with the library's
    [SetControllerReference] that is the desired Role with the controller
    reference when the namespace is the one of the custom resource, and the
    desired Role as it was, without owner reference, in any other namespace.
    Not found, component [dexServer] and Dex disabled: the desired Role,
    although no Role was created.  Found and deleted: nothing.  Found and
    updated: the Role that was sent to Update. *)
Theorem reconcileRole_returned_roles name rules cr pre namespace
    (s0 s : State W) roles role w1 g w2 :
  reconcileRoleLoop name rules cr pre [] s0 = (inr roles, s) ->
  hookRole cr (newRole name rules cr) "" (world s) = (inr role, w1) ->
  let desired := Role.with_Namespace (Namespace.Name namespace) role in
  let key := NamespacedName.mk (Namespace.Name namespace) (Role.Name role) in
  GetRole key w1 = (g, w2) ->
  let disabledDex := bool_decide (name = dexServer) && isDexDisabled w2 in
  let out := reconcileRoleLoop name rules cr (pre ++ [namespace]) [] s0 in
  (forall err, g = inl err -> IsNotFound err = true -> disabledDex = true ->
     out.1 = inr (roles ++ [desired]) /\
     filter isWrite (calls out.2) = filter isWrite (calls s)) /\
  (forall err, g = inl err -> IsNotFound err = true -> disabledDex = false ->
     let owned :=
       Role.mk (SetControllerReference cr (Role.ObjectMeta desired))
         (Role.Rules desired) in
     (CreateRole owned w2).1 = None ->
     out.1 = inr (roles ++ [owned]) /\
     filter isWrite (calls out.2) =
       filter isWrite (calls s) ++ [CallCreate (RoleObject owned)] /\
     (libraryOwner ->
      (Namespace.Name namespace = ArgoCD.Namespace cr ->
       ObjectMeta.OwnerReferences (Role.ObjectMeta role) = [] ->
       owned = Role.mk (controlledBy cr (Role.ObjectMeta desired))
                 (Role.Rules desired)) /\
      (ArgoCD.Namespace cr <> "" ->
       Namespace.Name namespace <> ArgoCD.Namespace cr ->
       owned = desired))) /\
  (forall existing, g = inr existing -> disabledDex = true ->
     (DeleteRole existing w2).1 = None -> out.1 = inr roles) /\
  (forall existing, g = inr existing -> disabledDex = false ->
     let updated := Role.with_Rules (Role.Rules desired) existing in
     (UpdateRole updated w2).1 = None -> out.1 = inr (roles ++ [updated])).
Proof.
  intros Hpre Hhook desired key Hget disabledDex out.
  assert (Hit := reconcileRoleIteration_after_get name rules cr namespace
                   roles s role w1 g w2 Hhook Hget).
  cbv zeta in Hit. fold disabledDex in Hit.
  subst out. rewrite (reconcileRoleLoop_snoc _ _ _ _ _ _ _ _ _ Hpre), Hit.
  split; [|split; [|split]].
  - intros err -> Hnf Hdis. rewrite Hnf, Hdis. simpl. split; [reflexivity|].
    rewrite !filter_app. simpl. by rewrite !app_nil_r.
  - intros err -> Hnf Hen owned Hc. rewrite Hnf, Hen. simpl.
    fold desired. change (setRoleOwner cr desired) with owned. rewrite Hc.
    split; [reflexivity|]. split.
    { rewrite !filter_app. simpl. by rewrite !app_nil_r. }
    intros Hlib. subst owned. rewrite Hlib. split.
    + intros Hns Hrefs. f_equal. apply SetControllerReference_fresh.
      * cbn. rewrite Hns. apply validateOwner_same.
      * exact Hrefs.
    + intros Hne Hother.
      rewrite SetControllerReference_refused
        by (cbn; by apply validateOwner_other).
      subst desired. by destruct role as [[]].
  - intros existing -> Hdis Hd. rewrite Hdis. simpl. by rewrite Hd.
  - intros existing -> Hen updated Hu. rewrite Hen. simpl.
    change (Role.with_Rules (Role.Rules role) existing) with updated.
    by rewrite Hu.
Qed.

(** X5: [reconcileRole] and [reconcileClusterRole] do not compare before
    they update.  When the object that was found already has the rules of
    the desired object, the Update call is issued all the same, and what it
    sends is the object exactly as it was fetched. *)
Theorem update_sent_even_when_rules_match :
  (forall name rules cr namespace roles (s : State W) role w1 existing w2,
     hookRole cr (newRole name rules cr) "" (world s) = (inr role, w1) ->
     let key := NamespacedName.mk (Namespace.Name namespace) (Role.Name role) in
     GetRole key w1 = (inr existing, w2) ->
     bool_decide (name = dexServer) && isDexDisabled w2 = false ->
     Role.Rules existing = Role.Rules role ->
     calls (reconcileRoleIteration name rules cr namespace roles s).2 =
     calls s ++ [CallHook (RoleObject (newRole name rules cr));
                 CallGetRole key; CallUpdate (RoleObject existing)]) /\
  (forall name rules cr (s : State W) clusterRole w1 existing w2,
     hookClusterRole cr (newClusterRole name rules cr) "" (world s)
       = (inr clusterRole, w1) ->
     let key := NamespacedName.mk "" (ClusterRole.Name clusterRole) in
     GetClusterRole key w1 = (inr existing, w2) ->
     allowedNamespace (ArgoCD.Namespace cr)
       (Getenv "ARGOCD_CLUSTER_CONFIG_NAMESPACES" (world s)) = true ->
     ClusterRole.Rules existing = ClusterRole.Rules clusterRole ->
     calls (reconcileClusterRole name rules cr s).2 =
     calls s ++ [CallHook (ClusterRoleObject (newClusterRole name rules cr));
                 CallGetClusterRole key;
                 CallUpdate (ClusterRoleObject existing)]).
Proof.
  split.
  - intros name rules cr namespace roles s role w1 existing w2 Hhook key Hget
      Hen Hsame.
    rewrite (reconcileRoleIteration_after_get _ _ _ _ _ _ _ _ _ _ Hhook Hget).
    rewrite Hen. simpl. rewrite <- Hsame, <- (assoc_L (++)).
    by destruct existing.
  - intros name rules cr s clusterRole w1 existing w2 Hhook key Hget Hal Hsame.
    rewrite (reconcileClusterRole_after_get _ _ _ _ _ _ _ _ Hhook Hget).
    rewrite Hal. simpl. rewrite <- Hsame, <- (assoc_L (++)).
    by destruct existing.
Qed.

Lemma reconcileRole_no_cluster_calls name rules cr (s : State W) :
  exists ext,
    calls (reconcileRole name rules cr s).2 = calls s ++ ext /\
    Forall (fun c => isClusterRoleCall c = false) ext.
Proof.
  assert (Hrole : forall c, isRoleCall c = true -> isClusterRoleCall c = false).
  { by intros [[]| | | |[]|[]|[]]. }
  destruct (ListNamespaces {[ArgoCDManagedByLabel := ArgoCD.Namespace cr]}
              (world s)) as [[err|items] wl] eqn:Hlist.
  - unfold reconcileRole, clientList. rewrite bind_run, issue_run, Hlist.
    simpl. eexists. split; [reflexivity|]. by repeat constructor.
  - rewrite (reconcileRole_after_list name rules cr s items wl Hlist).
    destruct (reconcileRoleLoop_calls name rules cr items []
                (mkState wl (calls s ++
                   [CallList {[ArgoCDManagedByLabel := ArgoCD.Namespace cr]}])))
      as (ext & Hc & Hr & _).
    exists (CallList {[ArgoCDManagedByLabel := ArgoCD.Namespace cr]} :: ext).
    split.
    + destruct (reconcileRoleLoop name rules cr items [] _) as [[e|rs] s'];
        simpl in *; by rewrite Hc, <- (assoc_L (++)).
    + constructor; [reflexivity|]. eapply Forall_impl; [exact Hr|]. exact Hrole.
Qed.

Lemma untilError_app (pre post : list (M W (option error))) (s : State W) :
  untilError (pre ++ post) s =
  match untilError pre s with
  | (Some err, s') => (Some err, s')
  | (None, s') => untilError post s'
  end.
Proof.
  revert s. induction pre as [|step pre IH]; intros s; [reflexivity|].
  simpl. rewrite !bind_run.
  destruct (step s) as [[err|] s1]; simpl; [reflexivity | apply IH].
Qed.

Lemma untilError_log (P : Call -> Prop) (steps : list (M W (option error)))
    (s : State W) :
  Forall (fun step : M W (option error) =>
            forall s0, exists ext,
              calls (step s0).2 = calls s0 ++ ext /\ Forall P ext) steps ->
  exists ext, calls (untilError steps s).2 = calls s ++ ext /\ Forall P ext.
Proof.
  intros Hsteps. revert s.
  induction Hsteps as [|step steps Hstep _ IH]; intros s.
  - exists []. simpl. by rewrite app_nil_r.
  - simpl. rewrite bind_run.
    destruct (Hstep s) as (ext1 & Hc1 & Hp1).
    destruct (step s) as [[err|] s1]; simpl in *.
    + by exists ext1.
    + destruct (IH s1) as (ext2 & Hc2 & Hp2).
      exists (ext1 ++ ext2). rewrite Hc2, Hc1, (assoc_L (++)).
      split; [reflexivity | by apply Forall_app].
Qed.

Lemma reconcileRoles_untilError cr (s : State W) :
  reconcileRoles cr s =
  ((None, (untilError (roleSteps cr) s).1), (untilError (roleSteps cr) s).2).
Proof.
  unfold reconcileRoles, roleSteps, untilError.
  repeat (rewrite !bind_run; cbn [ret fst snd];
          match goal with
          | |- context [match ?x.1.2 with _ => _ end] => destruct (x.1.2)
          end; [reflexivity|]).
  reflexivity.
Qed.

(** X6: [reconcileRoles] runs its six steps in the order of the source (the
    Roles of the application controller, of Dex, of the server and of Redis
    HA, then the ClusterRoles of the application controller and of the
    server) and stops at the first one that fails: when the steps before
    step [k] return no error and step [k] returns one, [reconcileRoles]
    returns a nil Role and that error, and the world and the log are those
    step [k] left, so no later step has run. *)
Theorem reconcileRoles_stops_at_failing_step cr (s : State W) k step err
    (sk s' : State W) :
  roleSteps cr !! k = Some step ->
  untilError (take k (roleSteps cr)) s = (None, sk) ->
  step sk = (Some err, s') ->
  reconcileRoles cr s = ((None, Some err), s').
Proof.
  intros Hk Hbefore Hfail. rewrite reconcileRoles_untilError.
  rewrite <- (take_drop_middle (roleSteps cr) k step Hk) at 1 2.
  rewrite untilError_app, Hbefore. simpl. rewrite bind_run, Hfail.
  reflexivity.
Qed.

(** X7: no ClusterRole is touched unless the four passes over the Roles
    have succeeded.  When one of them fails, [reconcileRoles] returns that
    error, stops where that pass stopped, and none of its calls is a hook
    call, a lookup or a write of a ClusterRole. *)
Theorem reconcileRoles_cluster_roles_come_last cr (s : State W) err :
  let rolePasses := untilError (take 4 (roleSteps cr)) s in
  rolePasses.1 = Some err ->
  reconcileRoles cr s = ((None, Some err), rolePasses.2) /\
  exists ext,
    calls (reconcileRoles cr s).2 = calls s ++ ext /\
    Forall (fun c => isClusterRoleCall c = false) ext.
Proof.
  intros rolePasses Herr.
  assert (Heq : reconcileRoles cr s = ((None, Some err), rolePasses.2)).
  { rewrite reconcileRoles_untilError.
    rewrite <- (take_drop 4 (roleSteps cr)) at 1 2.
    rewrite untilError_app. fold rolePasses.
    destruct rolePasses as [[e|] s']; simpl in *; [|discriminate].
    by injection Herr as ->. }
  split; [exact Heq|]. rewrite Heq. cbn [snd]. subst rolePasses.
  apply untilError_log. unfold roleSteps. cbn [take].
  repeat constructor; intros s0; rewrite bind_run; cbn [ret snd];
    apply reconcileRole_no_cluster_calls.
Qed.

End RoleGoCalls.

(** ** Resource names *)

Lemma string_app_assoc (a b c : string) : a +:+ (b +:+ c) = (a +:+ b) +:+ c.
Proof.
  induction a as [|x a IH]; [reflexivity|].
  change (String x (a +:+ (b +:+ c)) = String x ((a +:+ b) +:+ c)).
  by f_equal.
Qed.

Lemma string_length_app (a b : string) :
  String.length (a +:+ b) = (String.length a + String.length b)%nat.
Proof.
  induction a as [|x a IH]; [reflexivity|].
  change (S (String.length (a +:+ b)) = S (String.length a + String.length b)).
  by f_equal.
Qed.

Lemma string_app_inv_tail (a b s : string) : a +:+ s = b +:+ s -> a = b.
Proof.
  revert b. induction a as [|x a IH]; intros [|y b] Heq.
  - reflexivity.
  - apply (f_equal String.length) in Heq.
    rewrite !string_length_app in Heq. simpl in Heq. lia.
  - apply (f_equal String.length) in Heq.
    rewrite !string_length_app in Heq. simpl in Heq. lia.
  - change (String x (a +:+ s) = String y (b +:+ s)) in Heq.
    injection Heq as -> Heq. by rewrite (IH b Heq).
Qed.

Lemma string_app_inv_head (s a b : string) : s +:+ a = s +:+ b -> a = b.
Proof. apply String.app_inj. Qed.

(** X8: [GenerateUniqueResourceName] does not make cluster-scoped names
    unique across instances.  An instance named [a-b] in namespace [c] and
    an instance named [a] in namespace [b-c] have different names and
    different namespaces and get the same ClusterRole name for every
    component. *)
Theorem GenerateUniqueResourceName_collides (a b c component : string) :
  let cr1 := instance (a +:+ "-" +:+ b) c in
  let cr2 := instance a (b +:+ "-" +:+ c) in
  ArgoCD.Name cr1 <> ArgoCD.Name cr2 /\
  ArgoCD.Namespace cr1 <> ArgoCD.Namespace cr2 /\
  GenerateUniqueResourceName component cr1 =
  GenerateUniqueResourceName component cr2.
Proof.
  cbv zeta. unfold GenerateUniqueResourceName, instance.
  cbn [ArgoCD.Name ArgoCD.Namespace].
  split; [|split].
  - intros Heq. apply (f_equal String.length) in Heq.
    rewrite !string_length_app in Heq. simpl in Heq. lia.
  - intros Heq. apply (f_equal String.length) in Heq.
    rewrite !string_length_app in Heq. simpl in Heq. lia.
  - by rewrite <- !string_app_assoc.
Qed.

(** X9: when the names do tell objects apart.  For one component, the Role
    name determines the instance name, and for one instance it determines
    the component.  The ClusterRole name determines the instance name among
    instances of one namespace, the namespace among instances of one name,
    and the component for one instance. *)
Theorem resource_names_injective :
  (forall component cr1 cr2,
     generateResourceName component cr1 = generateResourceName component cr2 ->
     ArgoCD.Name cr1 = ArgoCD.Name cr2) /\
  (forall c1 c2 cr,
     generateResourceName c1 cr = generateResourceName c2 cr -> c1 = c2) /\
  (forall component cr1 cr2,
     ArgoCD.Namespace cr1 = ArgoCD.Namespace cr2 ->
     GenerateUniqueResourceName component cr1 =
       GenerateUniqueResourceName component cr2 ->
     ArgoCD.Name cr1 = ArgoCD.Name cr2) /\
  (forall component cr1 cr2,
     ArgoCD.Name cr1 = ArgoCD.Name cr2 ->
     GenerateUniqueResourceName component cr1 =
       GenerateUniqueResourceName component cr2 ->
     ArgoCD.Namespace cr1 = ArgoCD.Namespace cr2) /\
  (forall c1 c2 cr,
     GenerateUniqueResourceName c1 cr = GenerateUniqueResourceName c2 cr ->
     c1 = c2).
Proof.
  unfold generateResourceName, GenerateUniqueResourceName.
  split; [|split; [|split; [|split]]].
  - intros component cr1 cr2 Heq.
    by apply (string_app_inv_tail _ _ ("-" +:+ component)).
  - intros c1 c2 cr Heq.
    apply string_app_inv_head in Heq. by apply string_app_inv_head in Heq.
  - intros component cr1 cr2 Hns Heq. rewrite Hns in Heq.
    by apply (string_app_inv_tail _ _
                ("-" +:+ ArgoCD.Namespace cr2 +:+ "-" +:+ component)).
  - intros component cr1 cr2 Hname Heq. rewrite Hname in Heq.
    apply string_app_inv_head in Heq. apply string_app_inv_head in Heq.
    by apply (string_app_inv_tail _ _ ("-" +:+ component)).
  - intros c1 c2 cr Heq.
    do 4 apply string_app_inv_head in Heq. exact Heq.
Qed.

(** ** The helpers of the deployment tests *)

Lemma saved_lookup (env : gmap string string) (ks : list string)
    (acc : gmap string string) (k : string) :
  fold_left (fun saved v => <[v := Deployments.Getenv env v]> saved) ks acc !! k
  = if decide (k ∈ ks) then Some (Deployments.Getenv env k) else acc !! k.
Proof.
  revert acc. induction ks as [|v ks IH]; intros acc; cbn [fold_left].
  - by rewrite decide_False by apply not_elem_of_nil.
  - rewrite IH. destruct (decide (k ∈ ks)) as [Hin|Hnin].
    + by rewrite decide_True by (by right).
    + destruct (decide (k = v)) as [->|Hne].
      * rewrite decide_True by left. by rewrite lookup_insert_eq.
      * rewrite decide_False by (rewrite elem_of_cons; tauto).
        by rewrite lookup_insert_ne.
Qed.

Lemma restoreEnv_lookup (env : gmap string string) (k : string) :
  Tests.restoreEnv env !! k =
  if decide (k ∈ Tests.keys) then Some (Deployments.Getenv env k) else None.
Proof. unfold Tests.restoreEnv. by rewrite saved_lookup, lookup_empty. Qed.

Lemma cleanup_union (saved env : gmap string string) :
  Tests.cleanup saved env = saved ∪ env.
Proof.
  unfold Tests.cleanup.
  apply (map_fold_weak_ind (fun r m => r = m ∪ env)).
  - by rewrite (left_id_L ∅ (∪)).
  - intros i x m r Hi ->. unfold Tests.Setenv. by rewrite insert_union_l.
Qed.

Lemma setenv_in_order (order : list (string * string))
    (env : gmap string string) :
  NoDup order.*1 ->
  fold_left (fun e kv => Tests.Setenv kv.1 kv.2 e) order env =
  (list_to_map order : gmap string string) ∪ env.
Proof.
  revert env. induction order as [|[k v] order IH]; intros env Hnd; simpl.
  - by rewrite (left_id_L ∅ (∪)).
  - apply NoDup_cons in Hnd as [Hk Hnd]. rewrite (IH _ Hnd).
    unfold Tests.Setenv. simpl.
    rewrite <- insert_union_r by (by apply not_elem_of_list_to_map_1).
    by rewrite insert_union_l.
Qed.

(** X10: [restoreEnv] restores what it saved, in whatever order the
    clean-up ranges over the saved map.  After the clean-up, [os.Getenv]
    of each of the seven saved keys gives what it gave when [restoreEnv]
    was called, whatever the test did to the variable in between.  A
    variable that is not among the seven keys (such as
    ARGOCD_CLUSTER_CONFIG_NAMESPACES) is left as the test left it. *)
Theorem restoreEnv_round_trip (env env' : gmap string string)
    (order : list (string * string)) (k : string) :
  order ≡ₚ map_to_list (Tests.restoreEnv env) ->
  let after := fold_left (fun e kv => Tests.Setenv kv.1 kv.2 e) order env' in
  after = Tests.cleanup (Tests.restoreEnv env) env' /\
  (k ∈ Tests.keys -> Deployments.Getenv after k = Deployments.Getenv env k) /\
  (k ∉ Tests.keys -> after !! k = env' !! k) /\
  "ARGOCD_CLUSTER_CONFIG_NAMESPACES" ∉ Tests.keys.
Proof.
  intros Horder after.
  assert (Hnd : NoDup order.*1).
  { rewrite Horder. apply NoDup_fst_map_to_list. }
  assert (Hafter : after = Tests.restoreEnv env ∪ env').
  { subst after. rewrite (setenv_in_order _ _ Hnd). f_equal.
    rewrite (list_to_map_proper _ _ Hnd Horder). apply list_to_map_to_list. }
  split; [by rewrite cleanup_union|]. split; [|split].
  - intros Hk. unfold Deployments.Getenv at 1. rewrite Hafter.
    erewrite lookup_union_Some_l; [reflexivity|].
    rewrite restoreEnv_lookup. by rewrite decide_True.
  - intros Hk. rewrite Hafter. apply lookup_union_r.
    rewrite restoreEnv_lookup. by rewrite decide_False.
  - unfold Tests.keys. rewrite !not_elem_of_cons.
    repeat split; try discriminate. apply not_elem_of_nil.
Qed.

(** X11: the clean-up of [restoreEnv] does not unset.  A saved variable
    that was unset when [restoreEnv] was called is, after the clean-up, set
    to the empty string: [os.Getenv] cannot tell the difference, the
    environment can. *)
Theorem restoreEnv_sets_unset_variables_empty (env env' : gmap string string)
    (k : string) :
  k ∈ Tests.keys ->
  env !! k = None ->
  Tests.cleanup (Tests.restoreEnv env) env' !! k = Some "" /\
  Deployments.Getenv (Tests.cleanup (Tests.restoreEnv env) env') k =
    Deployments.Getenv env k.
Proof.
  intros Hk Hunset.
  assert (Hl : Tests.cleanup (Tests.restoreEnv env) env' !! k = Some "").
  { rewrite cleanup_union. apply lookup_union_Some_l.
    rewrite restoreEnv_lookup, decide_True by done.
    unfold Deployments.Getenv. by rewrite Hunset. }
  split; [exact Hl|]. unfold Deployments.Getenv. by rewrite Hl, Hunset.
Qed.

(** X12: [assertDeploymentHasProxyVars] and [refuteDeploymentHasProxyVars]
    never both pass on a Deployment that has a container or an init
    container, and both pass on a stored Deployment that has none; both
    fail when the Deployment is not in the store. *)
Theorem proxy_helpers_exclusive (store : gmap (string * string) Deployment.t)
    (testNamespace name : string) :
  match store !! (testNamespace, name) with
  | None =>
    Tests.assertDeploymentHasProxyVars store testNamespace name = false /\
    Tests.refuteDeploymentHasProxyVars store testNamespace name = false
  | Some deployment =>
    (Tests.assertDeploymentHasProxyVars store testNamespace name = true /\
     Tests.refuteDeploymentHasProxyVars store testNamespace name = true) <->
    PodSpec.Containers (Deployment.Spec deployment) = [] /\
    PodSpec.InitContainers (Deployment.Spec deployment) = []
  end.
Proof.
  unfold Tests.assertDeploymentHasProxyVars, Tests.refuteDeploymentHasProxyVars,
    Deployments.Get.
  destruct (store !! (testNamespace, name)) as [d|]; [|done].
  destruct (PodSpec.Containers (Deployment.Spec d)) as [|c cs];
    destruct (PodSpec.InitContainers (Deployment.Spec d)) as [|ic ics].
  - done.
  - split; [|by intros [_ [=]]]. intros [Ha Hr]. exfalso.
    cbn [forallb andb] in Ha. apply andb_true_iff in Ha as [Ha _].
    apply bool_decide_eq_true in Ha.
    cbn [forallb andb] in Hr. rewrite Ha in Hr. discriminate.
  - split; [|by intros [[=] _]]. intros [Ha Hr]. exfalso.
    cbn [forallb] in Ha. apply andb_true_iff in Ha as [Ha _].
    apply andb_true_iff in Ha as [Ha _].
    apply bool_decide_eq_true in Ha.
    cbn [forallb andb] in Hr. rewrite Ha in Hr. discriminate.
  - split; [|by intros [[=] _]]. intros [Ha Hr]. exfalso.
    cbn [forallb] in Ha. apply andb_true_iff in Ha as [Ha _].
    apply andb_true_iff in Ha as [Ha _].
    apply bool_decide_eq_true in Ha.
    cbn [forallb andb] in Hr. rewrite Ha in Hr. discriminate.
Qed.

(** ** A pass against the in-memory client *)

(** The new objects after the owner call of the in-memory runtime. *)
Lemma setRoleOwner_new name rules cr ns :
  Role.ObjectMeta
    (setRoleOwner cr (Role.with_Namespace ns (newRole name rules cr))) =
  ObjectMeta.mk (generateResourceName name cr) ns (labelsForCluster cr) ∅
    (if controllerutil.validateOwner (ArgoCD.Namespace cr) ns
     then [controllerutil.newControllerRef cr] else []).
Proof.
  unfold setRoleOwner.
  cbn [Role.ObjectMeta Role.with_Namespace newRole ObjectMeta.with_Namespace
       SetControllerReference fakeRuntime ObjectMeta.Name ObjectMeta.Labels
       ObjectMeta.Annotations ObjectMeta.OwnerReferences].
  unfold Fake.setControllerReference, controllerutil.SetControllerReference.
  cbn [ObjectMeta.Namespace ObjectMeta.OwnerReferences ObjectMeta.Name
       ObjectMeta.Labels ObjectMeta.Annotations].
  by destruct (controllerutil.validateOwner _ _).
Qed.

Lemma setClusterRoleOwner_new name rules cr :
  setClusterRoleOwner cr (newClusterRole name rules cr) =
  ClusterRole.mk
    (ObjectMeta.mk (GenerateUniqueResourceName name cr) ""
       (labelsForCluster cr) (annotationsForCluster cr)
       (if bool_decide (ArgoCD.Namespace cr = "")
        then [controllerutil.newControllerRef cr] else []))
    rules.
Proof.
  unfold setClusterRoleOwner.
  cbn [ClusterRole.ObjectMeta ClusterRole.Rules newClusterRole
       SetControllerReference fakeRuntime].
  unfold Fake.setControllerReference, controllerutil.SetControllerReference,
    controllerutil.validateOwner.
  cbn [ObjectMeta.Namespace ObjectMeta.OwnerReferences ObjectMeta.Name
       ObjectMeta.Labels ObjectMeta.Annotations].
  by destruct (bool_decide (ArgoCD.Namespace cr = "")).
Qed.

Section InMemory.
Variable name : string.
Variable rules : list PolicyRule.t.
Variable cr : ArgoCD.t.

Lemma quiet_with_Roles m (w : Fake.t) :
  quiet w -> quiet (Fake.with_Roles m (Fake.hooked w)).
Proof. by intros [Hf Hh]. Qed.

Lemma roleKey_written (m : gmap (string * string) Role.t) n :
  wellKeyed m ->
  Fake.roleKey (written name rules cr m n) = roleKeyIn name cr n.
Proof.
  intros Hwf. unfold written.
  destruct (m !! roleKeyIn name cr n) as [existing|] eqn:Hk.
  - exact (Hwf _ _ Hk).
  - by rewrite roleKey_setRoleOwner.
Qed.

Lemma wellKeyed_converged (m : gmap (string * string) Role.t) n :
  wellKeyed m -> wellKeyed (converged name rules cr m n).
Proof.
  intros Hwf k r. unfold converged.
  destruct (decide (roleKeyIn name cr n = k)) as [<-|Hne].
  - rewrite lookup_insert_eq. intros [= <-]. by apply roleKey_written.
  - rewrite lookup_insert_ne by done. apply Hwf.
Qed.

(** One iteration when nothing gates the component off. *)
Lemma iteration_in_memory n roles (w : Fake.t) log :
  quiet w -> wellKeyed (Fake.Roles w) -> gatedOff name w = false ->
  reconcileRoleIteration name rules cr n roles (mkState w log) =
  (inr (roles ++ [written name rules cr (Fake.Roles w) n]),
   mkState
     (Fake.with_Roles (converged name rules cr (Fake.Roles w) n) (Fake.hooked w))
     (log ++ [CallHook (RoleObject (newRole name rules cr));
              CallGetRole (NamespacedName.mk (Namespace.Name n)
                             (generateResourceName name cr));
              writeOf name rules cr (Fake.Roles w) n])).
Proof.
  intros [Hfault Hhook] Hwf Hgate.
  assert (Hh : hookRole cr (newRole name rules cr) "" w =
               (inr (newRole name rules cr), Fake.hooked w)).
  { simpl. by rewrite Hhook. }
  set (g := match Fake.Roles w !! roleKeyIn name cr n with
            | Some r => inr r
            | None => inl (Fake.notFound Fake.roles (generateResourceName name cr))
            end : error + Role.t).
  assert (Hg : GetRole (NamespacedName.mk (Namespace.Name n)
                          (generateResourceName name cr)) (Fake.hooked w) =
               (g, Fake.hooked w)).
  { simpl. unfold Fake.getRole. simpl. rewrite Hfault. subst g.
    unfold roleKeyIn. by destruct (Fake.Roles w !! _). }
  rewrite (reconcileRoleIteration_after_get name rules cr n roles
             (mkState w log) (newRole name rules cr) (Fake.hooked w) g
             (Fake.hooked w) Hh Hg).
  change (bool_decide (name = dexServer) && isDexDisabled (Fake.hooked w))
    with (gatedOff name w). rewrite Hgate.
  unfold writeOf, converged, written. subst g.
  destruct (Fake.Roles w !! roleKeyIn name cr n) as [existing|] eqn:Hk.
  - assert (Hkey : Fake.roleKey existing = roleKeyIn name cr n)
      by exact (Hwf _ _ Hk).
    simpl. unfold Fake.updateRole. simpl. rewrite Hfault.
    change (Fake.roleKey (Role.with_Rules rules existing))
      with (Fake.roleKey existing).
    rewrite Hkey, Hk. simpl. by rewrite <- (assoc_L (++)).
  - simpl. unfold Fake.createRole. simpl. rewrite Hfault.
    rewrite roleKey_setRoleOwner.
    change (Fake.roleKey
              (Role.with_Namespace (Namespace.Name n) (newRole name rules cr)))
      with (roleKeyIn name cr n).
    rewrite Hk. simpl. by rewrite <- (assoc_L (++)).
Qed.

Lemma isWrite_writeOf (m : gmap (string * string) Role.t) n :
  isWrite (writeOf name rules cr m n) = true.
Proof. unfold writeOf. by destruct (m !! roleKeyIn name cr n). Qed.

(** The loop when nothing gates the component off. *)
Lemma loop_in_memory items roles (w : Fake.t) log :
  quiet w -> wellKeyed (Fake.Roles w) -> gatedOff name w = false ->
  exists w' ext,
    reconcileRoleLoop name rules cr items roles (mkState w log) =
      (inr (roles ++ passRoles name rules cr items (Fake.Roles w)),
       mkState w' (log ++ ext)) /\
    quiet w' /\ wellKeyed (Fake.Roles w') /\ gatedOff name w' = false /\
    Fake.Namespaces w' = Fake.Namespaces w /\
    Fake.Roles w' = fold_left (converged name rules cr) items (Fake.Roles w) /\
    filter isWrite ext = passWrites name rules cr items (Fake.Roles w).
Proof.
  revert roles w log. induction items as [|n items IH];
    intros roles w log Hq Hwf Hgate.
  - exists w, []. simpl. rewrite !app_nil_r.
    split; [reflexivity|]. split; [exact Hq|]. split; [exact Hwf|].
    split; [exact Hgate|]. by split.
  - simpl. rewrite bind_run.
    rewrite (iteration_in_memory n roles w log Hq Hwf Hgate). cbn [fst snd].
    destruct (IH (roles ++ [written name rules cr (Fake.Roles w) n])
                (Fake.with_Roles (converged name rules cr (Fake.Roles w) n)
                   (Fake.hooked w))
                (log ++ [CallHook (RoleObject (newRole name rules cr));
                         CallGetRole (NamespacedName.mk (Namespace.Name n)
                                        (generateResourceName name cr));
                         writeOf name rules cr (Fake.Roles w) n]))
      as (w' & ext & Hrun & Hq' & Hwf' & Hgate' & Hns & Hroles & Hwrites).
    + by apply quiet_with_Roles.
    + by apply wellKeyed_converged.
    + exact Hgate.
    + exists w',
        ([CallHook (RoleObject (newRole name rules cr));
          CallGetRole (NamespacedName.mk (Namespace.Name n)
                         (generateResourceName name cr));
          writeOf name rules cr (Fake.Roles w) n] ++ ext).
      rewrite Hrun, <- !(assoc_L (++)). simpl.
      split; [reflexivity|]. split; [exact Hq'|]. split; [exact Hwf'|].
      split; [exact Hgate'|]. split; [exact Hns|]. split; [exact Hroles|].
      change (filter isWrite
                (writeOf name rules cr (Fake.Roles w) n :: ext) =
              writeOf name rules cr (Fake.Roles w) n
                :: passWrites name rules cr items
                     (converged name rules cr (Fake.Roles w) n)).
      rewrite filter_cons_True by (rewrite isWrite_writeOf; exact I).
      f_equal. exact Hwrites.
Qed.

Lemma rules_written (m : gmap (string * string) Role.t) n :
  Role.Rules (written name rules cr m n) = rules.
Proof. unfold written. by destruct (m !! roleKeyIn name cr n). Qed.

Lemma with_Rules_same (r : Role.t) :
  Role.Rules r = rules -> Role.with_Rules rules r = r.
Proof. destruct r as [meta rs]. simpl. by intros ->. Qed.

Lemma converged_lookup (m : gmap (string * string) Role.t) n
    (k : string * string) :
  converged name rules cr m n !! k =
  if decide (roleKeyIn name cr n = k)
  then Some (written name rules cr m n) else m !! k.
Proof.
  unfold converged. destruct (decide (roleKeyIn name cr n = k)) as [<-|Hne].
  - apply lookup_insert_eq.
  - by apply lookup_insert_ne.
Qed.

(** A Role that has the rules of this pass is not changed by the rest of
    the pass. *)
Lemma converged_stable (items : list Namespace.t)
    (m : gmap (string * string) Role.t) (k : string * string) r :
  m !! k = Some r -> Role.Rules r = rules ->
  fold_left (converged name rules cr) items m !! k = Some r.
Proof.
  revert m. induction items as [|n items IH]; intros m Hk Hr; [exact Hk|].
  simpl. apply IH; [|exact Hr]. rewrite converged_lookup.
  destruct (decide (roleKeyIn name cr n = k)) as [Heq|]; [|exact Hk].
  unfold written. rewrite Heq, Hk. by rewrite with_Rules_same.
Qed.

Lemma converged_fixed (items : list Namespace.t)
    (m : gmap (string * string) Role.t) :
  (forall n, n ∈ items ->
     exists r, m !! roleKeyIn name cr n = Some r /\ Role.Rules r = rules) ->
  fold_left (converged name rules cr) items m = m.
Proof.
  induction items as [|n items IH]; intros Hall; [reflexivity|].
  destruct (Hall n) as (r & Hk & Hr); [left|].
  assert (Hsame : converged name rules cr m n = m).
  { unfold converged, written. rewrite Hk, (with_Rules_same r Hr).
    by apply insert_id. }
  simpl. rewrite Hsame. apply IH. intros n' Hn'. apply Hall. by right.
Qed.

(** The store after a pass: at the key of a listed namespace there is a
    Role with the rules of the pass; it has the metadata of the Role that
    was there before, or is the desired Role after the owner call when
    there was none; every other key is as it was. *)
Lemma converged_spec (items : list Namespace.t)
    (m : gmap (string * string) Role.t) (k : string * string) :
  let m' := fold_left (converged name rules cr) items m in
  (k ∈ roleKeyIn name cr <$> items ->
   exists r, m' !! k = Some r /\ Role.Rules r = rules /\
     match m !! k with
     | Some existing => Role.ObjectMeta r = Role.ObjectMeta existing
     | None =>
       r = setRoleOwner cr (Role.with_Namespace k.1 (newRole name rules cr))
     end) /\
  (k ∉ roleKeyIn name cr <$> items -> m' !! k = m !! k).
Proof.
  cbv zeta. revert m. induction items as [|n items IH]; intros m.
  - split; [by intros ?%elem_of_nil | done].
  - simpl. destruct (IH (converged name rules cr m n)) as [IHin IHout].
    assert (Hhere : roleKeyIn name cr n = k ->
      exists r, converged name rules cr m n !! k = Some r /\
        Role.Rules r = rules /\
        match m !! k with
        | Some existing => Role.ObjectMeta r = Role.ObjectMeta existing
        | None =>
          r = setRoleOwner cr (Role.with_Namespace k.1 (newRole name rules cr))
        end).
    { intros <-. exists (written name rules cr m n).
      rewrite converged_lookup, decide_True by done.
      split; [reflexivity|]. split; [apply rules_written|].
      unfold written. by destruct (m !! roleKeyIn name cr n). }
    split.
    + intros Hin. apply elem_of_cons in Hin.
      destruct (decide (k ∈ roleKeyIn name cr <$> items)) as [Hrest|Hrest].
      * destruct (IHin Hrest) as (r & Hk & Hr & Hmeta).
        exists r. split; [exact Hk|]. split; [exact Hr|].
        destruct (decide (roleKeyIn name cr n = k)) as [Heq|Hne].
        -- destruct (Hhere Heq) as (r1 & Hk1 & Hr1 & Hmeta1).
           rewrite Hk1 in Hmeta.
           destruct (m !! k); [congruence|]. subst r1.
           destruct r as [meta rs]. simpl in *. by subst.
        -- by rewrite converged_lookup, decide_False in Hmeta.
      * destruct Hin as [Heq|Hin]; [|done].
        destruct (Hhere (eq_sym Heq)) as (r & Hk & Hr & Hmeta).
        exists r. by rewrite (IHout Hrest).
    + intros Hout. apply not_elem_of_cons in Hout as [Hne Hrest].
      rewrite (IHout Hrest), converged_lookup. by rewrite decide_False.
Qed.

(** The Roles a pass hands back are the Roles the store holds after it. *)
Lemma passRoles_stored (items : list Namespace.t)
    (m : gmap (string * string) Role.t) :
  Forall2
    (fun n r =>
       fold_left (converged name rules cr) items m !! roleKeyIn name cr n
         = Some r)
    items (passRoles name rules cr items m).
Proof.
  revert m. induction items as [|n items IH]; intros m; [constructor|].
  simpl. constructor.
  - apply converged_stable; [|apply rules_written].
    by rewrite converged_lookup, decide_True.
  - apply IH.
Qed.

(** [reconcileRole] against the in-memory client when nothing gates the
    component off. *)
Lemma reconcileRole_in_memory (w : Fake.t) log :
  quiet w -> wellKeyed (Fake.Roles w) -> gatedOff name w = false ->
  let items := managedBy cr w in
  exists w' ext,
    reconcileRole name rules cr (mkState w log) =
      ((passRoles name rules cr items (Fake.Roles w), None),
       mkState w' (log ++ ext)) /\
    quiet w' /\ wellKeyed (Fake.Roles w') /\ gatedOff name w' = false /\
    managedBy cr w' = items /\
    Fake.Roles w' = fold_left (converged name rules cr) items (Fake.Roles w) /\
    filter isWrite ext = passWrites name rules cr items (Fake.Roles w).
Proof.
  intros Hq Hwf Hgate items.
  assert (Hlist : ListNamespaces
            {[ArgoCDManagedByLabel := ArgoCD.Namespace cr]} w =
            (inr items, w)).
  { simpl. unfold Fake.listNamespaces. by rewrite (proj1 Hq). }
  rewrite (reconcileRole_after_list name rules cr (mkState w log) items w Hlist).
  destruct (loop_in_memory items [] w
              (log ++ [CallList {[ArgoCDManagedByLabel := ArgoCD.Namespace cr]}])
              Hq Hwf Hgate)
    as (w' & ext & Hrun & Hq' & Hwf' & Hgate' & Hns & Hroles & Hwrites).
  cbn [world calls]. rewrite Hrun. cbn [app].
  exists w', (CallList {[ArgoCDManagedByLabel := ArgoCD.Namespace cr]} :: ext).
  rewrite <- (assoc_L (++)). split; [reflexivity|].
  split; [exact Hq'|]. split; [exact Hwf'|]. split; [exact Hgate'|].
  split; [by unfold managedBy; rewrite Hns|]. split; [exact Hroles|].
  exact Hwrites.
Qed.

Lemma passWrites_fixed (items : list Namespace.t)
    (m : gmap (string * string) Role.t) :
  (forall n, n ∈ items ->
     exists r, m !! roleKeyIn name cr n = Some r /\ Role.Rules r = rules) ->
  passWrites name rules cr items m =
  (fun r => CallUpdate (RoleObject r)) <$> passRoles name rules cr items m.
Proof.
  induction items as [|n items IH]; intros Hall; [reflexivity|].
  destruct (Hall n) as (r & Hk & Hr); [left|].
  assert (Hsame : converged name rules cr m n = m).
  { unfold converged, written. rewrite Hk, (with_Rules_same r Hr).
    by apply insert_id. }
  simpl. rewrite Hsame, IH by (intros n' Hn'; apply Hall; by right).
  unfold writeOf. by rewrite Hk.
Qed.

Lemma Forall2_functional {A B} (R : A -> B -> Prop) (l : list A)
    (l1 l2 : list B) :
  (forall a b1 b2, R a b1 -> R a b2 -> b1 = b2) ->
  Forall2 R l l1 -> Forall2 R l l2 -> l1 = l2.
Proof.
  intros Hfun H1. revert l2. induction H1 as [|a b1 l l1 Hab1 _ IH];
    intros l2 H2; inversion H2 as [|? b2 ? l2' Hab2 H2']; subst.
  - reflexivity.
  - f_equal; [by eapply Hfun | by apply IH].
Qed.

(** X13: against the in-memory client, without faults, with hooks that let
    the Role through as it is and Dex not gating the component off, a pass
    of [reconcileRole] succeeds and converges the store.  Every namespace
    that carries the managed-by label of the instance then holds the Role of
    the component with the policy rules of the pass: the Role that was
    there, with its metadata as it was, or else the new Role.  The new Role
    has the generated name, the namespace and the cluster labels; it carries
    the controller reference of the custom resource where the library
    accepts the owner (the namespace of the custom resource itself) and no
    owner reference in any other namespace.  No other key of the store has
    changed. *)
Theorem reconcileRole_converges_in_memory (w : Fake.t) :
  quiet w -> wellKeyed (Fake.Roles w) -> gatedOff name w = false ->
  let out := reconcileRole name rules cr (start w) in
  out.1.2 = None /\
  (forall n, n ∈ managedBy cr w ->
     exists r,
       storedRole (Namespace.Name n) (generateResourceName name cr)
         (world out.2) = Some r /\
       Role.Rules r = rules /\
       match storedRole (Namespace.Name n) (generateResourceName name cr) w with
       | Some existing => Role.ObjectMeta r = Role.ObjectMeta existing
       | None =>
         Role.ObjectMeta r =
           ObjectMeta.mk (generateResourceName name cr) (Namespace.Name n)
             (labelsForCluster cr) ∅
             (if controllerutil.validateOwner (ArgoCD.Namespace cr)
                   (Namespace.Name n)
              then [controllerutil.newControllerRef cr] else []) /\
         (Namespace.Name n = ArgoCD.Namespace cr ->
          ObjectMeta.OwnerReferences (Role.ObjectMeta r) =
            [controllerutil.newControllerRef cr]) /\
         (ArgoCD.Namespace cr <> "" ->
          Namespace.Name n <> ArgoCD.Namespace cr ->
          ObjectMeta.OwnerReferences (Role.ObjectMeta r) = [])
       end) /\
  (forall k, k ∉ roleKeyIn name cr <$> managedBy cr w ->
     Fake.Roles (world out.2) !! k = Fake.Roles w !! k).
Proof.
  intros Hq Hwf Hgate out.
  destruct (reconcileRole_in_memory w [] Hq Hwf Hgate)
    as (w' & ext & Hrun & _ & _ & _ & _ & Hroles & _).
  subst out. unfold start. rewrite Hrun. cbn [fst snd world].
  split; [reflexivity|]. unfold storedRole. rewrite Hroles. split.
  - intros n Hn.
    destruct (converged_spec (managedBy cr w) (Fake.Roles w)
                (roleKeyIn name cr n)) as [Hin _].
    destruct Hin as (r & Hs & Hr & Hmeta); [by apply list_elem_of_fmap_2|].
    exists r. split; [exact Hs|]. split; [exact Hr|].
    change (Fake.Roles w !! (Namespace.Name n, generateResourceName name cr))
      with (Fake.Roles w !! roleKeyIn name cr n).
    destruct (Fake.Roles w !! roleKeyIn name cr n); [exact Hmeta|].
    subst r. rewrite setRoleOwner_new. cbn [roleKeyIn fst].
    split; [reflexivity|]. cbn [ObjectMeta.OwnerReferences]. split.
    + intros ->. by rewrite validateOwner_same.
    + intros Hne Hother. by rewrite validateOwner_other.
  - intros k Hk.
    by destruct (converged_spec (managedBy cr w) (Fake.Roles w) k) as [_ Hout];
      apply Hout.
Qed.

(** X14: against the same client, a second pass of [reconcileRole] right
    after the first is idempotent.  It returns what the first returned, it
    leaves the store of Roles as the first left it, and its writes are one
    Update per Role the first pass returned, each sending that Role
    unchanged. *)
Theorem reconcileRole_idempotent_in_memory (w : Fake.t) :
  quiet w -> wellKeyed (Fake.Roles w) -> gatedOff name w = false ->
  let first := reconcileRole name rules cr (start w) in
  let second := reconcileRole name rules cr first.2 in
  second.1 = first.1 /\
  Fake.Roles (world second.2) = Fake.Roles (world first.2) /\
  exists ext,
    calls second.2 = calls first.2 ++ ext /\
    filter isWrite ext = (fun r => CallUpdate (RoleObject r)) <$> first.1.1.
Proof.
  intros Hq Hwf Hgate first second.
  destruct (reconcileRole_in_memory w [] Hq Hwf Hgate)
    as (w1 & ext1 & Hrun1 & Hq1 & Hwf1 & Hgate1 & Hitems1 & Hroles1 & _).
  destruct (reconcileRole_in_memory w1 ([] ++ ext1) Hq1 Hwf1 Hgate1)
    as (w2 & ext2 & Hrun2 & _ & _ & _ & _ & Hroles2 & Hwrites2).
  rewrite Hitems1 in Hrun2, Hroles2, Hwrites2.
  set (items := managedBy cr w) in *.
  assert (Hall : forall n, n ∈ items ->
    exists r, Fake.Roles w1 !! roleKeyIn name cr n = Some r /\
      Role.Rules r = rules).
  { intros n Hn. rewrite Hroles1.
    destruct (converged_spec items (Fake.Roles w) (roleKeyIn name cr n))
      as [Hin _].
    destruct Hin as (r & Hk & Hr & _); [by apply list_elem_of_fmap_2|].
    by exists r. }
  assert (Hfix : fold_left (converged name rules cr) items (Fake.Roles w1)
                 = Fake.Roles w1) by (by apply converged_fixed).
  assert (Hsame : passRoles name rules cr items (Fake.Roles w1) =
                  passRoles name rules cr items (Fake.Roles w)).
  { eapply (Forall2_functional
              (fun n r => Fake.Roles w1 !! roleKeyIn name cr n = Some r)).
    - intros n r1 r2 H1 H2. congruence.
    - pose proof (passRoles_stored items (Fake.Roles w1)) as Hst.
      by rewrite Hfix in Hst.
    - pose proof (passRoles_stored items (Fake.Roles w)) as Hst.
      by rewrite <- Hroles1 in Hst. }
  subst first second. unfold start. rewrite Hrun1. cbn [fst snd].
  rewrite Hrun2. cbn [fst snd world calls].
  split; [by rewrite Hsame|]. split; [by rewrite Hroles2, Hfix|].
  exists ext2. split; [reflexivity|].
  by rewrite Hwrites2, (passWrites_fixed items (Fake.Roles w1) Hall), Hsame.
Qed.

(** One iteration when Dex gates the component off. *)
Lemma iteration_gated_in_memory n roles (w : Fake.t) log :
  quiet w -> wellKeyed (Fake.Roles w) -> gatedOff name w = true ->
  reconcileRoleIteration name rules cr n roles (mkState w log) =
  match Fake.Roles w !! roleKeyIn name cr n with
  | Some existing =>
    (inr roles,
     mkState
       (Fake.with_Roles (delete (roleKeyIn name cr n) (Fake.Roles w))
          (Fake.hooked w))
       (log ++ [CallHook (RoleObject (newRole name rules cr));
                CallGetRole (NamespacedName.mk (Namespace.Name n)
                               (generateResourceName name cr));
                CallDelete (RoleObject existing)]))
  | None =>
    (inr (roles ++
            [Role.with_Namespace (Namespace.Name n) (newRole name rules cr)]),
     mkState (Fake.hooked w)
       (log ++ [CallHook (RoleObject (newRole name rules cr));
                CallGetRole (NamespacedName.mk (Namespace.Name n)
                               (generateResourceName name cr))]))
  end.
Proof.
  intros [Hfault Hhook] Hwf Hgate.
  assert (Hh : hookRole cr (newRole name rules cr) "" w =
               (inr (newRole name rules cr), Fake.hooked w)).
  { simpl. by rewrite Hhook. }
  set (g := match Fake.Roles w !! roleKeyIn name cr n with
            | Some r => inr r
            | None => inl (Fake.notFound Fake.roles (generateResourceName name cr))
            end : error + Role.t).
  assert (Hg : GetRole (NamespacedName.mk (Namespace.Name n)
                          (generateResourceName name cr)) (Fake.hooked w) =
               (g, Fake.hooked w)).
  { simpl. unfold Fake.getRole. simpl. rewrite Hfault. subst g.
    unfold roleKeyIn. by destruct (Fake.Roles w !! _). }
  rewrite (reconcileRoleIteration_after_get name rules cr n roles
             (mkState w log) (newRole name rules cr) (Fake.hooked w) g
             (Fake.hooked w) Hh Hg).
  change (bool_decide (name = dexServer) && isDexDisabled (Fake.hooked w))
    with (gatedOff name w). rewrite Hgate. subst g.
  destruct (Fake.Roles w !! roleKeyIn name cr n) as [existing|] eqn:Hk.
  - assert (Hkey : Fake.roleKey existing = roleKeyIn name cr n)
      by exact (Hwf _ _ Hk).
    simpl. unfold Fake.deleteRole. simpl. rewrite Hfault, Hkey, Hk. simpl.
    by rewrite <- (assoc_L (++)).
  - reflexivity.
Qed.

Lemma wellKeyed_delete (m : gmap (string * string) Role.t)
    (k : string * string) :
  wellKeyed m -> wellKeyed (delete k m).
Proof.
  intros Hwf k' r Hk'. apply lookup_delete_Some in Hk' as [_ Hk'].
  by apply Hwf.
Qed.

Lemma removed_lookup (items : list Namespace.t)
    (m : gmap (string * string) Role.t) (k : string * string) :
  fold_left (fun m n => delete (roleKeyIn name cr n) m) items m !! k =
  if decide (k ∈ roleKeyIn name cr <$> items) then None else m !! k.
Proof.
  revert m. induction items as [|n items IH]; intros m; cbn [fold_left fmap].
  - by rewrite decide_False by (by intros ?%elem_of_nil).
  - rewrite IH. change (list_fmap _ _ (roleKeyIn name cr) (n :: items))
      with (roleKeyIn name cr n :: (roleKeyIn name cr <$> items)).
    destruct (decide (k ∈ roleKeyIn name cr <$> items)) as [Hin|Hnin].
    + by rewrite decide_True by (by right).
    + destruct (decide (k = roleKeyIn name cr n)) as [->|Hne].
      * rewrite decide_True by left. apply lookup_delete_eq.
      * rewrite decide_False by (rewrite elem_of_cons; tauto).
        by apply lookup_delete_ne.
Qed.

(** The loop when Dex gates the component off. *)
Lemma loop_gated_in_memory items roles (w : Fake.t) log :
  quiet w -> wellKeyed (Fake.Roles w) -> gatedOff name w = true ->
  exists w' ext roles',
    reconcileRoleLoop name rules cr items roles (mkState w log) =
      (inr (roles ++ roles'), mkState w' (log ++ ext)) /\
    Fake.Roles w' =
      fold_left (fun m n => delete (roleKeyIn name cr n) m) items
        (Fake.Roles w) /\
    Forall (fun c => exists r, c = CallDelete (RoleObject r) /\
                       Fake.Roles w !! Fake.roleKey r = Some r)
      (filter isWrite ext) /\
    Forall (fun r => exists n, n ∈ items /\
              r = Role.with_Namespace (Namespace.Name n)
                    (newRole name rules cr))
      roles'.
Proof.
  revert roles w log. induction items as [|n items IH];
    intros roles w log Hq Hwf Hgate.
  - exists w, [], []. simpl. rewrite !app_nil_r. by repeat split.
  - simpl. rewrite bind_run.
    rewrite (iteration_gated_in_memory n roles w log Hq Hwf Hgate).
    destruct (Fake.Roles w !! roleKeyIn name cr n) as [existing|] eqn:Hk;
      cbn [fst snd].
    + destruct (IH roles
                  (Fake.with_Roles (delete (roleKeyIn name cr n) (Fake.Roles w))
                     (Fake.hooked w))
                  (log ++ [CallHook (RoleObject (newRole name rules cr));
                           CallGetRole (NamespacedName.mk (Namespace.Name n)
                                          (generateResourceName name cr));
                           CallDelete (RoleObject existing)]))
        as (w' & ext & roles' & Hrun & Hroles & Hdel & Hret).
      * by apply quiet_with_Roles.
      * by apply wellKeyed_delete.
      * exact Hgate.
      * exists w',
          ([CallHook (RoleObject (newRole name rules cr));
            CallGetRole (NamespacedName.mk (Namespace.Name n)
                           (generateResourceName name cr));
            CallDelete (RoleObject existing)] ++ ext), roles'.
        rewrite Hrun, <- !(assoc_L (++)).
        split; [reflexivity|]. split; [exact Hroles|]. split.
        -- change (Forall
                     (fun c => exists r, c = CallDelete (RoleObject r) /\
                                 Fake.Roles w !! Fake.roleKey r = Some r)
                     (filter isWrite (CallDelete (RoleObject existing) :: ext))).
           rewrite filter_cons_True by exact I. constructor.
           ++ exists existing. split; [reflexivity|].
              by rewrite (Hwf _ _ Hk).
           ++ eapply Forall_impl; [exact Hdel|].
              intros c (r & -> & Hr). exists r. split; [reflexivity|].
              simpl in Hr. by apply lookup_delete_Some in Hr as [_ Hr].
        -- eapply Forall_impl; [exact Hret|].
           intros r (n' & Hn' & ->). exists n'. split; [by right | reflexivity].
    + destruct (IH (roles ++ [Role.with_Namespace (Namespace.Name n)
                                (newRole name rules cr)])
                  (Fake.hooked w)
                  (log ++ [CallHook (RoleObject (newRole name rules cr));
                           CallGetRole (NamespacedName.mk (Namespace.Name n)
                                          (generateResourceName name cr))]))
        as (w' & ext & roles' & Hrun & Hroles & Hdel & Hret).
      * by destruct Hq.
      * exact Hwf.
      * exact Hgate.
      * exists w',
          ([CallHook (RoleObject (newRole name rules cr));
            CallGetRole (NamespacedName.mk (Namespace.Name n)
                           (generateResourceName name cr))] ++ ext),
          (Role.with_Namespace (Namespace.Name n) (newRole name rules cr)
             :: roles').
        rewrite Hrun, <- !(assoc_L (++)).
        split; [reflexivity|]. split.
        -- rewrite Hroles. simpl. by rewrite (delete_id _ _ Hk).
        -- split; [exact Hdel|]. constructor.
           ++ exists n. split; [left | reflexivity].
           ++ eapply Forall_impl; [exact Hret|].
              intros r (n' & Hn' & ->). exists n'.
              split; [by right | reflexivity].
Qed.

(** X15: against the in-memory client, without faults and with hooks that
    let the Role through, a pass of [reconcileRole] for a component that Dex
    gates off (the component is [dexServer] and Dex is disabled) succeeds
    and leaves no Role of the component in any namespace that carries the
    managed-by label of the instance.  Its writes are Deletes of Roles that
    were in the store, no other key of the store changes, and every Role it
    returns is a desired Role of a managed namespace that the store does not
    hold. *)
Theorem reconcileRole_removes_gated_roles_in_memory (w : Fake.t) :
  quiet w -> wellKeyed (Fake.Roles w) -> gatedOff name w = true ->
  let out := reconcileRole name rules cr (start w) in
  out.1.2 = None /\
  (forall n, n ∈ managedBy cr w ->
     storedRole (Namespace.Name n) (generateResourceName name cr)
       (world out.2) = None) /\
  (forall k, k ∉ roleKeyIn name cr <$> managedBy cr w ->
     Fake.Roles (world out.2) !! k = Fake.Roles w !! k) /\
  Forall (fun c => exists r, c = CallDelete (RoleObject r) /\
                     Fake.Roles w !! Fake.roleKey r = Some r)
    (filter isWrite (calls out.2)) /\
  Forall (fun r => exists n, n ∈ managedBy cr w /\
            r = Role.with_Namespace (Namespace.Name n) (newRole name rules cr) /\
            Fake.Roles (world out.2) !! Fake.roleKey r = None)
    out.1.1.
Proof.
  intros Hq Hwf Hgate out.
  assert (Hlist : ListNamespaces
            {[ArgoCDManagedByLabel := ArgoCD.Namespace cr]} w =
            (inr (managedBy cr w), w)).
  { simpl. unfold Fake.listNamespaces. by rewrite (proj1 Hq). }
  destruct (loop_gated_in_memory (managedBy cr w) [] w
              ([] ++ [CallList {[ArgoCDManagedByLabel := ArgoCD.Namespace cr]}])
              Hq Hwf Hgate)
    as (w' & ext & roles' & Hrun & Hroles & Hdel & Hret).
  subst out. unfold start.
  rewrite (reconcileRole_after_list name rules cr (mkState w [])
             (managedBy cr w) w Hlist).
  cbn [world calls]. rewrite Hrun. cbn [fst snd world calls app].
  assert (Hgone : forall n, n ∈ managedBy cr w ->
            Fake.Roles w' !! roleKeyIn name cr n = None).
  { intros n Hn. rewrite Hroles, removed_lookup.
    by rewrite decide_True by (by apply list_elem_of_fmap_2). }
  split; [reflexivity|]. split; [exact Hgone|]. split; [|split].
  - intros k Hk. rewrite Hroles, removed_lookup. by rewrite decide_False.
  - change (CallList {[ArgoCDManagedByLabel := ArgoCD.Namespace cr]} :: ext)
      with ([CallList {[ArgoCDManagedByLabel := ArgoCD.Namespace cr]}] ++ ext).
    rewrite filter_app. exact Hdel.
  - eapply Forall_impl; [exact Hret|].
    intros r (n & Hn & ->). exists n. split; [exact Hn|].
    split; [reflexivity|]. exact (Hgone n Hn).
Qed.

End InMemory.

(** Stores built by inserting Roles under their own keys are well keyed. *)
Lemma wellKeyed_empty : wellKeyed ∅.
Proof. intros k r Hk. by rewrite lookup_empty in Hk. Qed.

Lemma wellKeyed_insert (m : gmap (string * string) Role.t) r :
  wellKeyed m -> wellKeyed (<[Fake.roleKey r := r]> m).
Proof.
  intros Hwf k r' Hk. apply lookup_insert_Some in Hk as [[<- <-]|[_ Hk]].
  - reflexivity.
  - by apply Hwf.
Qed.

Lemma mixedCluster_quiet env component : quiet (mixedCluster env component).
Proof. by split. Qed.

Lemma mixedCluster_wellKeyed env component :
  wellKeyed (Fake.Roles (mixedCluster env component)).
Proof.
  apply (wellKeyed_insert _ (staleRole ("argocd-" +:+ component) "dev")).
  rewrite <- insert_empty.
  apply (wellKeyed_insert _ (staleRole ("argocd-" +:+ component) "other")).
  apply wellKeyed_empty.
Qed.

(** ** The whole of reconcileRoles against the in-memory client *)

(** Calls on Roles leave the settings and the ClusterRoles of the world
    alone. *)
Lemma getRole_world key (w : Fake.t) : (Fake.getRole key w).2 = w.
Proof.
  unfold Fake.getRole. destruct (Fake.Fault w _); [reflexivity|].
  by destruct (Fake.Roles w !! _).
Qed.

Lemma createRole_kept r (w : Fake.t) :
  settings (Fake.createRole r w).2 = settings w /\
  Fake.ClusterRoles (Fake.createRole r w).2 = Fake.ClusterRoles w.
Proof.
  unfold Fake.createRole. destruct (Fake.Fault w _); [done|].
  by destruct (Fake.Roles w !! _).
Qed.

Lemma updateRole_kept r (w : Fake.t) :
  settings (Fake.updateRole r w).2 = settings w /\
  Fake.ClusterRoles (Fake.updateRole r w).2 = Fake.ClusterRoles w.
Proof.
  unfold Fake.updateRole. destruct (Fake.Fault w _); [done|].
  by destruct (Fake.Roles w !! _).
Qed.

Lemma deleteRole_kept r (w : Fake.t) :
  settings (Fake.deleteRole r w).2 = settings w /\
  Fake.ClusterRoles (Fake.deleteRole r w).2 = Fake.ClusterRoles w.
Proof.
  unfold Fake.deleteRole. destruct (Fake.Fault w _); [done|].
  by destruct (Fake.Roles w !! _).
Qed.

Lemma reconcileRoleIteration_kept name rules cr n roles (s : State Fake.t) :
  let w' := world (reconcileRoleIteration name rules cr n roles s).2 in
  settings w' = settings (world s) /\
  Fake.ClusterRoles w' = Fake.ClusterRoles (world s).
Proof.
  cbv zeta.
  destruct (hookRole cr (newRole name rules cr) "" (world s))
    as [[err|role] w1] eqn:Hhook.
  - rewrite (reconcileRoleIteration_hook_error _ _ _ _ _ _ _ _ Hhook).
    apply (f_equal snd) in Hhook. simpl in Hhook. by subst w1.
  - destruct (GetRole
                (NamespacedName.mk
                   (Role.Namespace
                      (Role.with_Namespace (Namespace.Name n) role))
                   (Role.Name (Role.with_Namespace (Namespace.Name n) role)))
                w1) as [g w2] eqn:Hget.
    rewrite (reconcileRoleIteration_after_get _ _ _ _ _ _ _ _ _ _ Hhook Hget).
    assert (Hw1 : w1 = Fake.hooked (world s)).
    { apply (f_equal snd) in Hhook. by simpl in Hhook. }
    assert (Hw2 : w2 = w1).
    { apply (f_equal snd) in Hget. simpl in Hget.
      by rewrite getRole_world in Hget. }
    subst w2 w1.
    destruct g as [e|existing]; cbn [world];
      repeat match goal with
             | |- context [if ?b then _ else _] => destruct b
             end; cbn [world snd fst]; try done.
    + apply (createRole_kept _ (Fake.hooked (world s))).
    + apply (deleteRole_kept _ (Fake.hooked (world s))).
    + apply (updateRole_kept _ (Fake.hooked (world s))).
Qed.

Lemma reconcileRoleLoop_kept name rules cr items roles (s : State Fake.t) :
  let w' := world (reconcileRoleLoop name rules cr items roles s).2 in
  settings w' = settings (world s) /\
  Fake.ClusterRoles w' = Fake.ClusterRoles (world s).
Proof.
  cbv zeta. revert roles s. induction items as [|n items IH]; intros roles s.
  - done.
  - simpl. rewrite bind_run.
    destruct (reconcileRoleIteration_kept name rules cr n roles s) as [Hs Hc].
    destruct (reconcileRoleIteration name rules cr n roles s) as [[e|rs] s1];
      simpl in *; [done|].
    destruct (IH rs s1) as [Hs' Hc']. split; congruence.
Qed.

Lemma reconcileRole_kept name rules cr (s : State Fake.t) :
  let w' := world (reconcileRole name rules cr s).2 in
  settings w' = settings (world s) /\
  Fake.ClusterRoles w' = Fake.ClusterRoles (world s).
Proof.
  cbv zeta.
  destruct (ListNamespaces {[ArgoCDManagedByLabel := ArgoCD.Namespace cr]}
              (world s)) as [[err|items] wl] eqn:Hlist.
  - unfold reconcileRole, clientList. rewrite bind_run, issue_run, Hlist.
    simpl. apply (f_equal snd) in Hlist. simpl in Hlist.
    unfold Fake.listNamespaces in Hlist.
    destruct (Fake.Fault (world s) _); simpl in Hlist; by subst wl.
  - rewrite (reconcileRole_after_list name rules cr s items wl Hlist).
    assert (Hwl : wl = world s).
    { apply (f_equal snd) in Hlist. simpl in Hlist.
      unfold Fake.listNamespaces in Hlist.
      by destruct (Fake.Fault (world s) _). }
    subst wl.
    destruct (reconcileRoleLoop_kept name rules cr items []
                (mkState (world s) (calls s ++
                   [CallList {[ArgoCDManagedByLabel := ArgoCD.Namespace cr]}])))
      as [Hs Hc].
    by destruct (reconcileRoleLoop name rules cr items [] _) as [[e|rs] s'].
Qed.

Lemma settings_quiet (w w' : Fake.t) :
  settings w' = settings w -> quiet w -> quiet w'.
Proof.
  unfold settings, quiet. intros Hs [Hf Hh].
  injection Hs as _ _ -> -> _. by split.
Qed.

Lemma settings_managedBy cr (w w' : Fake.t) :
  settings w' = settings w -> managedBy cr w' = managedBy cr w.
Proof. unfold settings, managedBy. intros Hs. by injection Hs as -> _ _ _ _. Qed.

Lemma settings_gatedOff name (w w' : Fake.t) :
  settings w' = settings w -> gatedOff name w' = gatedOff name w.
Proof.
  unfold settings, gatedOff. simpl. unfold Fake.getenv. intros Hs.
  by injection Hs as _ -> _ _ _.
Qed.

(** One pass of [reconcileRole] against the in-memory client, whether Dex
    gates the component off or not. *)
Lemma role_pass_in_memory name rules cr (w : Fake.t) log :
  quiet w -> wellKeyed (Fake.Roles w) ->
  let out := reconcileRole name rules cr (mkState w log) in
  out.1.2 = None /\
  settings (world out.2) = settings w /\
  Fake.ClusterRoles (world out.2) = Fake.ClusterRoles w /\
  wellKeyed (Fake.Roles (world out.2)) /\
  (forall n, n ∈ managedBy cr w ->
     if gatedOff name w
     then Fake.Roles (world out.2) !! roleKeyIn name cr n = None
     else exists r, Fake.Roles (world out.2) !! roleKeyIn name cr n = Some r /\
            Role.Rules r = rules) /\
  (forall k, k ∉ roleKeyIn name cr <$> managedBy cr w ->
     Fake.Roles (world out.2) !! k = Fake.Roles w !! k).
Proof.
  intros Hq Hwf out.
  destruct (reconcileRole_kept name rules cr (mkState w log)) as [Hs Hc].
  fold out in Hs, Hc. cbn [world] in Hs, Hc.
  destruct (gatedOff name w) eqn:Hgate.
  - assert (Hlist : ListNamespaces
              {[ArgoCDManagedByLabel := ArgoCD.Namespace cr]} w =
              (inr (managedBy cr w), w)).
    { simpl. unfold Fake.listNamespaces. by rewrite (proj1 Hq). }
    destruct (loop_gated_in_memory name rules cr (managedBy cr w) [] w
                (log ++ [CallList
                           {[ArgoCDManagedByLabel := ArgoCD.Namespace cr]}])
                Hq Hwf Hgate)
      as (w' & ext & roles' & Hrun & Hroles & _ & _).
    revert Hs Hc. subst out.
    rewrite (reconcileRole_after_list name rules cr (mkState w log)
               (managedBy cr w) w Hlist).
    cbn [world calls]. rewrite Hrun. cbn [fst snd world].
    intros Hs Hc. split; [reflexivity|]. split; [exact Hs|].
    split; [exact Hc|]. rewrite Hroles. split; [|split].
    + intros k r Hk. rewrite removed_lookup in Hk.
      destruct (decide _); [done|]. by apply Hwf.
    + intros n Hn. rewrite removed_lookup.
      by rewrite decide_True by (by apply list_elem_of_fmap_2).
    + intros k Hk. rewrite removed_lookup. by rewrite decide_False.
  - destruct (reconcileRole_in_memory name rules cr w log Hq Hwf Hgate)
      as (w' & ext & Hrun & _ & Hwf' & _ & _ & Hroles & _).
    revert Hs Hc. subst out. rewrite Hrun. cbn [fst snd world].
    intros Hs Hc. split; [reflexivity|]. split; [exact Hs|].
    split; [exact Hc|]. split; [exact Hwf'|]. rewrite Hroles. split.
    + intros n Hn.
      destruct (converged_spec name rules cr (managedBy cr w) (Fake.Roles w)
                  (roleKeyIn name cr n)) as [Hin _].
      destruct Hin as (r & Hk & Hr & _); [by apply list_elem_of_fmap_2|].
      by exists r.
    + intros k Hk.
      by destruct (converged_spec name rules cr (managedBy cr w)
                     (Fake.Roles w) k) as [_ Hout]; apply Hout.
Qed.

Lemma getClusterRole_quiet key (w : Fake.t) :
  (forall c, Fake.Fault w c = None) ->
  Fake.getClusterRole (NamespacedName.mk "" key) (Fake.hooked w) =
  (match Fake.ClusterRoles w !! key with
   | Some c => inr c
   | None => inl (Fake.notFound Fake.clusterroles key)
   end, Fake.hooked w).
Proof.
  intros Hf. unfold Fake.getClusterRole. simpl. rewrite Hf.
  by destruct (Fake.ClusterRoles w !! key).
Qed.

Lemma writeClusterRole_quiet (c : ClusterRole.t) (w : Fake.t) :
  (forall c, Fake.Fault w c = None) ->
  let stored := Fake.ClusterRoles w !! ClusterRole.Name c in
  (stored = None ->
   Fake.createClusterRole c (Fake.hooked w) =
   (None,
    Fake.with_ClusterRoles (<[ClusterRole.Name c := c]> (Fake.ClusterRoles w))
      (Fake.hooked w))) /\
  (is_Some stored ->
   Fake.updateClusterRole c (Fake.hooked w) =
   (None,
    Fake.with_ClusterRoles (<[ClusterRole.Name c := c]> (Fake.ClusterRoles w))
      (Fake.hooked w)) /\
   Fake.deleteClusterRole c (Fake.hooked w) =
   (None,
    Fake.with_ClusterRoles (delete (ClusterRole.Name c) (Fake.ClusterRoles w))
      (Fake.hooked w))).
Proof.
  intros Hf stored.
  unfold Fake.createClusterRole, Fake.updateClusterRole,
    Fake.deleteClusterRole.
  simpl. rewrite !Hf. fold stored. split.
  - by intros ->.
  - by intros [e ->].
Qed.

(** One pass of [reconcileClusterRole] against the in-memory client. *)
Lemma reconcileClusterRole_in_memory name rules cr (w : Fake.t) log :
  (forall c, Fake.Fault w c = None) -> quietCluster w ->
  wellNamed (Fake.ClusterRoles w) ->
  let out := reconcileClusterRole name rules cr (mkState w log) in
  let key := GenerateUniqueResourceName name cr in
  out.1.2 = None /\
  settings (world out.2) = settings w /\
  Fake.Roles (world out.2) = Fake.Roles w /\
  wellNamed (Fake.ClusterRoles (world out.2)) /\
  (if clusterConfigAllowedIn cr w
   then exists c, Fake.ClusterRoles (world out.2) !! key = Some c /\
          ClusterRole.Rules c = rules /\
          match Fake.ClusterRoles w !! key with
          | Some existing =>
            ClusterRole.ObjectMeta c = ClusterRole.ObjectMeta existing
          | None => c = setClusterRoleOwner cr (newClusterRole name rules cr)
          end
   else Fake.ClusterRoles (world out.2) !! key = None) /\
  (forall k, k ≠ key ->
     Fake.ClusterRoles (world out.2) !! k = Fake.ClusterRoles w !! k).
Proof.
  intros Hf Hh Hwn out key.
  assert (Hhook : hookClusterRole cr (newClusterRole name rules cr) "" w =
                  (inr (newClusterRole name rules cr), Fake.hooked w)).
  { cbn [hookClusterRole fakeRuntime]. by rewrite Hh. }
  pose proof (getClusterRole_quiet key w Hf) as Hget.
  change (Fake.getClusterRole (NamespacedName.mk "" key) (Fake.hooked w))
    with (GetClusterRole
            (NamespacedName.mk ""
               (ClusterRole.Name (newClusterRole name rules cr)))
            (Fake.hooked w)) in Hget.
  subst out.
  rewrite (reconcileClusterRole_after_get name rules cr (mkState w log)
             _ _ _ _ Hhook Hget).
  cbn [world calls]. fold (clusterConfigAllowedIn cr w).
  destruct (Fake.ClusterRoles w !! key) as [existing|] eqn:Hk.
  - pose proof (Hwn _ _ Hk) as Hname.
    destruct (writeClusterRole_quiet existing w Hf) as [_ Hwrite].
    destruct (writeClusterRole_quiet (ClusterRole.with_Rules rules existing)
                w Hf) as [_ Hwrite'].
    change (ClusterRole.Name (ClusterRole.with_Rules rules existing))
      with (ClusterRole.Name existing) in Hwrite'.
    rewrite Hname in Hwrite, Hwrite'.
    destruct Hwrite as [_ Hdel]; [by rewrite Hk|].
    destruct Hwrite' as [Hupd _]; [by rewrite Hk|].
    destruct (clusterConfigAllowedIn cr w); cbn [negb]; cbv zeta.
    + change (ClusterRole.Rules (newClusterRole name rules cr)) with rules.
      change (UpdateClusterRole (ClusterRole.with_Rules rules existing)
                (Fake.hooked w))
        with (Fake.updateClusterRole (ClusterRole.with_Rules rules existing)
                (Fake.hooked w)).
      rewrite Hupd. cbn [fst snd world].
      split; [reflexivity|]. split; [reflexivity|]. split; [reflexivity|].
      cbn [Fake.with_ClusterRoles Fake.ClusterRoles]. split; [|split].
      * intros k c Hc. apply lookup_insert_Some in Hc as [[<- <-]|[_ Hc]].
        -- exact Hname.
        -- by apply Hwn.
      * exists (ClusterRole.with_Rules rules existing).
        by rewrite lookup_insert_eq.
      * intros k Hne. by rewrite lookup_insert_ne.
    + change (DeleteClusterRole existing (Fake.hooked w))
        with (Fake.deleteClusterRole existing (Fake.hooked w)).
      rewrite Hdel. cbn [fst snd world].
      split; [reflexivity|]. split; [reflexivity|]. split; [reflexivity|].
      cbn [Fake.with_ClusterRoles Fake.ClusterRoles]. split; [|split].
      * intros k c Hc. apply lookup_delete_Some in Hc as [_ Hc].
        by apply Hwn.
      * apply lookup_delete_eq.
      * intros k Hne. by rewrite lookup_delete_ne.
  - change (IsNotFound (Fake.notFound Fake.clusterroles key)) with true.
    cbn [negb].
    destruct (writeClusterRole_quiet
                (setClusterRoleOwner cr (newClusterRole name rules cr)) w Hf)
      as [Hcreate _].
    rewrite Name_setClusterRoleOwner in Hcreate.
    change (ClusterRole.Name (newClusterRole name rules cr))
      with key in Hcreate.
    specialize (Hcreate Hk).
    destruct (clusterConfigAllowedIn cr w); cbn [negb]; cbv zeta.
    + change (CreateClusterRole
                (setClusterRoleOwner cr (newClusterRole name rules cr))
                (Fake.hooked w))
        with (Fake.createClusterRole
                (setClusterRoleOwner cr (newClusterRole name rules cr))
                (Fake.hooked w)).
      rewrite Hcreate. cbn [fst snd world].
      split; [reflexivity|]. split; [reflexivity|]. split; [reflexivity|].
      cbn [Fake.with_ClusterRoles Fake.ClusterRoles]. split; [|split].
      * intros k c Hc. apply lookup_insert_Some in Hc as [[<- <-]|[_ Hc]].
        -- apply Name_setClusterRoleOwner.
        -- by apply Hwn.
      * exists (setClusterRoleOwner cr (newClusterRole name rules cr)).
        by rewrite lookup_insert_eq.
      * intros k Hne. by rewrite lookup_insert_ne.
    + cbn [fst snd world].
      split; [reflexivity|]. split; [reflexivity|]. split; [reflexivity|].
      split; [exact Hwn|]. split; [exact Hk|]. done.
Qed.

Lemma reconcileRole_pass name rules cr (s : State Fake.t) :
  quiet (world s) -> wellKeyed (Fake.Roles (world s)) ->
  let out := reconcileRole name rules cr s in
  out.1.2 = None /\
  settings (world out.2) = settings (world s) /\
  Fake.ClusterRoles (world out.2) = Fake.ClusterRoles (world s) /\
  wellKeyed (Fake.Roles (world out.2)) /\
  (forall n, n ∈ managedBy cr (world s) ->
     if gatedOff name (world s)
     then Fake.Roles (world out.2) !! roleKeyIn name cr n = None
     else exists r, Fake.Roles (world out.2) !! roleKeyIn name cr n = Some r /\
            Role.Rules r = rules) /\
  (forall k, k ∉ roleKeyIn name cr <$> managedBy cr (world s) ->
     Fake.Roles (world out.2) !! k = Fake.Roles (world s) !! k).
Proof. destruct s as [w log]. apply role_pass_in_memory. Qed.

Lemma reconcileClusterRole_pass name rules cr (s : State Fake.t) :
  (forall c, Fake.Fault (world s) c = None) -> quietCluster (world s) ->
  wellNamed (Fake.ClusterRoles (world s)) ->
  let out := reconcileClusterRole name rules cr s in
  let key := GenerateUniqueResourceName name cr in
  out.1.2 = None /\
  settings (world out.2) = settings (world s) /\
  Fake.Roles (world out.2) = Fake.Roles (world s) /\
  wellNamed (Fake.ClusterRoles (world out.2)) /\
  (if clusterConfigAllowedIn cr (world s)
   then exists c, Fake.ClusterRoles (world out.2) !! key = Some c /\
          ClusterRole.Rules c = rules /\
          match Fake.ClusterRoles (world s) !! key with
          | Some existing =>
            ClusterRole.ObjectMeta c = ClusterRole.ObjectMeta existing
          | None => c = setClusterRoleOwner cr (newClusterRole name rules cr)
          end
   else Fake.ClusterRoles (world out.2) !! key = None) /\
  (forall k, k ≠ key ->
     Fake.ClusterRoles (world out.2) !! k = Fake.ClusterRoles (world s) !! k).
Proof. destruct s as [w log]. apply reconcileClusterRole_in_memory. Qed.

Lemma settings_quietCluster (w w' : Fake.t) :
  settings w' = settings w -> quietCluster w -> quietCluster w'.
Proof.
  unfold settings, quietCluster. intros Hs Hh. by injection Hs as _ _ _ _ ->.
Qed.

Lemma settings_allowed cr (w w' : Fake.t) :
  settings w' = settings w ->
  clusterConfigAllowedIn cr w' = clusterConfigAllowedIn cr w.
Proof.
  unfold settings, clusterConfigAllowedIn. simpl. unfold Fake.getenv.
  intros Hs. by injection Hs as _ -> _ _ _.
Qed.

Lemma generateResourceName_component c1 c2 cr :
  generateResourceName c1 cr = generateResourceName c2 cr -> c1 = c2.
Proof.
  unfold generateResourceName. intros Heq.
  apply string_app_inv_head in Heq. by apply string_app_inv_head in Heq.
Qed.

Lemma GenerateUniqueResourceName_component c1 c2 cr :
  GenerateUniqueResourceName c1 cr = GenerateUniqueResourceName c2 cr ->
  c1 = c2.
Proof.
  unfold GenerateUniqueResourceName. intros Heq.
  do 4 apply string_app_inv_head in Heq. exact Heq.
Qed.

Lemma roleKeyIn_other name name' cr n (items : list Namespace.t) :
  name ≠ name' -> roleKeyIn name cr n ∉ roleKeyIn name' cr <$> items.
Proof.
  intros Hne Hin. apply list_elem_of_fmap in Hin as (n' & Heq & _).
  unfold roleKeyIn in Heq. injection Heq as _ Hg.
  by apply generateResourceName_component in Hg.
Qed.

(** X16: against the in-memory client, without faults and with hooks that
    let the ClusterRole through, [reconcileClusterRole] returns no error and
    leaves the store as the cluster-config gate says.  When the namespace of
    the instance is allowed, the store holds the ClusterRole of the
    component with the policy rules of the pass: the one that was there with
    its metadata as it was, or else the new one, with the generated name,
    the cluster labels and annotations, and no owner reference, because the
    library refuses a custom resource that lives in a namespace as the owner
    of a cluster-scoped object.  When the namespace is not allowed the store
    holds none.  No other ClusterRole and no Role changes, and a second pass
    leaves the ClusterRoles as the first left them. *)
Theorem reconcileClusterRole_converges_in_memory name rules cr (w : Fake.t) :
  (forall c, Fake.Fault w c = None) -> quietCluster w ->
  wellNamed (Fake.ClusterRoles w) ->
  let first := reconcileClusterRole name rules cr (start w) in
  let second := reconcileClusterRole name rules cr first.2 in
  let key := GenerateUniqueResourceName name cr in
  first.1.2 = None /\
  (if clusterConfigAllowedIn cr w
   then exists c, Fake.ClusterRoles (world first.2) !! key = Some c /\
          ClusterRole.Rules c = rules /\
          match Fake.ClusterRoles w !! key with
          | Some existing =>
            ClusterRole.ObjectMeta c = ClusterRole.ObjectMeta existing
          | None =>
            ClusterRole.ObjectMeta c =
              ObjectMeta.mk key "" (labelsForCluster cr)
                (annotationsForCluster cr)
                (if bool_decide (ArgoCD.Namespace cr = "")
                 then [controllerutil.newControllerRef cr] else []) /\
            (ArgoCD.Namespace cr <> "" ->
             ObjectMeta.OwnerReferences (ClusterRole.ObjectMeta c) = [])
          end
   else Fake.ClusterRoles (world first.2) !! key = None) /\
  (forall k, k ≠ key ->
     Fake.ClusterRoles (world first.2) !! k = Fake.ClusterRoles w !! k) /\
  Fake.Roles (world first.2) = Fake.Roles w /\
  second.1.2 = None /\
  Fake.ClusterRoles (world second.2) = Fake.ClusterRoles (world first.2).
Proof.
  intros Hf Hh Hwn first second key.
  destruct (reconcileClusterRole_pass name rules cr (start w) Hf Hh Hwn)
    as (E1 & S1 & R1 & N1 & In1 & Out1).
  fold first key in E1, S1, R1, N1, In1, Out1. cbn [start world] in *.
  assert (Hf1 : forall c, Fake.Fault (world first.2) c = None).
  { intros c. unfold settings in S1. injection S1 as _ _ -> _ _. apply Hf. }
  destruct (reconcileClusterRole_pass name rules cr first.2 Hf1
              (settings_quietCluster _ _ S1 Hh) N1)
    as (E2 & S2 & R2 & N2 & In2 & Out2).
  fold second key in E2, S2, R2, N2, In2, Out2.
  rewrite (settings_allowed cr _ _ S1) in In2.
  split; [exact E1|]. split; [|split; [exact Out1|]].
  2:{ split; [exact R1|]. split; [exact E2|].
      apply map_eq. intros k. destruct (decide (k = key)) as [->|Hne].
      - destruct (clusterConfigAllowedIn cr w).
        + destruct In1 as (c1 & Hk1 & Hr1 & _).
          rewrite Hk1 in In2. destruct In2 as (c2 & Hk2 & Hr2 & Hm2).
          rewrite Hk1, Hk2. f_equal. destruct c1, c2. simpl in *. congruence.
        + by rewrite In1, In2.
      - by apply Out2. }
  destruct (clusterConfigAllowedIn cr w); [|exact In1].
  destruct In1 as (c & Hk & Hr & Hmeta).
  exists c. split; [exact Hk|]. split; [exact Hr|].
  destruct (Fake.ClusterRoles w !! key); [exact Hmeta|].
  subst c. rewrite setClusterRoleOwner_new.
  cbn [ClusterRole.ObjectMeta ObjectMeta.OwnerReferences].
  split; [reflexivity|]. intros Hne. by rewrite bool_decide_eq_false_2.
Qed.

(** X17: against the in-memory client, without faults and with hooks that
    let every object through, [reconcileRoles] returns no error and leaves
    the store converged for all six steps at once; a later step does not
    undo an earlier one.  Every namespace with the managed-by label of the
    instance holds the Roles of the application controller, the server and
    Redis HA with their policy rules, and the Role of Dex unless Dex is
    disabled, in which case it holds none.  The ClusterRoles of the
    application controller and the server are held with their rules when
    the namespace of the instance is allowed cluster configuration, and
    absent otherwise.  Roles in namespaces without the label are not
    touched. *)
Theorem reconcileRoles_converges_in_memory cr (w : Fake.t) :
  quiet w -> quietCluster w -> wellKeyed (Fake.Roles w) ->
  wellNamed (Fake.ClusterRoles w) ->
  let out := reconcileRoles cr (start w) in
  let w' := world out.2 in
  out.1 = (None, None) /\
  (forall n, n ∈ managedBy cr w ->
     holdsRole w' cr n applicationController
       policyRuleForApplicationController /\
     holdsRole w' cr n server policyRuleForServer /\
     holdsRole w' cr n redisHa (policyRuleForRedisHa cr) /\
     if isDexDisabled w
     then storedRole (Namespace.Name n) (generateResourceName dexServer cr) w'
          = None
     else holdsRole w' cr n dexServer policyRuleForDexServer) /\
  (if clusterConfigAllowedIn cr w
   then holdsClusterRole w' cr applicationController
          policyRuleForApplicationController /\
        holdsClusterRole w' cr server policyRuleForServerClusterRole
   else Fake.ClusterRoles w'
          !! GenerateUniqueResourceName applicationController cr = None /\
        Fake.ClusterRoles w' !! GenerateUniqueResourceName server cr = None) /\
  (forall k : string * string,
     (forall n, n ∈ managedBy cr w -> Namespace.Name n ≠ k.1) ->
     Fake.Roles w' !! k = Fake.Roles w !! k).
Proof.
  intros Hq Hqc Hwf Hwn out w'.
  destruct (reconcileRole_pass applicationController
              policyRuleForApplicationController cr (start w) Hq Hwf)
    as (E1 & S1 & C1 & K1 & In1 & Out1).
  set (o1 := reconcileRole applicationController
               policyRuleForApplicationController cr (start w)) in *.
  cbn [start world] in S1, C1, In1, Out1.
  destruct (reconcileRole_pass dexServer policyRuleForDexServer cr o1.2
              (settings_quiet _ _ S1 Hq) K1)
    as (E2 & S2 & C2 & K2 & In2 & Out2).
  set (o2 := reconcileRole dexServer policyRuleForDexServer cr o1.2) in *.
  rewrite (settings_managedBy cr _ _ S1) in In2, Out2.
  rewrite (settings_gatedOff _ _ _ S1) in In2.
  rewrite S1 in S2. rewrite C1 in C2.
  destruct (reconcileRole_pass server policyRuleForServer cr o2.2
              (settings_quiet _ _ S2 Hq) K2)
    as (E3 & S3 & C3 & K3 & In3 & Out3).
  set (o3 := reconcileRole server policyRuleForServer cr o2.2) in *.
  rewrite (settings_managedBy cr _ _ S2) in In3, Out3.
  rewrite (settings_gatedOff _ _ _ S2) in In3.
  rewrite S2 in S3. rewrite C2 in C3.
  destruct (reconcileRole_pass redisHa (policyRuleForRedisHa cr) cr o3.2
              (settings_quiet _ _ S3 Hq) K3)
    as (E4 & S4 & C4 & K4 & In4 & Out4).
  set (o4 := reconcileRole redisHa (policyRuleForRedisHa cr) cr o3.2) in *.
  rewrite (settings_managedBy cr _ _ S3) in In4, Out4.
  rewrite (settings_gatedOff _ _ _ S3) in In4.
  rewrite S3 in S4. rewrite C3 in C4.
  assert (Hf4 : forall c, Fake.Fault (world o4.2) c = None).
  { apply (settings_quiet _ _ S4 Hq). }
  assert (N4 : wellNamed (Fake.ClusterRoles (world o4.2))) by by rewrite C4.
  destruct (reconcileClusterRole_pass applicationController
              policyRuleForApplicationController cr o4.2 Hf4
              (settings_quietCluster _ _ S4 Hqc) N4)
    as (E5 & S5 & R5 & N5 & In5 & Out5).
  set (o5 := reconcileClusterRole applicationController
               policyRuleForApplicationController cr o4.2) in *.
  rewrite (settings_allowed cr _ _ S4) in In5.
  rewrite S4 in S5.
  assert (Hf5 : forall c, Fake.Fault (world o5.2) c = None).
  { intros c. unfold settings in S5. injection S5 as _ _ -> _ _.
    apply (proj1 Hq). }
  destruct (reconcileClusterRole_pass server policyRuleForServerClusterRole
              cr o5.2 Hf5 (settings_quietCluster _ _ S5 Hqc) N5)
    as (E6 & S6 & R6 & N6 & In6 & Out6).
  set (o6 := reconcileClusterRole server policyRuleForServerClusterRole
               cr o5.2) in *.
  rewrite (settings_allowed cr _ _ S5) in In6.
  assert (Hout : out = ((None, None), o6.2)).
  { subst out. unfold reconcileRoles.
    rewrite bind_run. fold o1. rewrite E1.
    rewrite bind_run. fold o2. rewrite E2.
    rewrite bind_run. fold o3. rewrite E3.
    rewrite bind_run. fold o4. rewrite E4.
    rewrite bind_run. fold o5. rewrite E5.
    rewrite bind_run. fold o6. rewrite E6. reflexivity. }
  subst w'. rewrite Hout. cbn [fst snd].
  assert (HR : Fake.Roles (world o6.2) = Fake.Roles (world o4.2))
    by (by rewrite R6, R5).
  unfold holdsRole, holdsClusterRole, storedRole. rewrite HR.
  split; [reflexivity|]. split; [|split].
  - intros n Hn.
    change (Namespace.Name n, generateResourceName applicationController cr)
      with (roleKeyIn applicationController cr n).
    change (Namespace.Name n, generateResourceName server cr)
      with (roleKeyIn server cr n).
    change (Namespace.Name n, generateResourceName redisHa cr)
      with (roleKeyIn redisHa cr n).
    change (Namespace.Name n, generateResourceName dexServer cr)
      with (roleKeyIn dexServer cr n).
    split; [|split; [|split]].
    + rewrite Out4, Out3, Out2 by (by apply roleKeyIn_other).
      exact (In1 n Hn).
    + rewrite Out4 by (by apply roleKeyIn_other). exact (In3 n Hn).
    + exact (In4 n Hn).
    + rewrite Out4, Out3 by (by apply roleKeyIn_other).
      specialize (In2 n Hn). unfold gatedOff in In2.
      rewrite bool_decide_eq_true_2 in In2 by reflexivity.
      exact In2.
  - destruct (clusterConfigAllowedIn cr w).
    + split.
      * rewrite Out6
          by (intros Heq;
              by apply GenerateUniqueResourceName_component in Heq).
        destruct In5 as (c & Hk & Hr & _). by exists c.
      * destruct In6 as (c & Hk & Hr & _). by exists c.
    + split; [|exact In6].
      rewrite Out6
        by (intros Heq; by apply GenerateUniqueResourceName_component in Heq).
      exact In5.
  - intros k Hk.
    assert (Hnot : forall name,
              k ∉ roleKeyIn name cr <$> managedBy cr w).
    { intros name Hin. apply list_elem_of_fmap in Hin as (n & -> & Hn).
      by apply (Hk n Hn). }
    by rewrite Out4, Out3, Out2, Out1 by apply Hnot.
Qed.

(** Stores built by inserting ClusterRoles under their own names are well
    named. *)
Lemma wellNamed_empty : wellNamed ∅.
Proof. intros k c Hk. by rewrite lookup_empty in Hk. Qed.

Lemma wellNamed_insert (m : gmap string ClusterRole.t) c :
  wellNamed m -> wellNamed (<[ClusterRole.Name c := c]> m).
Proof.
  intros Hwn k c' Hk. apply lookup_insert_Some in Hk as [[<- <-]|[_ Hk]].
  - reflexivity.
  - by apply Hwn.
Qed.

Lemma staleInstallation_quiet env : quiet (staleInstallation env).
Proof. by split. Qed.

Lemma staleInstallation_wellKeyed env :
  wellKeyed (Fake.Roles (staleInstallation env)).
Proof. apply (mixedCluster_wellKeyed env server). Qed.

Lemma staleInstallation_wellNamed env :
  wellNamed (Fake.ClusterRoles (staleInstallation env)).
Proof.
  apply (wellNamed_insert _ (staleClusterRole "argocd-argocd-argocd-server")).
  apply wellNamed_empty.
Qed.

(** ** The properties above on concrete clusters *)

(** Three ClusterRoles, the Delete of the second fails: the first is gone,
    the third is still there. *)
Lemma deleteClusterRoles_stops_at_first_failure_witness :
  let out :=
    deleteClusterRoles goQuote
      ([staleClusterRole "a"] ++ staleClusterRole "b" :: [staleClusterRole "c"])
      (start threeClusterRoles) in
  (wrapMessage <$> out.1) =
    Some ("failed to delete ClusterRole " +:+ goQuote "b"
            +:+ " during cleanup: etcdserver: request timed out") /\
  Fake.ClusterRoles (world out.2) !! "a" = None /\
  Fake.ClusterRoles (world out.2) !! "c" = Some (staleClusterRole "c").
Proof.
  cbv zeta.
  pose (s1 := (deleteClusterRoles goQuote [staleClusterRole "a"]
                 (start threeClusterRoles)).2).
  destruct (deleteClusterRoles_stops_at_first_failure goQuote
              [staleClusterRole "a"] (staleClusterRole "b")
              [staleClusterRole "c"] (start threeClusterRoles) s1
              internalError (world s1))
    as (Hstate & e & Hout & Hunwrap & Hmsg); [vm_compute; reflexivity ..|].
  rewrite Hout, Hstate. cbn [fmap option_fmap option_map world].
  split; [by rewrite Hmsg|]. split; vm_compute; reflexivity.
Defined.

(** The Roles a pass returns, with the library's [SetControllerReference].
    The custom resource lives in [argocd]: the Role created there is
    returned with the controller reference, the Role created in [dev]
    without one.  With Dex disabled the Dex Role of [dev] is returned
    although nothing was written; a Dex Role that was found is deleted and
    not returned; a server Role that was found is returned as it was sent to
    Update. *)
Lemma reconcileRole_returned_roles_witness :
  (let out :=
     reconcileRoleLoop server policyRuleForServer testArgoCD
       ([] ++ [managedNamespace "argocd"]) []
       (start (emptyCluster ["argocd"; "dev"] ∅)) in
   out.1 = inr [Role.mk
                  (controlledBy testArgoCD
                     (Role.ObjectMeta
                        (desiredRole server policyRuleForServer "argocd")))
                  policyRuleForServer]) /\
  (let out :=
     reconcileRoleLoop server policyRuleForServer testArgoCD
       ([managedNamespace "argocd"] ++ [managedNamespace "dev"]) []
       (start (emptyCluster ["argocd"; "dev"] ∅)) in
   out.1 = inr [ownedRole server policyRuleForServer "argocd";
                desiredRole server policyRuleForServer "dev"] /\
   ObjectMeta.OwnerReferences
     (Role.ObjectMeta (desiredRole server policyRuleForServer "dev")) = []) /\
  (let out :=
     reconcileRoleLoop dexServer policyRuleForDexServer testArgoCD
       ([] ++ [managedNamespace "dev"]) []
       (start (emptyCluster ["dev"] dexOff)) in
   out.1 = inr [desiredRole dexServer policyRuleForDexServer "dev"] /\
   filter isWrite (calls out.2) = [] /\
   Fake.Roles (world out.2) = ∅) /\
  (let out :=
     reconcileRoleLoop dexServer policyRuleForDexServer testArgoCD
       ([] ++ [managedNamespace "dev"]) []
       (start (withRole (staleRole "argocd-argocd-dex-server" "dev")
                 (emptyCluster ["dev"] dexOff))) in
   out.1 = inr []) /\
  (let out :=
     reconcileRoleLoop server policyRuleForServer testArgoCD
       ([] ++ [managedNamespace "dev"]) []
       (start (withRole (staleRole "argocd-argocd-server" "dev")
                 (emptyCluster ["dev"] ∅))) in
   out.1 = inr [Role.with_Rules policyRuleForServer
                  (staleRole "argocd-argocd-server" "dev")]).
Proof.
  split; [|split; [|split; [|split]]]; cbv zeta.
  - set (s0 := start (emptyCluster ["argocd"; "dev"] ∅)).
    destruct (reconcileRole_returned_roles server policyRuleForServer
                testArgoCD [] (managedNamespace "argocd") s0 s0 []
                (newRole server policyRuleForServer testArgoCD)
                (Fake.hooked (world s0))
                (inl (Fake.notFound Fake.roles "argocd-argocd-server"))
                (Fake.hooked (world s0)))
      as (_ & Q & _); [vm_compute; reflexivity ..|].
    destruct (Q _ eq_refl eq_refl eq_refl) as (Hret & _ & Hlib);
      [vm_compute; reflexivity|].
    destruct (Hlib (fun _ _ => eq_refl)) as [Hown _].
    rewrite Hret, (Hown eq_refl eq_refl). reflexivity.
  - set (s0 := start (emptyCluster ["argocd"; "dev"] ∅)).
    pose (pre := reconcileRoleLoop server policyRuleForServer testArgoCD
                   [managedNamespace "argocd"] [] s0).
    destruct (reconcileRole_returned_roles server policyRuleForServer
                testArgoCD [managedNamespace "argocd"] (managedNamespace "dev")
                s0 pre.2 [ownedRole server policyRuleForServer "argocd"]
                (newRole server policyRuleForServer testArgoCD)
                (Fake.hooked (world pre.2))
                (inl (Fake.notFound Fake.roles "argocd-argocd-server"))
                (Fake.hooked (world pre.2)))
      as (_ & Q & _); [vm_compute; reflexivity ..|].
    destruct (Q _ eq_refl eq_refl eq_refl) as (Hret & _ & Hlib);
      [vm_compute; reflexivity|].
    destruct (Hlib (fun _ _ => eq_refl)) as [_ Hother].
    rewrite Hret, Hother by discriminate. split; reflexivity.
  - set (s0 := start (emptyCluster ["dev"] dexOff)).
    destruct (reconcileRole_returned_roles dexServer policyRuleForDexServer
                testArgoCD [] (managedNamespace "dev") s0 s0 []
                (newRole dexServer policyRuleForDexServer testArgoCD)
                (Fake.hooked (world s0))
                (inl (Fake.notFound Fake.roles "argocd-argocd-dex-server"))
                (Fake.hooked (world s0)))
      as (Q & _); [vm_compute; reflexivity ..|].
    destruct (Q _ eq_refl eq_refl eq_refl) as [Hret Hwrites].
    split; [exact Hret|]. split; [exact Hwrites|]. vm_compute. reflexivity.
  - set (s0 := start (withRole (staleRole "argocd-argocd-dex-server" "dev")
                         (emptyCluster ["dev"] dexOff))).
    destruct (reconcileRole_returned_roles dexServer policyRuleForDexServer
                testArgoCD [] (managedNamespace "dev") s0 s0 []
                (newRole dexServer policyRuleForDexServer testArgoCD)
                (Fake.hooked (world s0))
                (inr (staleRole "argocd-argocd-dex-server" "dev"))
                (Fake.hooked (world s0)))
      as (_ & _ & Q & _); [vm_compute; reflexivity ..|].
    apply (Q _ eq_refl eq_refl). vm_compute. reflexivity.
  - set (s0 := start (withRole (staleRole "argocd-argocd-server" "dev")
                         (emptyCluster ["dev"] ∅))).
    destruct (reconcileRole_returned_roles server policyRuleForServer
                testArgoCD [] (managedNamespace "dev") s0 s0 []
                (newRole server policyRuleForServer testArgoCD)
                (Fake.hooked (world s0))
                (inr (staleRole "argocd-argocd-server" "dev"))
                (Fake.hooked (world s0)))
      as (_ & _ & _ & Q); [vm_compute; reflexivity ..|].
    apply (Q _ eq_refl eq_refl). vm_compute. reflexivity.
Defined.

(** A Role and a ClusterRole that already have the rules of the pass are
    sent to Update as they are. *)
Lemma update_sent_even_when_rules_match_witness :
  (let existing :=
     Role.with_Rules policyRuleForServer (staleRole "argocd-argocd-server" "dev") in
   let out := reconcileRoleIteration server policyRuleForServer testArgoCD
                (managedNamespace "dev") []
                (start (withRole existing (emptyCluster ["dev"] ∅))) in
   last (calls out.2) = Some (CallUpdate (RoleObject existing))) /\
  (let existing :=
     ClusterRole.with_Rules policyRuleForServerClusterRole
       (staleClusterRole "argocd-argocd-argocd-server") in
   let out := reconcileClusterRole server policyRuleForServerClusterRole
                testArgoCD
                (start (withClusterRole existing
                          (emptyCluster ["argocd"] clusterConfigAllowed))) in
   last (calls out.2) = Some (CallUpdate (ClusterRoleObject existing))).
Proof.
  destruct (update_sent_even_when_rules_match (W:=Fake.t)) as (Q1 & Q2).
  split; cbv zeta.
  - set (existing := Role.with_Rules _ _).
    set (s0 := start (withRole existing (emptyCluster ["dev"] ∅))).
    rewrite (Q1 server policyRuleForServer testArgoCD (managedNamespace "dev")
               [] s0 (newRole server policyRuleForServer testArgoCD)
               (Fake.hooked (world s0)) existing (Fake.hooked (world s0)));
      [reflexivity | vm_compute; reflexivity ..].
  - set (existing := ClusterRole.with_Rules _ _).
    set (s0 := start (withClusterRole existing
                        (emptyCluster ["argocd"] clusterConfigAllowed))).
    rewrite (Q2 server policyRuleForServerClusterRole testArgoCD s0
               (newClusterRole server policyRuleForServerClusterRole testArgoCD)
               (Fake.hooked (world s0)) existing (Fake.hooked (world s0)));
      [reflexivity | vm_compute; reflexivity ..].
Defined.

(** The lookup of the Dex Role fails: [reconcileRoles] returns the wrapped
    error of the second step; the Role of the application controller has
    been created, the Role of the server has not, nor any ClusterRole. *)
Lemma reconcileRoles_stops_at_failing_step_witness :
  let w := Fake.with_Fault (failGetRoleNamed "argocd-argocd-dex-server")
             (emptyCluster ["argocd"] clusterConfigAllowed) in
  let out := reconcileRoles testArgoCD (start w) in
  out.1 = (None, Some (roleLookupError dexServer internalError)) /\
  storedRole "argocd" "argocd-argocd-application-controller" (world out.2) =
    Some (ownedRole applicationController policyRuleForApplicationController
            "argocd") /\
  storedRole "argocd" "argocd-argocd-server" (world out.2) = None /\
  Fake.ClusterRoles (world out.2) = ∅.
Proof.
  cbv zeta. set (w := Fake.with_Fault _ _).
  rewrite (reconcileRoles_stops_at_failing_step testArgoCD (start w) 1
             (bind (reconcileRole dexServer policyRuleForDexServer testArgoCD)
                   (fun r => ret r.2))
             (roleLookupError dexServer internalError)
             (untilError (take 1 (roleSteps testArgoCD)) (start w)).2
             (bind (reconcileRole dexServer policyRuleForDexServer testArgoCD)
                   (fun r => ret r.2)
                (untilError (take 1 (roleSteps testArgoCD)) (start w)).2).2);
    [|reflexivity | vm_compute; reflexivity ..].
  split; [reflexivity|].
  split; [|split]; vm_compute; reflexivity.
Defined.

Lemma reconcileRoles_cluster_roles_come_last_witness :
  let w := Fake.with_Fault (failGetRoleNamed "argocd-argocd-dex-server")
             (emptyCluster ["argocd"] clusterConfigAllowed) in
  let out := reconcileRoles testArgoCD (start w) in
  out.1 = (None, Some (roleLookupError dexServer internalError)) /\
  exists ext,
    calls out.2 = ext /\
    Forall (fun c => isClusterRoleCall c = false) ext.
Proof.
  cbv zeta. set (w := Fake.with_Fault _ _).
  destruct (reconcileRoles_cluster_roles_come_last testArgoCD (start w)
              (roleLookupError dexServer internalError))
    as (Heq & ext & Hcalls & Hnone); [vm_compute; reflexivity|].
  split; [by rewrite Heq|]. exists ext. split; [exact Hcalls | exact Hnone].
Defined.

(** A test that changes HTTP_PROXY, sets DISABLE_DEX and sets
    ARGOCD_CLUSTER_CONFIG_NAMESPACES. *)
Lemma restoreEnv_round_trip_witness :
  let after := Tests.cleanup (Tests.restoreEnv envBefore) envAfterTest in
  Deployments.Getenv after "HTTP_PROXY" = "proxy:1" /\
  Deployments.Getenv after "DISABLE_DEX" = "" /\
  after !! "ARGOCD_CLUSTER_CONFIG_NAMESPACES" = Some "argocd".
Proof.
  cbv zeta.
  destruct (restoreEnv_round_trip envBefore envAfterTest
              (map_to_list (Tests.restoreEnv envBefore)) "HTTP_PROXY"
              (reflexivity _))
    as (Hafter & Hin & _ & _).
  destruct (restoreEnv_round_trip envBefore envAfterTest
              (map_to_list (Tests.restoreEnv envBefore)) "DISABLE_DEX"
              (reflexivity _))
    as (_ & Hin2 & _ & _).
  destruct (restoreEnv_round_trip envBefore envAfterTest
              (map_to_list (Tests.restoreEnv envBefore))
              "ARGOCD_CLUSTER_CONFIG_NAMESPACES" (reflexivity _))
    as (_ & _ & Hout & Hnot).
  rewrite <- Hafter. split; [|split].
  - rewrite Hin.
    + vm_compute. reflexivity.
    + unfold Tests.keys. left.
  - rewrite Hin2.
    + vm_compute. reflexivity.
    + unfold Tests.keys. do 6 right. left.
  - rewrite (Hout Hnot). vm_compute. reflexivity.
Defined.

(** DISABLE_DEX was unset, the test set it: afterwards it is set, to the
    empty string. *)
Lemma restoreEnv_sets_unset_variables_empty_witness :
  Tests.cleanup (Tests.restoreEnv ∅) dexOff !! "DISABLE_DEX" = Some "".
Proof.
  refine (proj1 (restoreEnv_sets_unset_variables_empty ∅ dexOff "DISABLE_DEX"
                   _ _)).
  - unfold Tests.keys. do 6 right. left.
  - apply lookup_empty.
Defined.

(** Two managed namespaces, one of them with a stale Role of the server,
    and an unmanaged namespace with a Role of the same name; the new Role of
    [argocd], where the custom resource lives, carries the controller
    reference.  And on a cluster without Roles, the new Role of [dev]
    carries none. *)
Lemma reconcileRole_converges_in_memory_witness :
  (let w := mixedCluster ∅ server in
   let out := reconcileRole server policyRuleForServer testArgoCD (start w) in
   out.1.2 = None /\
   (exists r,
      storedRole "dev" "argocd-argocd-server" (world out.2) = Some r /\
      Role.Rules r = policyRuleForServer /\
      Role.ObjectMeta r =
        Role.ObjectMeta (staleRole "argocd-argocd-server" "dev")) /\
   (exists r,
      storedRole "argocd" "argocd-argocd-server" (world out.2) = Some r /\
      ObjectMeta.OwnerReferences (Role.ObjectMeta r) =
        [controllerutil.newControllerRef testArgoCD]) /\
   storedRole "other" "argocd-argocd-server" (world out.2) =
     Some (staleRole "argocd-argocd-server" "other")) /\
  (let w := emptyCluster ["argocd"; "dev"] ∅ in
   let out := reconcileRole server policyRuleForServer testArgoCD (start w) in
   exists r,
     storedRole "dev" "argocd-argocd-server" (world out.2) = Some r /\
     Role.Rules r = policyRuleForServer /\
     ObjectMeta.OwnerReferences (Role.ObjectMeta r) = []).
Proof.
  split; cbv zeta.
  - set (w := mixedCluster ∅ server).
    destruct (reconcileRole_converges_in_memory server policyRuleForServer
                testArgoCD w (mixedCluster_quiet ∅ server)
                (mixedCluster_wellKeyed ∅ server) eq_refl)
      as (Herr & Hconv & Hframe).
    assert (Hm : managedBy testArgoCD w =
                 [managedNamespace "argocd"; managedNamespace "dev"])
      by (vm_compute; reflexivity).
    split; [exact Herr|]. split; [|split].
    + destruct (Hconv (managedNamespace "dev")) as (r & Hs & Hr & Hmeta).
      { rewrite Hm. right. left. }
      exists r. split; [exact Hs|]. split; [exact Hr | exact Hmeta].
    + destruct (Hconv (managedNamespace "argocd")) as (r & Hs & _ & Hnew).
      { rewrite Hm. left. }
      exists r. split; [exact Hs|].
      exact (proj1 (proj2 Hnew) eq_refl).
    + etransitivity; [apply (Hframe ("other", "argocd-argocd-server"))|].
      * rewrite Hm. intros Hin.
        apply elem_of_cons in Hin as [Heq|Hin]; [discriminate|].
        apply elem_of_cons in Hin as [Heq|Hin]; [discriminate|].
        apply elem_of_nil in Hin. destruct Hin.
      * vm_compute. reflexivity.
  - set (w := emptyCluster ["argocd"; "dev"] ∅).
    destruct (reconcileRole_converges_in_memory server policyRuleForServer
                testArgoCD w (conj (fun _ => eq_refl) (fun _ _ _ => eq_refl))
                wellKeyed_empty eq_refl)
      as (_ & Hconv & _).
    assert (Hm : managedBy testArgoCD w =
                 [managedNamespace "argocd"; managedNamespace "dev"])
      by (vm_compute; reflexivity).
    destruct (Hconv (managedNamespace "dev")) as (r & Hs & Hr & Hnew).
    { rewrite Hm. right. left. }
    exists r. split; [exact Hs|]. split; [exact Hr|].
    apply (proj2 (proj2 Hnew)); discriminate.
Defined.

Lemma reconcileRole_idempotent_in_memory_witness :
  let w := mixedCluster ∅ server in
  let first := reconcileRole server policyRuleForServer testArgoCD (start w) in
  let second := reconcileRole server policyRuleForServer testArgoCD first.2 in
  second.1 = first.1 /\
  Fake.Roles (world second.2) = Fake.Roles (world first.2) /\
  length first.1.1 = 2%nat.
Proof.
  cbv zeta. set (w := mixedCluster ∅ server).
  destruct (reconcileRole_idempotent_in_memory server policyRuleForServer
              testArgoCD w (mixedCluster_quiet ∅ server)
              (mixedCluster_wellKeyed ∅ server) eq_refl)
    as (Hsame & Hstore & _).
  split; [exact Hsame|]. split; [exact Hstore|]. vm_compute. reflexivity.
Defined.

(** Dex is disabled: the stale Dex Role of [dev] is deleted, the one of the
    unmanaged namespace stays, and the Role returned for [argocd] is in no
    store. *)
Lemma reconcileRole_removes_gated_roles_in_memory_witness :
  let w := mixedCluster dexOff dexServer in
  let out :=
    reconcileRole dexServer policyRuleForDexServer testArgoCD (start w) in
  out.1.2 = None /\
  storedRole "dev" "argocd-argocd-dex-server" (world out.2) = None /\
  storedRole "argocd" "argocd-argocd-dex-server" (world out.2) = None /\
  storedRole "other" "argocd-argocd-dex-server" (world out.2) =
    Some (staleRole "argocd-argocd-dex-server" "other") /\
  out.1.1 = [desiredRole dexServer policyRuleForDexServer "argocd"].
Proof.
  cbv zeta. set (w := mixedCluster dexOff dexServer).
  destruct (reconcileRole_removes_gated_roles_in_memory dexServer
              policyRuleForDexServer testArgoCD w
              (mixedCluster_quiet dexOff dexServer)
              (mixedCluster_wellKeyed dexOff dexServer) eq_refl)
    as (Herr & Hgone & Hframe & _ & _).
  assert (Hm : managedBy testArgoCD w =
               [managedNamespace "argocd"; managedNamespace "dev"])
    by (vm_compute; reflexivity).
  split; [exact Herr|]. split; [|split; [|split]].
  - apply (Hgone (managedNamespace "dev")). rewrite Hm. right. left.
  - apply (Hgone (managedNamespace "argocd")). rewrite Hm. left.
  - etransitivity; [apply (Hframe ("other", "argocd-argocd-dex-server"))|].
    + rewrite Hm. intros Hin.
      apply elem_of_cons in Hin as [Heq|Hin]; [discriminate|].
      apply elem_of_cons in Hin as [Heq|Hin]; [discriminate|].
      by apply elem_of_nil in Hin.
    + vm_compute. reflexivity.
  - vm_compute. reflexivity.
Defined.

(** A stale ClusterRole of the server, in a cluster whose namespace
    [argocd] is allowed cluster configuration: the rules are replaced, the
    metadata stays, and the second pass changes nothing.  Without a
    ClusterRole in place, the new one is stored without owner reference. *)
Lemma reconcileClusterRole_converges_in_memory_witness :
  (let w := staleInstallation clusterConfigAllowed in
   let first :=
     reconcileClusterRole server policyRuleForServerClusterRole testArgoCD
       (start w) in
   let second :=
     reconcileClusterRole server policyRuleForServerClusterRole testArgoCD
       first.2 in
   first.1.2 = None /\
   (exists c,
      Fake.ClusterRoles (world first.2) !! "argocd-argocd-argocd-server"
        = Some c /\
      ClusterRole.Rules c = policyRuleForServerClusterRole /\
      ClusterRole.ObjectMeta c =
        ClusterRole.ObjectMeta
          (staleClusterRole "argocd-argocd-argocd-server")) /\
   Fake.ClusterRoles (world second.2) = Fake.ClusterRoles (world first.2)) /\
  (let w := emptyCluster ["argocd"] clusterConfigAllowed in
   let first :=
     reconcileClusterRole server policyRuleForServerClusterRole testArgoCD
       (start w) in
   exists c,
     Fake.ClusterRoles (world first.2) !! "argocd-argocd-argocd-server"
       = Some c /\
     ClusterRole.Rules c = policyRuleForServerClusterRole /\
     ObjectMeta.OwnerReferences (ClusterRole.ObjectMeta c) = []).
Proof.
  split; cbv zeta.
  - set (w := staleInstallation clusterConfigAllowed).
    destruct (reconcileClusterRole_converges_in_memory server
                policyRuleForServerClusterRole testArgoCD w
                (fun _ => eq_refl) (fun _ _ _ => eq_refl)
                (staleInstallation_wellNamed clusterConfigAllowed))
      as (Herr & Hheld & _ & _ & _ & Hsame).
    assert (Ha : clusterConfigAllowedIn testArgoCD w = true)
      by (vm_compute; reflexivity).
    assert (Hk : Fake.ClusterRoles w
                   !! GenerateUniqueResourceName server testArgoCD =
                 Some (staleClusterRole "argocd-argocd-argocd-server"))
      by (vm_compute; reflexivity).
    rewrite Ha, Hk in Hheld.
    split; [exact Herr|]. split; [exact Hheld | exact Hsame].
  - set (w := emptyCluster ["argocd"] clusterConfigAllowed).
    destruct (reconcileClusterRole_converges_in_memory server
                policyRuleForServerClusterRole testArgoCD w
                (fun _ => eq_refl) (fun _ _ _ => eq_refl) wellNamed_empty)
      as (_ & Hheld & _).
    assert (Ha : clusterConfigAllowedIn testArgoCD w = true)
      by (vm_compute; reflexivity).
    assert (Hk : Fake.ClusterRoles w
                   !! GenerateUniqueResourceName server testArgoCD = None)
      by (vm_compute; reflexivity).
    rewrite Ha, Hk in Hheld. destruct Hheld as (c & Hs & Hr & _ & Hrefs).
    exists c. split; [exact Hs|]. split; [exact Hr|].
    apply Hrefs. discriminate.
Defined.

(** The stale installation with Dex disabled and cluster configuration
    allowed: one call of [reconcileRoles] converges the Roles of [dev],
    removes nothing it does not own, and replaces the rules of the stale
    ClusterRole. *)
Lemma reconcileRoles_converges_in_memory_witness :
  let w := staleInstallation dexOffClusterAllowed in
  let out := reconcileRoles testArgoCD (start w) in
  out.1 = (None, None) /\
  holdsRole (world out.2) testArgoCD (managedNamespace "dev") server
    policyRuleForServer /\
  storedRole "dev" "argocd-argocd-dex-server" (world out.2) = None /\
  holdsClusterRole (world out.2) testArgoCD server
    policyRuleForServerClusterRole /\
  storedRole "other" "argocd-argocd-server" (world out.2) =
    Some (staleRole "argocd-argocd-server" "other").
Proof.
  cbv zeta. set (w := staleInstallation dexOffClusterAllowed).
  destruct (reconcileRoles_converges_in_memory testArgoCD w
              (staleInstallation_quiet dexOffClusterAllowed)
              (fun _ _ _ => eq_refl)
              (staleInstallation_wellKeyed dexOffClusterAllowed)
              (staleInstallation_wellNamed dexOffClusterAllowed))
    as (Hret & Hroles & Hcluster & Hframe).
  assert (Hm : managedBy testArgoCD w =
               [managedNamespace "argocd"; managedNamespace "dev"])
    by (vm_compute; reflexivity).
  assert (Hd : isDexDisabled w = true) by (vm_compute; reflexivity).
  assert (Ha : clusterConfigAllowedIn testArgoCD w = true)
    by (vm_compute; reflexivity).
  rewrite Ha in Hcluster.
  destruct (Hroles (managedNamespace "dev")) as (_ & Hserver & _ & Hdex).
  { rewrite Hm. right. left. }
  rewrite Hd in Hdex.
  split; [exact Hret|]. split; [exact Hserver|]. split; [exact Hdex|].
  split; [exact (proj2 Hcluster)|].
  etransitivity; [apply (Hframe ("other", "argocd-argocd-server"))|].
  - rewrite Hm. intros n Hin.
    apply elem_of_cons in Hin as [->|Hin]; [discriminate|].
    apply elem_of_cons in Hin as [->|Hin]; [discriminate|].
    apply elem_of_nil in Hin. destruct Hin.
  - vm_compute. reflexivity.
Defined.
